(** * File Processor Pro: the session registry and the file pipeline

    A shallow embedding of [app.py].  The script keeps a registry of
    uploaded files in [st.session_state.processed_files] (a Python
    dict, hence ordered by insertion), parses each new upload with
    pandas, renders one panel per record with its cleaning and export
    buttons, and finally sweeps the records that were marked for
    deletion.

    The pandas calls the script makes ([drop_duplicates], [select_dtypes],
    [mean], [fillna], [df[names]], [df[names] = ...], [head], [isna]) are
    modelled on a column-major [DataFrame], the mean with the order in
    which numpy adds the numbers of a column; the readers and writers
    ([read_csv], [read_excel], [to_csv], [to_excel]) stay parameters. *)

From Stdlib Require Import String Ascii List Bool ZArith NArith Lia.
From Stdlib Require Import Permutation.
From Stdlib Require Import SpecFloat DecimalString DecimalN.
Import ListNotations.

Open Scope string_scope.
Open Scope list_scope.

(** ** Python strings *)

Module PyStr.

(** [s.endswith(suffix)] *)
Definition endswith (s suffix : string) : bool :=
  let n := String.length s in
  let m := String.length suffix in
  (m <=? n)%nat && String.eqb (substring (n - m) m s) suffix.

(** [str(n)] for a non-negative integer. *)
Definition str_of_N (n : N) : string :=
  NilZero.string_of_uint (N.to_uint n).

(** [", ".join(l)] with an arbitrary separator. *)
Fixpoint join (sep : string) (l : list string) : string :=
  match l with
  | [] => ""
  | [x] => x
  | x :: rest => (x ++ sep ++ join sep rest)%string
  end.

(** [repr(s)] for a string of printable characters without quotes or
    backslashes: the string between single quotes. *)
Definition repr (s : string) : string := ("'" ++ s ++ "'")%string.

(** [repr(l)] for a list of such strings. *)
Definition repr_list (l : list string) : string :=
  ("[" ++ join ", " (map repr l) ++ "]")%string.

End PyStr.

(** ** binary64 arithmetic

    pandas stores numbers with missing entries as float64, with NaN as
    the missing marker.  [spec_float] has a single NaN, zeros and
    infinities of both signs, and the finite values. *)

Module F64.

Definition t := spec_float.

Definition prec : Z := 53.
Definition emax : Z := 1024.

Definition nan : t := S754_nan.
Definition zero : t := S754_zero false.
Definition neg_zero : t := S754_zero true.
Definition inf : t := S754_infinity false.
Definition neg_inf : t := S754_infinity true.

Definition add : t -> t -> t := SFadd prec emax.
Definition div : t -> t -> t := SFdiv prec emax.
Definition of_Z (z : Z) : t := binary_normalize prec emax z 0 false.

Definition is_nan (x : t) : bool :=
  match x with S754_nan => true | _ => false end.

(** [a == b] of IEEE 754: NaN differs from everything, both zeros are
    equal. *)
Definition eqb : t -> t -> bool := SFeqb.

End F64.

(** ** numpy's sum of a float64 array

    [ndarray.sum] along a contiguous axis runs the inner loop of
    [np.add], which is the pairwise summation of [loops_utils.h]: fewer
    than 8 numbers are added one after the other; up to [PW_BLOCKSIZE]
    numbers are added into eight partial sums, which are then added two
    by two, and the numbers left over are added one after the other; a
    longer array is split in two parts, the first a multiple of 8 long,
    and the sums of the parts are added. *)

Module np.

Definition PW_BLOCKSIZE : nat := 128.

(** The partial sums [r[0]] to [r[7]]. *)
Record lanes := mkLanes {
  lane0 : F64.t; lane1 : F64.t; lane2 : F64.t; lane3 : F64.t;
  lane4 : F64.t; lane5 : F64.t; lane6 : F64.t; lane7 : F64.t
}.

(** [r[0] += a[i + 0]; ...; r[7] += a[i + 7]] *)
Definition add_chunk (r : lanes) (a0 a1 a2 a3 a4 a5 a6 a7 : F64.t) : lanes :=
  {| lane0 := F64.add (lane0 r) a0; lane1 := F64.add (lane1 r) a1;
     lane2 := F64.add (lane2 r) a2; lane3 := F64.add (lane3 r) a3;
     lane4 := F64.add (lane4 r) a4; lane5 := F64.add (lane5 r) a5;
     lane6 := F64.add (lane6 r) a6; lane7 := F64.add (lane7 r) a7 |}.

(** [for (i = 8; i < n - (n % 8); i += 8)]: the loop takes eight numbers
    at a time for as long as eight are left; the result is the partial
    sums with the numbers left over. *)
Fixpoint unrolled (r : lanes) (a : list F64.t) : lanes * list F64.t :=
  match a with
  | a0 :: a1 :: a2 :: a3 :: a4 :: a5 :: a6 :: a7 :: rest =>
      unrolled (add_chunk r a0 a1 a2 a3 a4 a5 a6 a7) rest
  | _ => (r, a)
  end.

(** [((r[0] + r[1]) + (r[2] + r[3])) + ((r[4] + r[5]) + (r[6] + r[7]))] *)
Definition add_lanes (r : lanes) : F64.t :=
  F64.add
    (F64.add (F64.add (lane0 r) (lane1 r)) (F64.add (lane2 r) (lane3 r)))
    (F64.add (F64.add (lane4 r) (lane5 r)) (F64.add (lane6 r) (lane7 r))).

(** The two branches for at most [PW_BLOCKSIZE] numbers.  With fewer
    than 8 the sum starts from -0.0, which leaves a sum of negative
    zeros negative. *)
Definition block_sum (a : list F64.t) : F64.t :=
  match a with
  | a0 :: a1 :: a2 :: a3 :: a4 :: a5 :: a6 :: a7 :: rest =>
      let (r, left_over) :=
        unrolled {| lane0 := a0; lane1 := a1; lane2 := a2; lane3 := a3;
                    lane4 := a4; lane5 := a5; lane6 := a6; lane7 := a7 |}
                 rest in
      fold_left F64.add left_over (add_lanes r)
  | _ => fold_left F64.add a F64.neg_zero
  end.

(** [n2 = n / 2; n2 -= n2 % 8] *)
Definition half (n : nat) : nat := n / 2 - (n / 2) mod 8.

(** The recursion of [pairwise_sum], at most [depth] deep. *)
Fixpoint pairwise_sum_rec (depth : nat) (a : list F64.t) : F64.t :=
  match depth with
  | O => block_sum a
  | S depth' =>
      if (length a <=? PW_BLOCKSIZE)%nat then block_sum a
      else
        F64.add (pairwise_sum_rec depth' (firstn (half (length a)) a))
                (pairwise_sum_rec depth' (skipn (half (length a)) a))
  end.

(** Each part is shorter than the array, so a depth of its length is
    never used up. *)
Definition pairwise_sum (a : list F64.t) : F64.t :=
  pairwise_sum_rec (length a) a.

(** [a.sum()]: the sum of no number is 0.0; otherwise the loop adds the
    pairwise sum to the initial value -0.0. *)
Definition sum (a : list F64.t) : F64.t :=
  match a with
  | [] => F64.zero
  | _ => F64.add F64.neg_zero (pairwise_sum a)
  end.

End np.

(** ** Cells, columns and frames *)

Inductive dtype := int64 | float64 | bool_ | datetime64 | object_.

(** What one cell of a frame holds.  An [object_] column holds Python
    objects: strings, booleans, and the float NaN where a value is
    missing. *)
Inductive cell :=
  | VInt (z : Z)
  | VFloat (f : F64.t)
  | VBool (b : bool)
  | VTime (ns : Z)
  | VNaT
  | VStr (s : string).

(** [pd.isna] on a scalar: NaN and NaT are missing, infinities are not. *)
Definition isna (c : cell) : bool :=
  match c with
  | VFloat f => F64.is_nan f
  | VNaT => true
  | _ => false
  end.

(** Equality of two cells as the hash tables behind [duplicated] decide
    it: equal values, and a missing value equal to a missing value. *)
Definition cell_eqb (a b : cell) : bool :=
  match a, b with
  | VInt x, VInt y => Z.eqb x y
  | VFloat x, VFloat y => F64.eqb x y || (F64.is_nan x && F64.is_nan y)
  | VBool x, VBool y => Bool.eqb x y
  | VTime x, VTime y => Z.eqb x y
  | VNaT, VNaT => true
  | VStr x, VStr y => String.eqb x y
  | _, _ => false
  end.

Definition fits (d : dtype) (c : cell) : bool :=
  match d, c with
  | int64, VInt _ => true
  | float64, VFloat _ => true
  | bool_, VBool _ => true
  | datetime64, (VTime _ | VNaT) => true
  | object_, (VStr _ | VBool _) => true
  | object_, VFloat f => F64.is_nan f
  | _, _ => false
  end.

Record Series := mkSeries {
  label : string;
  dtype_of : dtype;
  values : list cell
}.

(** A frame: the row labels and the columns, in order. *)
Record DataFrame := mkDataFrame {
  index : list Z;
  columns : list Series
}.

Definition column_names (df : DataFrame) : list string :=
  map label (columns df).

(** The frames the readers produce: column labels are unique (the readers
    rename repeated headers), every column has one cell per row label and
    every cell fits its column's dtype. *)
Definition wf_series (n : nat) (s : Series) : Prop :=
  length (values s) = n /\ forallb (fits (dtype_of s)) (values s) = true.

Definition wf_frame (df : DataFrame) : Prop :=
  NoDup (column_names df) /\ Forall (wf_series (length (index df))) (columns df).

(** ** Exceptions

    [except Exception] catches the instances of [Exception]; the
    exception [st.rerun()] raises to restart the script is not one. *)

Inductive exn :=
  | PyException (cls msg : string)
  | RerunException.

Inductive result (A : Type) :=
  | Ok (a : A)
  | Raise (e : exn).

Arguments Ok {A} a.
Arguments Raise {A} e.

(** [str(e)] *)
Definition str_of_exn (e : exn) : string :=
  match e with
  | PyException _ msg => msg
  | RerunException => ""
  end.

(** ** The pandas operations the script calls *)

Module pd.

(** [df.shape] *)
Definition shape (df : DataFrame) : nat * nat :=
  (length (index df), length (columns df)).

(** [df.empty]: some axis has length 0. *)
Definition empty (df : DataFrame) : bool :=
  (length (index df) =? 0)%nat || (length (columns df) =? 0)%nat.

(** [df.isna().sum().sum()] *)
Definition isna_sum_sum (df : DataFrame) : nat :=
  list_sum (map (fun s => length (filter isna (values s))) (columns df)).

(** *** Rows *)

Definition row := list cell.

Fixpoint transpose (n : nat) (cols : list (list cell)) : list row :=
  match n with
  | O => []
  | S n' => map (hd VNaT) cols :: transpose n' (map (@tl cell) cols)
  end.

(** The rows of a frame, top to bottom, each with one cell per column. *)
Definition rows (df : DataFrame) : list row :=
  transpose (length (index df)) (map values (columns df)).

Fixpoint row_eqb (r1 r2 : row) : bool :=
  match r1, r2 with
  | [], [] => true
  | a :: r1', b :: r2' => cell_eqb a b && row_eqb r1' r2'
  | _, _ => false
  end.

(** Keep the entries of [l] whose mask bit is set. *)
Fixpoint mask_filter {A : Type} (mask : list bool) (l : list A) : list A :=
  match mask, l with
  | b :: mask', x :: l' =>
      if b then x :: mask_filter mask' l' else mask_filter mask' l'
  | _, _ => []
  end.

(** *** [df.duplicated()], [df[mask]], [df.drop_duplicates()] *)

(** [keep='first']: a row is flagged when a row above it is equal to it. *)
Fixpoint duplicated_from (seen rs : list row) : list bool :=
  match rs with
  | [] => []
  | r :: rs' => existsb (row_eqb r) seen :: duplicated_from (r :: seen) rs'
  end.

Definition duplicated (df : DataFrame) : list bool :=
  if empty df then [] else duplicated_from [] (rows df).

(** [df[mask]] for a boolean mask over the rows. *)
Definition getitem_mask (df : DataFrame) (mask : list bool) : DataFrame :=
  {| index := mask_filter mask (index df);
     columns :=
       map (fun s => {| label := label s; dtype_of := dtype_of s;
                        values := mask_filter mask (values s) |})
           (columns df) |}.

(** [DataFrame.drop_duplicates] returns a copy of an empty frame at once
    and otherwise indexes the frame with the negated [duplicated] mask. *)
Definition drop_duplicates (df : DataFrame) : DataFrame :=
  if empty df then df
  else getitem_mask df (map negb (duplicated df)).

(** [df.head(n)] *)
Definition head (n : nat) (df : DataFrame) : DataFrame :=
  {| index := firstn n (index df);
     columns :=
       map (fun s => {| label := label s; dtype_of := dtype_of s;
                        values := firstn n (values s) |})
           (columns df) |}.

(** *** [df[names]] and [df[name]] *)

Definition has_column (df : DataFrame) (n : string) : bool :=
  existsb (String.eqb n) (column_names df).

(** [df[names]]: the columns with these labels, in the order of [names].
    When some label is not a column a [KeyError] is raised; its text
    prints the whole key when none of the labels is a column, and the
    labels that are not columns, each once, otherwise (as pandas words it
    for a short list of labels). *)
Definition getitem_list (df : DataFrame) (names : list string)
  : result DataFrame :=
  match filter (fun n => negb (has_column df n)) names with
  | [] =>
      Ok {| index := index df;
            columns :=
              flat_map (fun n =>
                          filter (fun s => String.eqb (label s) n) (columns df))
                       names |}
  | missing =>
      Raise (PyException "KeyError"
               (if (length missing =? length names)%nat
                then ("None of [Index(" ++ PyStr.repr_list names
                      ++ ", dtype='object')] are in the [columns]")%string
                else (PyStr.repr_list (nodup string_dec missing)
                      ++ " not in index")%string))
  end.

(** [df[name]] *)
Definition getitem (df : DataFrame) (n : string) : result Series :=
  match find (fun s => String.eqb (label s) n) (columns df) with
  | Some s => Ok s
  | None => Raise (PyException "KeyError" n)
  end.

(** *** [select_dtypes], [mean], [fillna] *)

Definition is_number (d : dtype) : bool :=
  match d with
  | int64 | float64 => true
  | _ => false
  end.

(** [df.select_dtypes(include='number').columns] *)
Definition select_dtypes_number_columns (df : DataFrame) : list string :=
  map label (filter (fun s => is_number (dtype_of s)) (columns df)).

Definition to_float (c : cell) : F64.t :=
  match c with
  | VInt z => F64.of_Z z
  | VFloat f => f
  | _ => F64.nan
  end.

(** The mean of one column with [skipna=True] ([nanops.nanmean], without
    the optional bottleneck package): the missing entries are set to
    zero, the values are summed by numpy as float64, and the sum is
    divided by the number of entries that are not missing; a column with
    no value has mean NaN.  The script uses the mean of a column only to
    fill its missing cells, so the mean of a column of integers, which
    has none, fills nothing. *)
Definition nanmean (vs : list cell) : F64.t :=
  let xs := map to_float vs in
  let total :=
    np.sum (map (fun x => if F64.is_nan x then F64.zero else x) xs) in
  let count := length (filter (fun x => negb (F64.is_nan x)) xs) in
  match count with
  | O => F64.nan
  | _ => F64.div total (F64.of_Z (Z.of_nat count))
  end.

(** [df.mean()]: one mean per column, keyed by the column label. *)
Definition mean (df : DataFrame) : list (string * F64.t) :=
  map (fun s => (label s, nanmean (values s))) (columns df).

(** [s.fillna(v)]: a missing cell takes [v]; filling with NaN leaves it
    missing. *)
Definition fillna_values (v : F64.t) (vs : list cell) : list cell :=
  map (fun c => if isna c then VFloat v else c) vs.

Fixpoint lookup {A : Type} (k : string) (l : list (string * A)) : option A :=
  match l with
  | [] => None
  | (k', v) :: l' => if String.eqb k k' then Some v else lookup k l'
  end.

(** [df.fillna(value)] with one fill value per column label. *)
Definition fillna (df : DataFrame) (value : list (string * F64.t))
  : DataFrame :=
  {| index := index df;
     columns :=
       map (fun s =>
              match lookup (label s) value with
              | Some v => {| label := label s; dtype_of := dtype_of s;
                             values := fillna_values v (values s) |}
              | None => s
              end)
           (columns df) |}.

(** *** [df[name] = series] and [df[names] = frame] *)

(** An existing label keeps its position and takes the new data; a new
    label is appended. *)
Definition setitem (df : DataFrame) (k : string) (s : Series) : DataFrame :=
  let s' := {| label := k; dtype_of := dtype_of s; values := values s |} in
  {| index := index df;
     columns :=
       if has_column df k
       then map (fun c => if String.eqb (label c) k then s' else c) (columns df)
       else columns df ++ [s'] |}.

Fixpoint setitem_pairs (df : DataFrame) (value : DataFrame)
    (pairs : list (string * string)) : result DataFrame :=
  match pairs with
  | [] => Ok df
  | (k1, k2) :: rest =>
      match getitem value k2 with
      | Ok s => setitem_pairs (setitem df k1 s) value rest
      | Raise e => Raise e
      end
  end.

(** [df[keys] = value]: the lengths must agree, then
    [for k1, k2 in zip(keys, value.columns): df[k1] = value[k2]]. *)
Definition setitem_list (df : DataFrame) (keys : list string)
    (value : DataFrame) : result DataFrame :=
  if (length (columns value) =? length keys)%nat
  then setitem_pairs df value (combine keys (column_names value))
  else Raise (PyException "ValueError" "Columns must be same length as key").

End pd.

(** ** Python dicts

    A dict keeps its keys in insertion order, so the registry is an
    association list handled only through the dict operations below. *)

Module PyDict.

Section Dict.
Variable V : Type.

Definition t := list (string * V).

Definition keys (d : t) : list string := map fst d.

(** [k in d] *)
Definition contains (k : string) (d : t) : bool :=
  existsb (String.eqb k) (keys d).

(** [d.get(k)] *)
Fixpoint get (k : string) (d : t) : option V :=
  match d with
  | [] => None
  | (k', v) :: d' => if String.eqb k k' then Some v else get k d'
  end.

(** [d[k] = v]: an existing key keeps its place, a new key goes last. *)
Fixpoint set (k : string) (v : V) (d : t) : t :=
  match d with
  | [] => [(k, v)]
  | (k', v') :: d' =>
      if String.eqb k k' then (k', v) :: d' else (k', v') :: set k v d'
  end.

(** [del d[k]] on a key that is present. *)
Fixpoint del (k : string) (d : t) : t :=
  match d with
  | [] => []
  | (k', v') :: d' =>
      if String.eqb k k' then d' else (k', v') :: del k d'
  end.
End Dict.

Arguments keys {V} d.
Arguments contains {V} k d.
Arguments get {V} k d.
Arguments set {V} k v d.
Arguments del {V} k d.

End PyDict.

(** ** The session *)

(** An entry of [st.file_uploader]'s result. *)
Record UploadedFile := mkUploadedFile {
  name : string;
  size : N;
  content : list Byte.byte
}.

(** The dict stored under each file id; the fields are its keys ['df'],
    ['cleaned'], ['converted'], ['to_delete'] and ['original_name']. *)
Record FileData := mkFileData {
  fd_df : option DataFrame;
  fd_cleaned : bool;
  fd_converted : bool;
  fd_to_delete : bool;
  fd_original_name : string
}.

(** What a run of the script puts on the page (layout and decoration
    left out). *)
Inductive element :=
  | st_error (msg : string)
  | st_success (msg : string)
  | st_info (msg : string)
  | st_metric (caption : string) (value : nat)
  | st_dataframe (data : DataFrame)
  | st_download_button (caption : string) (data : list Byte.byte)
                       (file_name mime : string)
  | st_balloons.

(** The widget values of one run, by widget key. *)
Record widgets := mkWidgets {
  checkbox_show_metrics : bool;
  button : string -> bool;
  selectbox : string -> nat;
  multiselect : string -> list string -> list string;
  radio : string -> string
}.

Record world := mkWorld {
  processed_files : PyDict.t FileData;
  page : list element
}.

(** ** Statements: state, output and exceptions *)

Definition M (A : Type) : Type := world -> result A * world.

Definition ret {A} (a : A) : M A := fun w => (Ok a, w).

Definition bind {A B} (m : M A) (k : A -> M B) : M B :=
  fun w =>
    match m w with
    | (Ok a, w') => k a w'
    | (Raise e, w') => (Raise e, w')
    end.

Definition raise {A} (e : exn) : M A := fun w => (Raise e, w).

(** A value or an exception of a library call. *)
Definition lift {A} (r : result A) : M A := fun w => (r, w).

Declare Scope py_scope.
Delimit Scope py_scope with py.
Notation "x <- m ;; k" := (bind m (fun x => k))
  (at level 61, m at next level, right associativity) : py_scope.
Notation "m ;; k" := (bind m (fun _ => k))
  (at level 61, right associativity) : py_scope.
Open Scope py_scope.

(** [try: body except Exception as e: handler e] *)
Definition try_except {A} (body : M A) (handler : exn -> M A) : M A :=
  fun w =>
    match body w with
    | (Raise (PyException cls msg), w') => handler (PyException cls msg) w'
    | other => other
    end.

Definition emit (e : element) : M unit :=
  fun w => (Ok tt, {| processed_files := processed_files w;
                      page := page w ++ [e] |}).

Definition get_processed_files : M (PyDict.t FileData) :=
  fun w => (Ok (processed_files w), w).

Definition put_processed_files (d : PyDict.t FileData) : M unit :=
  fun w => (Ok tt, {| processed_files := d; page := page w |}).

(** [st.session_state.processed_files[file_id]] *)
Definition subscript (file_id : string) : M FileData :=
  d <- get_processed_files ;;
  match PyDict.get file_id d with
  | Some r => ret r
  | None => raise (PyException "KeyError" file_id)
  end.

(** [st.session_state.processed_files[file_id][key] = value], with the
    assignment to the key given as a function on the record. *)
Definition assign (file_id : string) (upd : FileData -> FileData) : M unit :=
  r <- subscript file_id ;;
  d <- get_processed_files ;;
  put_processed_files (PyDict.set file_id (upd r) d).

Definition set_df (v : option DataFrame) (r : FileData) : FileData :=
  {| fd_df := v; fd_cleaned := fd_cleaned r; fd_converted := fd_converted r;
     fd_to_delete := fd_to_delete r; fd_original_name := fd_original_name r |}.

Definition set_to_delete (v : bool) (r : FileData) : FileData :=
  {| fd_df := fd_df r; fd_cleaned := fd_cleaned r;
     fd_converted := fd_converted r;
     fd_to_delete := v; fd_original_name := fd_original_name r |}.

Definition set_converted (v : bool) (r : FileData) : FileData :=
  {| fd_df := fd_df r; fd_cleaned := fd_cleaned r; fd_converted := v;
     fd_to_delete := fd_to_delete r; fd_original_name := fd_original_name r |}.

(** Reading a local variable: an [UnboundLocalError] when no assignment
    has reached it. *)
Definition load_local {A} (var : string) (v : option A) : M A :=
  match v with
  | Some a => ret a
  | None =>
      raise (PyException "UnboundLocalError"
               ("cannot access local variable '" ++ var ++
                "' where it is not associated with a value")%string)
  end.

(** ** The script *)

(** [f"{file.name}_{file.size}"] *)
Definition file_id_of (file : UploadedFile) : string :=
  (name file ++ "_" ++ PyStr.str_of_N (size file))%string.

Definition new_file_data (file : UploadedFile) : FileData :=
  {| fd_df := None; fd_cleaned := false; fd_converted := false;
     fd_to_delete := false; fd_original_name := name file |}.

Section Script.

(** The readers and writers of pandas: a frame or bytes, or an exception. *)
Variable read_csv read_excel : UploadedFile -> result DataFrame.
Variable to_csv to_excel : DataFrame -> result (list Byte.byte).

(** The [try] block of [process_file]: [df] is assigned in the [.csv]
    and [.xlsx] branches only, and read afterwards. *)
Definition load_file (file : UploadedFile) (file_id : string) : M unit :=
  df <- (if PyStr.endswith (name file) ".csv"
         then (d <- lift (read_csv file) ;; ret (Some d))
         else if PyStr.endswith (name file) ".xlsx"
         then (d <- lift (read_excel file) ;; ret (Some d))
         else ret None) ;;
  d <- load_local "df" df ;;
  assign file_id (set_df (Some d)).

(** The branches of that block in one value: the result of the reader
    the suffix selects, [None] when neither branch is taken. *)
Definition parse (file : UploadedFile) : option (result DataFrame) :=
  if PyStr.endswith (name file) ".csv" then Some (read_csv file)
  else if PyStr.endswith (name file) ".xlsx" then Some (read_excel file)
  else None.

Definition process_file (file : UploadedFile) : M unit :=
  let file_id := file_id_of file in
  d <- get_processed_files ;;
  if negb (PyDict.contains file_id d) then
    put_processed_files (PyDict.set file_id (new_file_data file) d) ;;
    try_except
      (load_file file file_id)
      (fun e =>
         emit (st_error ("❌ Error loading " ++ name file ++ ": "
                         ++ str_of_exn e)%string) ;;
         assign file_id (set_to_delete true))
  else ret tt.

(** [for file in uploaded_files: process_file(file)] *)
Fixpoint process_files (uploaded_files : list UploadedFile) : M unit :=
  match uploaded_files with
  | [] => ret tt
  | file :: rest => process_file file ;; process_files rest
  end.

(** *** The panel of one file *)

(** The Delete button. *)
Definition delete_button (ui : widgets) (file_id : string) : M unit :=
  if button ui ("del_" ++ file_id)%string then
    assign file_id (set_to_delete true) ;;
    raise RerunException
  else ret tt.

Definition show_metrics (ui : widgets) (df : DataFrame) : M unit :=
  if checkbox_show_metrics ui then
    emit (st_metric "📏 Rows" (fst (pd.shape df))) ;;
    emit (st_metric "📐 Columns" (snd (pd.shape df))) ;;
    emit (st_metric "🚨 Missing Values" (pd.isna_sum_sum df))
  else ret tt.

(** The Remove Duplicates button. *)
Definition remove_duplicates_button (ui : widgets) (file_id : string)
    (df : DataFrame) : M DataFrame :=
  if button ui ("dup_" ++ file_id)%string then
    let df := pd.drop_duplicates df in
    assign file_id (set_df (Some df)) ;;
    emit (st_success "✅ Duplicates removed!") ;;
    ret df
  else ret df.

(** [df[numeric_cols] = df[numeric_cols].fillna(df[numeric_cols].mean())] *)
Definition fill_missing_values (df : DataFrame) : result DataFrame :=
  let numeric_cols := pd.select_dtypes_number_columns df in
  match pd.getitem_list df numeric_cols with
  | Ok sub => pd.setitem_list df numeric_cols (pd.fillna sub (pd.mean sub))
  | Raise e => Raise e
  end.

(** The Fill Missing Values button. *)
Definition fill_missing_values_button (ui : widgets) (file_id : string)
    (df : DataFrame) : M DataFrame :=
  if button ui ("fill_" ++ file_id)%string then
    df <- lift (fill_missing_values df) ;;
    assign file_id (set_df (Some df)) ;;
    emit (st_success "✅ Missing values filled!") ;;
    ret df
  else ret df.

(** The column selection: it runs on every pass, with the multiselect's
    value. *)
Definition select_columns (ui : widgets) (file_id : string)
    (df : DataFrame) : M DataFrame :=
  let selected_columns :=
    multiselect ui ("cols_" ++ file_id)%string (column_names df) in
  df <- lift (pd.getitem_list df selected_columns) ;;
  assign file_id (set_df (Some df)) ;;
  ret df.

Definition xlsx_mime : string :=
  "application/vnd.openxmlformats-officedocument.spreadsheetml.sheet".

(** The Convert button. *)
Definition convert_button (ui : widgets) (file_id : string)
    (file_data : FileData) (df : DataFrame) : M unit :=
  let conversion_format := radio ui ("conv_" ++ file_id)%string in
  if button ui ("conv_btn_" ++ file_id)%string then
    try_except
      (let '(mime_type, ext) :=
         if String.eqb conversion_format "CSV"
         then ("text/csv", ".csv") else (xlsx_mime, ".xlsx") in
       buffer <- lift (if String.eqb conversion_format "CSV"
                       then to_csv df else to_excel df) ;;
       assign file_id (set_converted true) ;;
       emit (st_success "🎉 Conversion successful!") ;;
       emit (st_download_button
               ("⏬ Download " ++ conversion_format)%string buffer
               ("converted_" ++ fd_original_name file_data ++ ext)%string
               mime_type))
      (fun e =>
         emit (st_error ("⚠️ Conversion failed: " ++ str_of_exn e)%string))
  else ret tt.

Definition panel (ui : widgets) (file_id : string) (file_data : FileData)
  : M unit :=
  delete_button ui file_id ;;
  match fd_df file_data with
  | None => ret tt
  | Some df =>
      show_metrics ui df ;;
      let rows_to_display := selectbox ui ("rows_" ++ file_id)%string in
      df <- remove_duplicates_button ui file_id df ;;
      df <- fill_missing_values_button ui file_id df ;;
      df <- select_columns ui file_id df ;;
      emit (st_dataframe (pd.head rows_to_display df)) ;;
      convert_button ui file_id file_data df
  end.

(** *** The display loop and the sweep *)

(** [for file_id, file_data in processed_files.items(): ...], over the
    keys the dict has when the loop starts; each pass reads the record
    the dict holds at that moment.  The result is [deleted_files]. *)
Fixpoint display_loop (ui : widgets) (file_ids : list string)
    (deleted_files : list string) : M (list string) :=
  match file_ids with
  | [] => ret deleted_files
  | file_id :: rest =>
      file_data <- subscript file_id ;;
      if fd_to_delete file_data then
        display_loop ui rest (deleted_files ++ [file_id])
      else
        panel ui file_id file_data ;;
        display_loop ui rest deleted_files
  end.

(** [del st.session_state.processed_files[file_id]] *)
Definition del_file (file_id : string) : M unit :=
  d <- get_processed_files ;;
  if PyDict.contains file_id d
  then put_processed_files (PyDict.del file_id d)
  else raise (PyException "KeyError" file_id).

(** [for file_id in deleted_files: del ...] *)
Fixpoint sweep (deleted_files : list string) : M unit :=
  match deleted_files with
  | [] => ret tt
  | file_id :: rest => del_file file_id ;; sweep rest
  end.

Definition footer : M unit :=
  d <- get_processed_files ;;
  match d with
  | [] => emit (st_info
      "ℹ️ No files currently uploaded. Add files to begin processing. 📂")
  | _ =>
      emit st_balloons ;;
      emit (st_success ("✅ Active files: "
                        ++ PyStr.str_of_N (N.of_nat (length d))
                        ++ " 🎉")%string)
  end.

(** One run of the script, from the upload loop to the footer. *)
Definition script (uploaded_files : list UploadedFile) (ui : widgets)
  : M unit :=
  process_files uploaded_files ;;
  d <- get_processed_files ;;
  deleted_files <- display_loop ui (PyDict.keys d) [] ;;
  sweep deleted_files ;;
  footer.

(** A run starts from the session state with an empty page. *)
Definition run (uploaded_files : list UploadedFile) (ui : widgets)
    (session : PyDict.t FileData) : result unit * world :=
  script uploaded_files ui {| processed_files := session; page := [] |}.

End Script.

(** ** Words of the specification

    The predicates below say, on the rows and cells of a frame, what the
    specification promises of the cleaning operations. *)

Definition count_true (mask : list bool) : nat :=
  length (filter (fun b => b) mask).

(** Two cells hold the same value: they are the same cell, or they are
    zeros of float64, which are equal numbers whatever their signs.  A
    missing cell is the same as a missing cell. *)
Inductive same_value : cell -> cell -> Prop :=
  | same_cell (c : cell) : same_value c c
  | same_zero (s1 s2 : bool) :
      same_value (VFloat (S754_zero s1)) (VFloat (S754_zero s2)).

(** Two rows that hold the same values, cell by cell. *)
Definition same_values (r1 r2 : pd.row) : Prop := Forall2 same_value r1 r2.

(** Two rows that are fully identical. *)
Definition identical (r1 r2 : pd.row) : Prop := r1 = r2.

(** Row [i] repeats a row above it, for a given notion of two rows being
    the [same]. *)
Definition later_copy (same : pd.row -> pd.row -> Prop) (rs : list pd.row)
    (i : nat) : Prop :=
  exists j, j < i /\ same (nth i rs []) (nth j rs []).

Definition schema (df : DataFrame) : list (string * dtype) :=
  map (fun s => (label s, dtype_of s)) (columns df).

(** [out] is [df] without the rows that repeat a row above them: the rows
    that stay are the first occurrences, in their order and under their
    labels, under the same columns. *)
Definition drops_later_copies (same : pd.row -> pd.row -> Prop)
    (df out : DataFrame) : Prop :=
  exists keep : list bool,
    length keep = length (index df) /\
    (forall i, i < length (index df) ->
       nth i keep true = false <-> later_copy same (pd.rows df) i) /\
    index out = pd.mask_filter keep (index df) /\
    pd.rows out = pd.mask_filter keep (pd.rows df) /\
    schema out = schema df.

(** What the fill does to one numeric column: every missing cell takes the
    column mean, every other cell stays. *)
Definition fill_series (s : Series) : Series :=
  {| label := label s; dtype_of := dtype_of s;
     values := pd.fillna_values (pd.nanmean (values s)) (values s) |}.

Definition fill_column (s : Series) : Series :=
  if pd.is_number (dtype_of s) then fill_series s else s.

Definition has_value (s : Series) : bool :=
  existsb (fun c => negb (isna c)) (values s).

Definition no_missing (s : Series) : bool :=
  forallb (fun c => negb (isna c)) (values s).

(** [x] is a sum of the numbers [l] in binary64 arithmetic: each of them
    is added once, in some order and grouping, and zeros may be added on
    the way. *)
Inductive adds_up : list F64.t -> F64.t -> Prop :=
  | adds_zero (s : bool) : adds_up [] (S754_zero s)
  | adds_one (x : F64.t) : adds_up [x] x
  | adds_plus (l1 l2 : list F64.t) (x y : F64.t) :
      adds_up l1 x -> adds_up l2 y -> adds_up (l1 ++ l2) (F64.add x y)
  | adds_perm (l l' : list F64.t) (x : F64.t) :
      Permutation l l' -> adds_up l x -> adds_up l' x.

(** [m] is a mean of the numbers [xs] in binary64 arithmetic: a sum of
    them divided by how many they are, and NaN when there is none. *)
Definition mean_of (xs : list F64.t) (m : F64.t) : Prop :=
  match xs with
  | [] => m = F64.nan
  | _ => exists total,
           adds_up xs total /\
           m = F64.div total (F64.of_Z (Z.of_nat (length xs)))
  end.

(** The numbers a column holds: its cells that are not missing. *)
Definition present_values (s : Series) : list F64.t :=
  map pd.to_float (filter (fun c => negb (isna c)) (values s)).

(** Column [s'] is column [s] with [m] in place of every missing cell. *)
Definition filled_with (m : F64.t) (s s' : Series) : Prop :=
  Forall2 (fun c c' => c' = if isna c then VFloat m else c)
          (values s) (values s').

(** Column [s'] is column [s] after the fill.  A float64 column has a
    mean of its values in place of every missing cell, and no missing
    cell when it is [settled]; a column of integers has no missing cell
    and is as it was; so is a column that is not numeric. *)
Definition filled_from (settled : Series -> F64.t -> bool) (s s' : Series)
  : Prop :=
  label s' = label s /\ dtype_of s' = dtype_of s /\
  match dtype_of s with
  | float64 =>
      exists m,
        mean_of (present_values s) m /\
        filled_with m s s' /\
        (settled s m = true -> no_missing s' = true)
  | int64 => s' = s /\ no_missing s' = true
  | _ => s' = s
  end.

(** When the specification expects a numeric column to be free of
    missing cells after the fill: when it had a value. *)
Definition when_it_has_a_value (s : Series) (m : F64.t) : bool := has_value s.

(** When it is: when the mean that fills it is a number. *)
Definition when_the_mean_is_a_number (s : Series) (m : F64.t) : bool :=
  negb (F64.is_nan m).

(** [out] is [df] after the fill: same row labels, and every column
    [filled_from] the column in its place. *)
Definition fills_missing_numeric (settled : Series -> F64.t -> bool)
    (df out : DataFrame) : Prop :=
  index out = index df /\
  Forall2 (filled_from settled) (columns df) (columns out).

(** [l'] is [l] with some of its zeros taken out. *)
Inductive without_zeros : list F64.t -> list F64.t -> Prop :=
  | wz_nil : without_zeros [] []
  | wz_keep (x : F64.t) (l l' : list F64.t) :
      without_zeros l l' -> without_zeros (x :: l) (x :: l')
  | wz_drop (s : bool) (l l' : list F64.t) :
      without_zeros l l' -> without_zeros (S754_zero s :: l) l'.

(** The eight partial sums, as a list. *)
Definition lanes_list (r : np.lanes) : list F64.t :=
  [np.lane0 r; np.lane1 r; np.lane2 r; np.lane3 r;
   np.lane4 r; np.lane5 r; np.lane6 r; np.lane7 r].

(** One more number at the end of each group. *)
Definition snoc_each (gs : list (list F64.t)) (chunk : list F64.t)
  : list (list F64.t) :=
  map (fun p => fst p ++ [snd p]) (combine gs chunk).

(** Every cell that held a value holds it still. *)
Definition values_kept (s s' : Series) : Prop :=
  Forall2 (fun c c' => isna c = false -> c' = c) (values s) (values s').

(** ** Words of the specification, on the registry *)

(** The record of a file whose load failed. *)
Definition failed_record (file : UploadedFile) : FileData :=
  set_to_delete true (new_file_data file).

(** The error [process_file] shows for exception [e]. *)
Definition load_error (file : UploadedFile) (e : exn) : element :=
  st_error ("❌ Error loading " ++ name file ++ ": " ++ str_of_exn e)%string.

(** What reading the unassigned local [df] raises. *)
Definition unbound_df : exn :=
  PyException "UnboundLocalError"
    "cannot access local variable 'df' where it is not associated with a value".

(** The file went by unnoticed: it has a record without a table and
    without the deletion mark, and the page shows nothing new. *)
Definition silently_unhandled (file : UploadedFile) (w w' : world) : Prop :=
  (exists r, PyDict.get (file_id_of file) (processed_files w') = Some r /\
             fd_df r = None /\ fd_to_delete r = false) /\
  page w' = page w.

(** The keys of the registry with the deletion mark of each record. *)
Definition flags (d : PyDict.t FileData) : list (string * bool) :=
  map (fun kv => (fst kv, fd_to_delete (snd kv))) d.

(** [d[file_id]['to_delete']], false for a key the dict lacks. *)
Definition marked (d : PyDict.t FileData) (file_id : string) : bool :=
  match PyDict.get file_id d with
  | Some r => fd_to_delete r
  | None => false
  end.

(** A statement that leaves keys and marks as they are, however it ends. *)
Definition keeps_flags {A : Type} (m : M A) : Prop :=
  forall w r w',
    m w = (r, w') -> flags (processed_files w') = flags (processed_files w).

(** A statement that leaves the keys as they are, and the marks too when
    it returns. *)
Definition returns_flags {A : Type} (m : M A) : Prop :=
  forall w r w',
    m w = (r, w') ->
    PyDict.keys (processed_files w') = PyDict.keys (processed_files w) /\
    (forall a, r = Ok a ->
       flags (processed_files w') = flags (processed_files w)).

(** No underscore occurs in the string. *)
Fixpoint no_underscore (s : string) : bool :=
  match s with
  | EmptyString => true
  | String c s' => negb (Ascii.eqb c "_") && no_underscore s'
  end.

(** Every table the registry holds is well formed. *)
Definition wf_record (r : FileData) : Prop :=
  match fd_df r with
  | Some df => wf_frame df
  | None => True
  end.

Definition wf_registry (w : world) : Prop :=
  Forall (fun kv => wf_record (snd kv)) (processed_files w).

(** From a well-formed registry the statement ends in a well-formed
    registry, and what it returns satisfies [Q]. *)
Definition keeps_wf {A : Type} (m : M A) (Q : A -> Prop) : Prop :=
  forall w r w',
    wf_registry w -> m w = (r, w') ->
    wf_registry w' /\ (forall a, r = Ok a -> Q a).

(** ** Frames to run the operations on *)

Fixpoint distinct (l : list string) : bool :=
  match l with
  | [] => true
  | x :: l' => negb (existsb (String.eqb x) l') && distinct l'
  end.

(** [wf_frame], decided. *)
Definition wf_frameb (df : DataFrame) : bool :=
  distinct (column_names df) &&
  forallb (fun s => (length (values s) =? length (index df))%nat &&
                    forallb (fits (dtype_of s)) (values s))
          (columns df).

(** The table of the specification's scenario: columns x, y, z and the
    rows 1, (missing), 3 and 1, 2, 3. *)
Definition scenario_frame : DataFrame :=
  {| index := [0; 1]%Z;
     columns :=
       [ {| label := "x"; dtype_of := int64; values := [VInt 1; VInt 1] |};
         {| label := "y"; dtype_of := float64;
            values := [VFloat F64.nan; VFloat (F64.of_Z 2)] |};
         {| label := "z"; dtype_of := int64; values := [VInt 3; VInt 3] |} ] |}.

(** A table with a repeated row and a text column. *)
Definition repeated_frame : DataFrame :=
  {| index := [0; 1; 2]%Z;
     columns :=
       [ {| label := "city"; dtype_of := object_;
            values := [VStr "Oslo"; VStr "Lima"; VStr "Oslo"] |};
         {| label := "temp"; dtype_of := float64;
            values := [VFloat F64.nan; VFloat (F64.of_Z 21);
                       VFloat F64.nan] |} ] |}.

(** A numeric column that holds both infinities and one missing cell, as
    [read_csv] returns it for the cells [inf], [-inf] and an empty one. *)
Definition infinities_frame : DataFrame :=
  {| index := [0; 1; 2]%Z;
     columns :=
       [ {| label := "x"; dtype_of := float64;
            values := [VFloat F64.inf; VFloat F64.neg_inf; VFloat F64.nan] |};
         {| label := "y"; dtype_of := int64;
            values := [VInt 1; VInt 2; VInt 3] |} ] |}.

(** [a / b] in binary64, for writing decimal fractions. *)
Definition ratio (a b : Z) : F64.t := F64.div (F64.of_Z a) (F64.of_Z b).

(** A column of nine cells: 0.1, 0.8, 0.1, 0.3, 0.3, 0.5, 0.8, 0.1 and a
    missing one. *)
Definition tenths_column : list cell :=
  map (fun k => VFloat (ratio k 10)) [1; 8; 1; 3; 3; 5; 8; 1]%Z
  ++ [VFloat F64.nan].

(** A column of nine cells: 1e308 and -1e308 four times each, and a
    missing one. *)
Definition huge_column : list cell :=
  map (fun k => VFloat (F64.of_Z (k * 10 ^ 308)))
      [1; -1; 1; -1; 1; 1; -1; -1]%Z
  ++ [VFloat F64.nan].

(** The sum of a column with the missing cells as zero, added from left
    to right. *)
Definition sum_left_to_right (vs : list cell) : F64.t :=
  fold_left F64.add
    (map (fun c => if isna c then F64.zero else pd.to_float c) vs) F64.zero.

(** Two rows and no column: what [df[[]]] leaves of a two-row table once
    every column has been deselected. *)
Definition no_columns_frame : DataFrame :=
  {| index := [0; 1]%Z; columns := [] |}.

(** Two rows that differ in the sign of a zero only, as [read_csv]
    returns them for the cells [0.0] and [-0.0]. *)
Definition signed_zeros_frame : DataFrame :=
  {| index := [0; 1]%Z;
     columns :=
       [ {| label := "temp"; dtype_of := float64;
            values := [VFloat F64.zero; VFloat F64.neg_zero] |};
         {| label := "city"; dtype_of := object_;
            values := [VStr "Oslo"; VStr "Oslo"] |} ] |}.

(** Readers and writers to run the script with. *)
Definition refusing_reader : UploadedFile -> result DataFrame :=
  fun _ => Raise (PyException "ParserError" "Error tokenizing data").

Definition scenario_reader : UploadedFile -> result DataFrame :=
  fun _ => Ok scenario_frame.

Definition refusing_writer : DataFrame -> result (list Byte.byte) :=
  fun _ => Raise (PyException "ValueError" "cannot serialize").

Definition empty_writer : DataFrame -> result (list Byte.byte) :=
  fun _ => Ok [].

(** An upload whose name has the extension in capitals, which the
    uploader's filter lets through. *)
Definition capitals_upload : UploadedFile :=
  {| name := "DATA.CSV"; size := 12; content := [] |}.

Definition csv_upload : UploadedFile :=
  {| name := "a.csv"; size := 12; content := [] |}.

Definition empty_world : world := {| processed_files := []; page := [] |}.

(** A run in which every button is pressed and the multiselect returns
    what it is told to. *)
Definition pressing (selected : list string) (format : string) : widgets :=
  {| checkbox_show_metrics := true;
     button := fun _ => true;
     selectbox := fun _ => 10;
     multiselect := fun _ _ => selected;
     radio := fun _ => format |}.

(** A run in which nothing is pressed and every column stays selected. *)
Definition idle : widgets :=
  {| checkbox_show_metrics := true;
     button := fun _ => false;
     selectbox := fun _ => 10;
     multiselect := fun _ options => options;
     radio := fun _ => "CSV" |}.

(** A registry whose only record is marked for deletion. *)
Definition marked_world : world :=
  {| processed_files := [(file_id_of csv_upload, failed_record csv_upload)];
     page := [] |}.

(** A run in which only the Delete button of one file is pressed. *)
Definition deleting (file_id : string) : widgets :=
  {| checkbox_show_metrics := true;
     button := fun key => String.eqb key ("del_" ++ file_id)%string;
     selectbox := fun _ => 10;
     multiselect := fun _ options => options;
     radio := fun _ => "CSV" |}.

(** The registry after [a.csv] has been read into the scenario table. *)
Definition scenario_session : PyDict.t FileData :=
  [(file_id_of csv_upload,
    set_df (Some scenario_frame) (new_file_data csv_upload))].

(** ** Words for the rest of the script *)

(** A statement only adds to the page. *)
Definition page_grows {A : Type} (m : M A) : Prop :=
  forall w r w', m w = (r, w') -> exists more, page w' = page w ++ more.

(** The table one pass of a panel works out from the table it finds:
    the duplicates go if that button is pressed, then the fill runs if
    that button is pressed, then the selection is applied. *)
Definition after_duplicates (ui : widgets) (file_id : string)
    (df : DataFrame) : DataFrame :=
  if button ui ("dup_" ++ file_id)%string then pd.drop_duplicates df else df.

Definition after_fill (ui : widgets) (file_id : string) (df : DataFrame)
  : result DataFrame :=
  if button ui ("fill_" ++ file_id)%string
  then fill_missing_values df else Ok df.

Definition after_select (ui : widgets) (file_id : string) (df : DataFrame)
  : result DataFrame :=
  pd.getitem_list df
    (multiselect ui ("cols_" ++ file_id)%string (column_names df)).

Definition pipeline (ui : widgets) (file_id : string) (df : DataFrame)
  : result DataFrame :=
  match after_fill ui file_id (after_duplicates ui file_id df) with
  | Ok filled => after_select ui file_id filled
  | Raise e => Raise e
  end.

(** The notice that closes a run, for a registry of [n] records. *)
Definition closing_notice (n : nat) : list element :=
  match n with
  | O => [st_info
            "ℹ️ No files currently uploaded. Add files to begin processing. 📂"]
  | _ => [st_balloons;
          st_success ("✅ Active files: " ++ PyStr.str_of_N (N.of_nat n)
                      ++ " 🎉")%string]
  end.

(** Extension and MIME type of an export format. *)
Definition export_ext (format : string) : string :=
  if String.eqb format "CSV" then ".csv" else ".xlsx".

Definition export_mime (format : string) : string :=
  if String.eqb format "CSV" then "text/csv" else xlsx_mime.

(** A registry with the scenario table and a second, marked record. *)
Definition two_records_world : world :=
  {| processed_files :=
       [(file_id_of csv_upload,
         set_df (Some scenario_frame) (new_file_data csv_upload));
        (file_id_of capitals_upload, failed_record capitals_upload)];
     page := [] |}.

Definition xlsx_upload : UploadedFile :=
  {| name := "b.xlsx"; size := 7; content := [] |}.

(** Record [r] is [file_data] with table [df]: same deletion mark, same
    name. *)
Definition record_with (file_data : FileData) (df : DataFrame)
    (r : FileData) : Prop :=
  fd_df r = Some df /\
  fd_to_delete r = fd_to_delete file_data /\
  fd_original_name r = fd_original_name file_data.

(** In [w] the record of [file_id] is [file_data] with table [df], and
    the other records are those of [w0]. *)
Definition panel_state (file_id : string) (file_data : FileData)
    (df : DataFrame) (w0 w : world) : Prop :=
  (forall other, other <> file_id ->
     PyDict.get other (processed_files w)
     = PyDict.get other (processed_files w0)) /\
  exists r, PyDict.get file_id (processed_files w) = Some r /\
            record_with file_data df r.

(** A run in which every button but Delete is pressed. *)
Definition cleaning (selected : list string) (format : string) : widgets :=
  {| checkbox_show_metrics := true;
     button := fun key => negb (String.eqb (substring 0 4 key) "del_");
     selectbox := fun _ => 10;
     multiselect := fun _ _ => selected;
     radio := fun _ => format |}.

Definition scenario_world : world :=
  {| processed_files := scenario_session; page := [] |}.

Definition scenario_record : FileData :=
  set_df (Some scenario_frame) (new_file_data csv_upload).

(** A statement that leaves every record but that of [file_id] as it
    is, however it ends. *)
Definition touches_only {A : Type} (file_id : string) (m : M A) : Prop :=
  forall w r w' other,
    m w = (r, w') -> other <> file_id ->
    PyDict.get other (processed_files w')
    = PyDict.get other (processed_files w).

(** ** Words for the life of a record *)

(** The ids the display loop of a run goes through: the keys of the
    registry as the upload loop leaves it. *)
Definition listing (read_csv read_excel : UploadedFile -> result DataFrame)
    (uploaded_files : list UploadedFile) (w : world) : list string :=
  PyDict.keys
    (processed_files (snd (process_files read_csv read_excel uploaded_files w))).

(** The session after one run for each entry of [uis], the uploader
    holding the same files throughout. *)
Fixpoint runs (read_csv read_excel : UploadedFile -> result DataFrame)
    (to_csv to_excel : DataFrame -> result (list Byte.byte))
    (uploaded_files : list UploadedFile) (uis : list widgets)
    (session : PyDict.t FileData) : PyDict.t FileData :=
  match uis with
  | [] => session
  | ui :: rest =>
      runs read_csv read_excel to_csv to_excel uploaded_files rest
        (processed_files
           (snd (run read_csv read_excel to_csv to_excel uploaded_files ui
                     session)))
  end.

(** From [session] on the file is in no listing: however many runs
    follow, with the uploader holding the same files, the run after them
    does not list it. *)
Definition stays_deleted (read_csv read_excel : UploadedFile -> result DataFrame)
    (to_csv to_excel : DataFrame -> result (list Byte.byte))
    (uploaded_files : list UploadedFile) (file_id : string)
    (session : PyDict.t FileData) : Prop :=
  forall uis : list widgets,
    ~ In file_id
        (listing read_csv read_excel uploaded_files
           {| processed_files :=
                runs read_csv read_excel to_csv to_excel uploaded_files uis
                     session;
              page := [] |}).

(** Two statements end the same way: both return, or both raise the same
    exception. *)
Definition same_outcome {A B : Type} (r : result A) (r' : result B) : Prop :=
  match r, r' with
  | Ok _, Ok _ => True
  | Raise e, Raise e' => e = e'
  | _, _ => False
  end.

(** The ids of a listing without one of them. *)
Definition without (file_id : string) (file_ids : list string) : list string :=
  filter (fun k => negb (String.eqb k file_id)) file_ids.

(** * Properties *)

(** ** Lists and masks *)

Section MaskFacts.
Variable A : Type.

Lemma mask_filter_length (mask : list bool) (l : list A) :
  length mask = length l ->
  length (pd.mask_filter mask l) = count_true mask.
Proof.
  revert l; induction mask as [|b mask IH]; intros [|x l] Hlen;
    simpl in *; try discriminate; auto.
  injection Hlen as Hlen. unfold count_true in *; simpl.
  destruct b; simpl; rewrite IH; auto.
Qed.

Lemma mask_filter_all (mask : list bool) (l : list A) :
  length mask = length l ->
  Forall (fun b => b = true) mask ->
  pd.mask_filter mask l = l.
Proof.
  revert l; induction mask as [|b mask IH]; intros [|x l] Hlen Hall;
    simpl in *; try discriminate; auto.
  inversion Hall; subst. f_equal. apply IH; auto.
Qed.

Lemma mask_filter_nth (mask : list bool) (l : list A) (i : nat) (d : A) :
  length mask = length l ->
  nth i mask false = true ->
  In (nth i l d) (pd.mask_filter mask l).
Proof.
  revert l i; induction mask as [|b mask IH]; intros [|x l] i Hlen Hi;
    simpl in *; try discriminate.
  - destruct i; discriminate.
  - injection Hlen as Hlen. destruct i as [|i].
    + subst b. left; reflexivity.
    + destruct b; [right|]; apply IH; auto.
Qed.
End MaskFacts.

(** ** Rows of a masked frame *)

Lemma transpose_length (n : nat) (cols : list (list cell)) :
  length (pd.transpose n cols) = n.
Proof.
  revert cols; induction n as [|n IH]; intros cols; simpl; auto.
Qed.

Lemma transpose_mask_filter (mask : list bool) (cols : list (list cell)) :
  Forall (fun c => length c = length mask) cols ->
  pd.transpose (count_true mask) (map (pd.mask_filter mask) cols)
  = pd.mask_filter mask (pd.transpose (length mask) cols).
Proof.
  revert cols; induction mask as [|b mask IH]; intros cols Hcols.
  - reflexivity.
  - assert (Htl : Forall (fun c => length c = length mask)
                         (map (@tl cell) cols)).
    { rewrite Forall_map. eapply Forall_impl; [|exact Hcols].
      intros [|x c] Hc; simpl in *; [discriminate | congruence]. }
    specialize (IH _ Htl).
    simpl pd.transpose at 2. simpl pd.mask_filter at 2.
    destruct b.
    + replace (count_true (true :: mask)) with (S (count_true mask))
        by reflexivity.
      simpl pd.transpose. rewrite <- IH. f_equal.
      * rewrite map_map. apply map_ext_in. intros c Hc.
        rewrite Forall_forall in Hcols. specialize (Hcols _ Hc).
        destruct c; simpl in *; [discriminate | reflexivity].
      * f_equal. rewrite !map_map. apply map_ext_in. intros c Hc.
        rewrite Forall_forall in Hcols. specialize (Hcols _ Hc).
        destruct c; simpl in *; [discriminate | reflexivity].
    + replace (count_true (false :: mask)) with (count_true mask)
        by reflexivity.
      rewrite <- IH. f_equal. rewrite map_map. apply map_ext_in.
      intros c Hc. rewrite Forall_forall in Hcols. specialize (Hcols _ Hc).
      destruct c; simpl in *; [discriminate | reflexivity].
Qed.

Lemma rows_length (df : DataFrame) :
  length (pd.rows df) = length (index df).
Proof. apply transpose_length. Qed.

Lemma rows_getitem_mask (df : DataFrame) (mask : list bool) :
  wf_frame df ->
  length mask = length (index df) ->
  pd.rows (pd.getitem_mask df mask) = pd.mask_filter mask (pd.rows df).
Proof.
  intros [_ Hcols] Hlen. unfold pd.rows, pd.getitem_mask; simpl.
  rewrite mask_filter_length by assumption.
  rewrite map_map; simpl. rewrite <- Hlen.
  rewrite <- transpose_mask_filter.
  - now rewrite map_map.
  - rewrite Forall_map. eapply Forall_impl; [|exact Hcols].
    intros s [Hs _]. congruence.
Qed.

(** ** [duplicated] and [drop_duplicates] *)

Lemma duplicated_from_length (seen rs : list pd.row) :
  length (pd.duplicated_from seen rs) = length rs.
Proof.
  revert seen; induction rs as [|r rs IH]; intros seen; simpl; auto.
Qed.

(** The flag of row [i]: a row above it, or a row seen before, equals it. *)
Lemma duplicated_from_nth (rs seen : list pd.row) (i : nat) :
  i < length rs ->
  nth i (pd.duplicated_from seen rs) false = true <->
  (exists j, j < i /\ pd.row_eqb (nth i rs []) (nth j rs []) = true)
  \/ existsb (pd.row_eqb (nth i rs [])) seen = true.
Proof.
  revert seen i; induction rs as [|r rs IH]; intros seen i Hi; simpl in Hi.
  - lia.
  - destruct i as [|i]; simpl.
    + split; [intros H; now right | intros [[j [Hj _]]|H]; [lia | exact H]].
    + rewrite IH by lia. simpl. rewrite orb_true_iff. split.
      * intros [[j [Hj He]] | [He | He]].
        -- left. exists (S j). split; [lia | exact He].
        -- left. exists 0. split; [lia | exact He].
        -- now right.
      * intros [[j [Hj He]] | He].
        -- destruct j as [|j].
           ++ right; now left.
           ++ left. exists j. split; [lia | exact He].
        -- right; now right.
Qed.

(** Among the rows that were kept, none is flagged again. *)
Lemma duplicated_from_kept (rs seen seen' : list pd.row) :
  (forall r, existsb (pd.row_eqb r) seen' = true ->
             existsb (pd.row_eqb r) seen = true) ->
  Forall (fun b => b = false)
    (pd.duplicated_from seen'
       (pd.mask_filter (map negb (pd.duplicated_from seen rs)) rs)).
Proof.
  revert seen seen'; induction rs as [|r rs IH]; intros seen seen' Hsub.
  - constructor.
  - simpl. destruct (existsb (pd.row_eqb r) seen) eqn:Hr; simpl.
    + apply IH. intros r' Hr'. simpl. rewrite (Hsub _ Hr').
      apply orb_true_r.
    + constructor.
      * destruct (existsb (pd.row_eqb r) seen') eqn:Hr'; auto.
        rewrite (Hsub _ Hr') in Hr. discriminate.
      * apply IH. intros r'. simpl. rewrite !orb_true_iff.
        intros [H|H]; [now left | right; now apply Hsub].
Qed.

Lemma mask_filter_forallb (A : Type) (p : A -> bool) (mask : list bool)
    (l : list A) :
  forallb p l = true -> forallb p (pd.mask_filter mask l) = true.
Proof.
  revert l; induction mask as [|b mask IH]; intros [|x l] H; simpl in *; auto.
  apply andb_true_iff in H as [Hx Hl].
  destruct b; simpl; [rewrite Hx; simpl|]; auto.
Qed.

Lemma getitem_mask_names (df : DataFrame) (mask : list bool) :
  column_names (pd.getitem_mask df mask) = column_names df.
Proof.
  unfold column_names, pd.getitem_mask; simpl. now rewrite map_map.
Qed.

Lemma getitem_mask_wf (df : DataFrame) (mask : list bool) :
  wf_frame df ->
  length mask = length (index df) ->
  wf_frame (pd.getitem_mask df mask).
Proof.
  intros [Hnd Hcols] Hlen. split.
  - now rewrite getitem_mask_names.
  - simpl. rewrite Forall_map. eapply Forall_impl; [|exact Hcols].
    intros s [Hs Hfit]. split; simpl.
    + rewrite !mask_filter_length; congruence.
    + now apply mask_filter_forallb.
Qed.

Lemma getitem_mask_all (df : DataFrame) (mask : list bool) :
  wf_frame df ->
  length mask = length (index df) ->
  Forall (fun b => b = true) mask ->
  pd.getitem_mask df mask = df.
Proof.
  intros [_ Hcols] Hlen Hall. destruct df as [idx cols]; simpl in *.
  unfold pd.getitem_mask; simpl. f_equal.
  - now apply mask_filter_all.
  - rewrite <- (map_id cols) at 2. apply map_ext_in. intros s Hs.
    rewrite Forall_forall in Hcols. destruct (Hcols _ Hs) as [Hl _].
    destruct s as [l d vs]; simpl in *. f_equal.
    apply mask_filter_all; congruence.
Qed.

Lemma duplicated_length (df : DataFrame) :
  pd.empty df = false ->
  length (pd.duplicated df) = length (index df).
Proof.
  intros He. unfold pd.duplicated. rewrite He.
  now rewrite duplicated_from_length, rows_length.
Qed.

Lemma drop_duplicates_wf (df : DataFrame) :
  wf_frame df -> wf_frame (pd.drop_duplicates df).
Proof.
  intros Hwf. unfold pd.drop_duplicates.
  destruct (pd.empty df) eqn:He; auto.
  apply getitem_mask_wf; auto.
  now rewrite length_map, duplicated_length.
Qed.

(** C9.  [drop_duplicates] is idempotent: applied to its own result it
    returns that result. *)
Theorem drop_duplicates_idempotent (df : DataFrame) :
  wf_frame df ->
  pd.drop_duplicates (pd.drop_duplicates df) = pd.drop_duplicates df.
Proof.
  intros Hwf. destruct (pd.empty df) eqn:He.
  - assert (Hd : pd.drop_duplicates df = df)
      by (unfold pd.drop_duplicates; now rewrite He).
    rewrite Hd. exact Hd.
  - set (keep := map negb (pd.duplicated df)).
    assert (Hd : pd.drop_duplicates df = pd.getitem_mask df keep)
      by (unfold pd.drop_duplicates; now rewrite He).
    assert (Hkeep : length keep = length (index df))
      by (unfold keep; now rewrite length_map, duplicated_length).
    assert (Hwf' : wf_frame (pd.getitem_mask df keep))
      by now apply getitem_mask_wf.
    rewrite Hd. unfold pd.drop_duplicates.
    destruct (pd.empty (pd.getitem_mask df keep)) eqn:He'; auto.
    apply getitem_mask_all; auto.
    + now rewrite length_map, duplicated_length.
    + unfold pd.duplicated at 1. rewrite He'.
      rewrite rows_getitem_mask by assumption.
      unfold keep, pd.duplicated. rewrite He.
      rewrite Forall_map.
      eapply Forall_impl; [|apply duplicated_from_kept; auto].
      intros b Hb; simpl in Hb; now rewrite Hb.
Qed.

Lemma getitem_mask_schema (df : DataFrame) (mask : list bool) :
  schema (pd.getitem_mask df mask) = schema df.
Proof.
  unfold schema, pd.getitem_mask; simpl. now rewrite map_map.
Qed.

Lemma keep_nth (flags : list bool) (i : nat) :
  nth i (map negb flags) true = false <-> nth i flags false = true.
Proof.
  change true with (negb false) at 1. rewrite map_nth.
  destruct (nth i flags false); simpl; split; congruence.
Qed.

(** The equality test behind [duplicated] holds exactly of the cells that
    hold the same value. *)
Lemma cell_eqb_same_value (a b : cell) :
  cell_eqb a b = true <-> same_value a b.
Proof.
  split.
  - destruct a as [x|x| | | |x], b as [y|y| | | |y]; simpl; try discriminate;
      intros H.
    + apply Z.eqb_eq in H. subst. constructor.
    + apply orb_true_iff in H as [H|H].
      * unfold F64.eqb, SFeqb in H.
        destruct x as [sx|sx| |sx mx ex], y as [sy|sy| |sy my ey]; simpl in H;
          try discriminate; try (destruct sx; discriminate);
          try (destruct sy; discriminate).
        -- constructor.
        -- destruct sx, sy; try discriminate; constructor.
        -- destruct sx, sy; try discriminate;
             destruct (Z.compare_spec ex ey) as [E| |]; try discriminate;
             subst ey;
             change (PosDef.Pos.compare_cont Eq mx my) with (Pos.compare mx my)
               in H;
             destruct (Pos.compare_spec mx my) as [E'| |]; try discriminate;
             subst my; constructor.
      * apply andb_true_iff in H as [Hx Hy].
        destruct x, y; try discriminate. constructor.
    + apply Bool.eqb_prop in H. subst. constructor.
    + apply Z.eqb_eq in H. subst. constructor.
    + constructor.
    + apply String.eqb_eq in H. subst. constructor.
  - intros H. destruct H as [c|s1 s2].
    + destruct c as [x|x| | | |x]; simpl; auto.
      * apply Z.eqb_refl.
      * unfold F64.eqb, SFeqb.
        destruct x as [sx|sx| |sx mx ex]; simpl; auto.
        -- now destruct sx.
        -- change (PosDef.Pos.compare_cont Eq mx mx) with (Pos.compare mx mx).
           rewrite Z.compare_refl, Pos.compare_refl. now destruct sx.
      * apply Bool.eqb_reflx.
      * apply Z.eqb_refl.
      * apply String.eqb_refl.
    + reflexivity.
Qed.

Lemma row_eqb_same_values (r1 r2 : pd.row) :
  pd.row_eqb r1 r2 = true <-> same_values r1 r2.
Proof.
  unfold same_values. revert r2.
  induction r1 as [|a r1 IH]; intros [|b r2]; simpl.
  - split; [constructor | reflexivity].
  - split; [discriminate | intros H; inversion H].
  - split; [discriminate | intros H; inversion H].
  - rewrite andb_true_iff, cell_eqb_same_value, IH. split.
    + intros [Ha Hr]. now constructor.
    + intros H. inversion H; subst. now split.
Qed.

(** C3, as amended.  On a frame with at least one column,
    [drop_duplicates] removes exactly the rows that hold the same values,
    cell by cell, as a row above them, where 0.0 and -0.0 are the same
    value and a missing cell is the same as a missing cell: each distinct
    row keeps its first occurrence, the rows that stay keep their order
    and their labels, and the columns keep theirs.  A frame with no
    column is returned as it is. *)
Theorem drop_duplicates_first_occurrences (df : DataFrame) :
  wf_frame df ->
  (columns df <> [] ->
   drops_later_copies same_values df (pd.drop_duplicates df)) /\
  (columns df = [] -> pd.drop_duplicates df = df).
Proof.
  intros Hwf. split.
  - intros Hcols. unfold pd.drop_duplicates.
    destruct (pd.empty df) eqn:He.
    + (* no row at all *)
      assert (Hidx : index df = []).
      { unfold pd.empty in He. apply orb_true_iff in He as [He|He];
          apply Nat.eqb_eq in He.
        - now apply length_zero_iff_nil.
        - apply length_zero_iff_nil in He. contradiction. }
      exists []. unfold pd.rows. rewrite Hidx. simpl.
      repeat split; auto; intros; lia.
    + exists (map negb (pd.duplicated df)).
      assert (Hlen : length (map negb (pd.duplicated df))
                     = length (index df))
        by now rewrite length_map, duplicated_length.
      split; [exact Hlen|]. split; [|split; [|split]].
      * intros i Hi. rewrite keep_nth. unfold pd.duplicated. rewrite He.
        rewrite duplicated_from_nth by now rewrite rows_length.
        unfold later_copy. simpl. split.
        -- intros [[j [Hj H]]|H]; [|discriminate].
           exists j. split; auto. now apply row_eqb_same_values.
        -- intros [j [Hj H]]. left. exists j. split; auto.
           now apply row_eqb_same_values.
      * reflexivity.
      * now apply rows_getitem_mask.
      * apply getitem_mask_schema.
  - intros Hcols. unfold pd.drop_duplicates, pd.empty. rewrite Hcols.
    simpl. now rewrite orb_true_r.
Qed.

(** ** Columns looked up by label *)

Section Labels.
Variable cols : list Series.
Hypothesis Hnd : NoDup (map label cols).

Lemma label_inj (s c : Series) :
  In s cols -> In c cols -> label s = label c -> s = c.
Proof.
  clear -Hnd. induction cols as [|x l IH]; simpl; [tauto|].
  inversion Hnd as [|? ? Hx Hl]; subst.
  intros [Hs|Hs] [Hc|Hc] Heq; subst; auto.
  - exfalso. apply Hx. rewrite Heq. now apply in_map.
  - exfalso. apply Hx. rewrite <- Heq. now apply in_map.
Qed.

Lemma filter_label (s : Series) :
  In s cols ->
  filter (fun c => String.eqb (label c) (label s)) cols = [s].
Proof.
  clear -Hnd. induction cols as [|x l IH]; simpl; [tauto|].
  inversion Hnd as [|? ? Hx Hl]; subst.
  assert (Hnone : forall k, ~ In k (map label l) ->
            filter (fun c => String.eqb (label c) k) l = []).
  { clear. intros k. induction l as [|y l IH]; simpl; auto.
    intros Hk. destruct (String.eqb_spec (label y) k) as [E|E].
    - exfalso. apply Hk. now left.
    - apply IH. intros H. apply Hk. now right. }
  intros [Hs|Hs].
  - subst. rewrite String.eqb_refl. f_equal. now apply Hnone.
  - destruct (String.eqb_spec (label x) (label s)) as [E|E].
    + exfalso. apply Hx. rewrite E. now apply in_map.
    + now apply IH.
Qed.

Lemma find_label (s : Series) :
  In s cols ->
  find (fun c => String.eqb (label c) (label s)) cols = Some s.
Proof.
  intros Hs.
  destruct (find (fun c => String.eqb (label c) (label s)) cols) as [c|] eqn:Hf.
  - apply find_some in Hf as [Hc He]. apply String.eqb_eq in He.
    f_equal. now apply label_inj.
  - eapply find_none in Hf; [|exact Hs]. simpl in Hf.
    now rewrite String.eqb_refl in Hf.
Qed.

Lemma lookup_label (A : Type) (f : Series -> A) (s : Series) :
  In s cols ->
  pd.lookup (label s) (map (fun c => (label c, f c)) cols) = Some (f s).
Proof.
  clear -Hnd. induction cols as [|x l IH]; simpl; [tauto|].
  inversion Hnd as [|? ? Hx Hl]; subst.
  intros [Hs|Hs].
  - subst. now rewrite String.eqb_refl.
  - destruct (String.eqb_spec (label s) (label x)) as [E|E].
    + exfalso. apply Hx. rewrite <- E. now apply in_map.
    + now apply IH.
Qed.

Lemma flat_map_labels (sel : list Series) :
  incl sel cols ->
  flat_map (fun n => filter (fun c => String.eqb (label c) n) cols)
           (map label sel) = sel.
Proof.
  induction sel as [|s sel IH]; intros Hincl; simpl; auto.
  rewrite filter_label by (apply Hincl; now left).
  simpl. f_equal. apply IH. intros x Hx. apply Hincl. now right.
Qed.
End Labels.

Lemma has_column_In (df : DataFrame) (n : string) :
  pd.has_column df n = true <-> In n (column_names df).
Proof.
  unfold pd.has_column. rewrite existsb_exists. split.
  - intros [x [Hx He]]. apply String.eqb_eq in He. now subst.
  - intros H. exists n. split; auto. apply String.eqb_refl.
Qed.

(** [df[names]] succeeds when every name is the label of a column. *)
Lemma getitem_list_sel (df : DataFrame) (sel : list Series) :
  NoDup (column_names df) ->
  incl sel (columns df) ->
  pd.getitem_list df (map label sel)
  = Ok {| index := index df; columns := sel |}.
Proof.
  intros Hnd Hincl. unfold pd.getitem_list.
  assert (Hnone : filter (fun n => negb (pd.has_column df n)) (map label sel)
                  = []).
  { clear Hnd. induction sel as [|s sel IH]; simpl; auto.
    assert (Hs : pd.has_column df (label s) = true).
    { apply has_column_In. apply in_map. apply Hincl. now left. }
    rewrite Hs. simpl. apply IH. intros x Hx. apply Hincl. now right. }
  rewrite Hnone. now rewrite flat_map_labels.
Qed.

(** ** The sum and the mean *)

Lemma adds_up_fold (a : list F64.t) :
  forall (l0 : list F64.t) (r : F64.t),
  adds_up l0 r -> adds_up (l0 ++ a) (fold_left F64.add a r).
Proof.
  induction a as [|x a IH]; intros l0 r H; simpl.
  - now rewrite app_nil_r.
  - replace (l0 ++ x :: a) with ((l0 ++ [x]) ++ a)
      by (rewrite <- app_assoc; reflexivity).
    apply IH. apply adds_plus; [exact H | constructor].
Qed.

Lemma concat_snoc_each (gs : list (list F64.t)) :
  forall chunk : list F64.t,
  length gs = length chunk ->
  Permutation (concat (snoc_each gs chunk)) (concat gs ++ chunk).
Proof.
  unfold snoc_each.
  induction gs as [|g gs IH]; intros [|x chunk] Hlen; simpl in *;
    try discriminate; auto.
  rewrite <- !app_assoc. apply Permutation_app_head. simpl.
  apply Permutation_cons_app. apply IH. lia.
Qed.

Ltac invert_lanes :=
  repeat match goal with
         | H : Forall2 _ _ (_ :: _) |- _ => inversion H; subst; clear H
         | H : Forall2 _ _ [] |- _ => inversion H; subst; clear H
         end.

(** Each partial sum adds up the numbers that went into it, and between
    them the partial sums and the numbers left over hold every number
    once. *)
Lemma adds_up_unrolled (n : nat) :
  forall (a : list F64.t) (r : np.lanes) (gs : list (list F64.t)),
  length a <= n ->
  Forall2 adds_up gs (lanes_list r) ->
  exists gs',
    Forall2 adds_up gs' (lanes_list (fst (np.unrolled r a))) /\
    Permutation (concat gs' ++ snd (np.unrolled r a)) (concat gs ++ a).
Proof.
  induction n as [|n IH]; intros a r gs Hlen Hgs.
  - destruct a; [|simpl in Hlen; lia]. exists gs. now split.
  - destruct a as [|a0 [|a1 [|a2 [|a3 [|a4 [|a5 [|a6 [|a7 rest]]]]]]]];
      try (exists gs; now split).
    change (np.unrolled r (a0 :: a1 :: a2 :: a3 :: a4 :: a5 :: a6 :: a7 :: rest))
      with (np.unrolled (np.add_chunk r a0 a1 a2 a3 a4 a5 a6 a7) rest).
    set (chunk := [a0; a1; a2; a3; a4; a5; a6; a7]).
    destruct (IH rest (np.add_chunk r a0 a1 a2 a3 a4 a5 a6 a7)
                (snoc_each gs chunk)) as [gs' [Hgs' Hperm]].
    + simpl in Hlen. lia.
    + unfold lanes_list in Hgs. invert_lanes.
      unfold snoc_each, chunk, lanes_list; simpl.
      repeat (constructor; [apply adds_plus; [assumption | constructor]|]).
      constructor.
    + exists gs'. split; [exact Hgs'|].
      rewrite Hperm.
      change (a0 :: a1 :: a2 :: a3 :: a4 :: a5 :: a6 :: a7 :: rest)
        with (chunk ++ rest).
      rewrite app_assoc. apply Permutation_app_tail.
      apply concat_snoc_each.
      apply Forall2_length in Hgs. rewrite Hgs. reflexivity.
Qed.

Lemma adds_up_lanes (r : np.lanes) (gs : list (list F64.t)) :
  Forall2 adds_up gs (lanes_list r) -> adds_up (concat gs) (np.add_lanes r).
Proof.
  intros H. unfold lanes_list in H. invert_lanes. simpl.
  rewrite app_nil_r. unfold np.add_lanes.
  match goal with
  | |- adds_up (?g0 ++ ?g1 ++ ?g2 ++ ?g3 ++ ?g4 ++ ?g5 ++ ?g6 ++ ?g7) _ =>
      replace (g0 ++ g1 ++ g2 ++ g3 ++ g4 ++ g5 ++ g6 ++ g7)
        with (((g0 ++ g1) ++ (g2 ++ g3)) ++ ((g4 ++ g5) ++ (g6 ++ g7)))
        by (rewrite <- !app_assoc; reflexivity)
  end.
  repeat apply adds_plus; assumption.
Qed.

Lemma adds_up_block_sum (a : list F64.t) : adds_up a (np.block_sum a).
Proof.
  assert (Hsmall : adds_up a (fold_left F64.add a F64.neg_zero))
    by (apply (adds_up_fold a [] F64.neg_zero); constructor).
  destruct a as [|a0 [|a1 [|a2 [|a3 [|a4 [|a5 [|a6 [|a7 rest]]]]]]]];
    try exact Hsmall.
  clear Hsmall. unfold np.block_sum.
  set (r := {| np.lane0 := a0; np.lane1 := a1; np.lane2 := a2;
               np.lane3 := a3; np.lane4 := a4; np.lane5 := a5;
               np.lane6 := a6; np.lane7 := a7 |}).
  destruct (adds_up_unrolled (length rest) rest r
              [[a0]; [a1]; [a2]; [a3]; [a4]; [a5]; [a6]; [a7]])
    as [gs' [Hgs' Hperm]].
  - lia.
  - unfold lanes_list, r; simpl. repeat constructor.
  - destruct (np.unrolled r rest) as [r' left_over]. simpl in Hgs', Hperm.
    apply (adds_perm _ _ _ Hperm).
    apply adds_up_fold. now apply adds_up_lanes.
Qed.

Lemma adds_up_pairwise_sum_rec (depth : nat) :
  forall a : list F64.t, adds_up a (np.pairwise_sum_rec depth a).
Proof.
  induction depth as [|depth IH]; intros a; simpl.
  - apply adds_up_block_sum.
  - destruct (length a <=? np.PW_BLOCKSIZE)%nat.
    + apply adds_up_block_sum.
    + rewrite <- (firstn_skipn (np.half (length a)) a) at 1.
      apply adds_plus; apply IH.
Qed.

(** What [a.sum()] returns is a sum of the numbers of [a]. *)
Lemma adds_up_sum (a : list F64.t) : adds_up a (np.sum a).
Proof.
  unfold np.sum. destruct a as [|x a]; [constructor|].
  apply (adds_plus [] (x :: a)); [constructor|].
  apply adds_up_pairwise_sum_rec.
Qed.

Lemma half_bounds (n : nat) :
  np.PW_BLOCKSIZE < n -> 0 < np.half n /\ np.half n < n.
Proof.
  unfold np.half, np.PW_BLOCKSIZE. intros Hn.
  assert (H2 := Nat.div_mod_eq n 2).
  assert (Hm2 : n mod 2 < 2) by (apply Nat.mod_upper_bound; lia).
  assert (Hm8 : (n / 2) mod 8 < 8) by (apply Nat.mod_upper_bound; lia).
  lia.
Qed.

(** The recursion does not depend on the depth it is allowed, once this
    is the length of the array. *)
Lemma pairwise_sum_rec_depth (d1 : nat) :
  forall (d2 : nat) (a : list F64.t),
  length a <= d1 -> length a <= d2 ->
  np.pairwise_sum_rec d1 a = np.pairwise_sum_rec d2 a.
Proof.
  induction d1 as [|d1 IH]; intros d2 a H1 H2.
  - destruct a; [|simpl in H1; lia]. now destruct d2.
  - destruct d2 as [|d2].
    + destruct a; [|simpl in H2; lia]. reflexivity.
    + simpl. destruct (length a <=? np.PW_BLOCKSIZE)%nat eqn:Hb; auto.
      apply Nat.leb_gt in Hb. destruct (half_bounds _ Hb) as [Hh1 Hh2].
      f_equal; apply IH;
        rewrite ?length_firstn, ?length_skipn; lia.
Qed.

(** [pairwise_sum] as the C function reads: the block sum up to
    [PW_BLOCKSIZE] numbers, the sum of the sums of the two parts
    beyond. *)
Lemma pairwise_sum_eq (a : list F64.t) :
  np.pairwise_sum a
  = if (length a <=? np.PW_BLOCKSIZE)%nat then np.block_sum a
    else F64.add (np.pairwise_sum (firstn (np.half (length a)) a))
                 (np.pairwise_sum (skipn (np.half (length a)) a)).
Proof.
  unfold np.pairwise_sum at 1.
  destruct (length a) as [|n] eqn:Hn; [reflexivity|].
  cbn [np.pairwise_sum_rec]. rewrite Hn.
  destruct (S n <=? np.PW_BLOCKSIZE)%nat eqn:Hb; [reflexivity|].
  apply Nat.leb_gt in Hb. destruct (half_bounds _ Hb) as [Hh1 Hh2].
  unfold np.pairwise_sum.
  f_equal; apply pairwise_sum_rec_depth;
    rewrite ?length_firstn, ?length_skipn; lia.
Qed.

Lemma without_zeros_app (l1 : list F64.t) :
  forall l2 l' : list F64.t,
  without_zeros (l1 ++ l2) l' ->
  exists l1' l2',
    l' = l1' ++ l2' /\ without_zeros l1 l1' /\ without_zeros l2 l2'.
Proof.
  induction l1 as [|x l1 IH]; intros l2 l' H; simpl in H.
  - exists [], l'. repeat split; auto. constructor.
  - inversion H as [|? ? l'' H'|? ? ? H']; subst.
    + destruct (IH _ _ H') as [l1' [l2' [E [H1 H2]]]]. subst.
      exists (x :: l1'), l2'. repeat split; auto. now constructor.
    + destruct (IH _ _ H') as [l1' [l2' [E [H1 H2]]]]. subst.
      exists l1', l2'. repeat split; auto. now constructor.
Qed.

Lemma without_zeros_perm (l0 l : list F64.t) :
  Permutation l0 l ->
  forall l' : list F64.t,
  without_zeros l l' ->
  exists l0', without_zeros l0 l0' /\ Permutation l0' l'.
Proof.
  induction 1 as [|x l0 l Hp IH|x y l|l0 l1 l Hp1 IH1 Hp2 IH2]; intros l' H.
  - inversion H; subst. exists []. split; constructor.
  - inversion H as [|? ? l'' H'|? ? ? H']; subst.
    + destruct (IH _ H') as [l0' [H0 Hp0]].
      exists (x :: l0'). split; [now constructor | now constructor].
    + destruct (IH _ H') as [l0' [H0 Hp0]].
      exists l0'. split; [now constructor | assumption].
  - inversion H as [|? ? l1 H1|? ? ? H1]; subst;
      inversion H1 as [|? ? l2 H2|? ? ? H2]; subst.
    + exists (y :: x :: l2). split; [|apply perm_swap].
      apply wz_keep. now apply wz_keep.
    + exists (x :: l1). split; [|apply Permutation_refl].
      apply wz_drop. now apply wz_keep.
    + exists (y :: l2). split; [|apply Permutation_refl].
      apply wz_keep. now apply wz_drop.
    + exists l'. split; [|apply Permutation_refl].
      apply wz_drop. now apply wz_drop.
  - destruct (IH2 _ H) as [l1' [H1 Hp1']].
    destruct (IH1 _ H1) as [l0' [H0 Hp0']].
    exists l0'. split; auto. eapply Permutation_trans; eauto.
Qed.

(** A sum of numbers is a sum of those of them that are not zero, and of
    any of the zeros. *)
Lemma adds_up_without_zeros (l : list F64.t) (x : F64.t) :
  adds_up l x ->
  forall l' : list F64.t, without_zeros l l' -> adds_up l' x.
Proof.
  induction 1 as [s|x|l1 l2 x y H1 IH1 H2 IH2|l0 l x Hp H IH]; intros l' Hw.
  - inversion Hw; subst. constructor.
  - inversion Hw as [|? ? l'' H'|? ? ? H']; subst; inversion H'; subst;
      constructor.
  - apply without_zeros_app in Hw as [l1' [l2' [E [Hw1 Hw2]]]]. subst.
    apply adds_plus; auto.
  - destruct (without_zeros_perm _ _ Hp _ Hw) as [l0' [H0 Hp0]].
    apply (adds_perm _ _ _ Hp0). now apply IH.
Qed.

Lemma without_missing (xs : list F64.t) :
  without_zeros (map (fun x => if F64.is_nan x then F64.zero else x) xs)
                (filter (fun x => negb (F64.is_nan x)) xs).
Proof.
  induction xs as [|x xs IH]; simpl; [constructor|].
  destruct (F64.is_nan x); simpl; now constructor.
Qed.

Lemma present_values_floats (vs : list cell) :
  forallb (fits float64) vs = true ->
  map pd.to_float (filter (fun c => negb (isna c)) vs)
  = filter (fun x => negb (F64.is_nan x)) (map pd.to_float vs).
Proof.
  induction vs as [|c vs IH]; simpl; auto.
  intros H. apply andb_true_iff in H as [Hc Hvs].
  destruct c; try discriminate. simpl.
  destruct (F64.is_nan f); simpl; now rewrite IH.
Qed.

(** The mean pandas computes for a float64 column is a mean of the
    values the column holds. *)
Lemma nanmean_mean_of (s : Series) :
  forallb (fits float64) (values s) = true ->
  mean_of (present_values s) (pd.nanmean (values s)).
Proof.
  intros Hfit. unfold present_values, pd.nanmean.
  rewrite (present_values_floats _ Hfit).
  set (xs := map pd.to_float (values s)).
  assert (Hsum := adds_up_without_zeros _ _
                    (adds_up_sum
                       (map (fun x => if F64.is_nan x then F64.zero else x)
                            xs))
                    _ (without_missing xs)).
  destruct (filter (fun x => negb (F64.is_nan x)) xs) as [|x present];
    [reflexivity|].
  simpl length. cbv beta iota. unfold mean_of.
  eexists. split; [exact Hsum | reflexivity].
Qed.

(** The order of the additions shows in the result: on nine cells numpy
    adds the first eight two by two, which gives the mean 0.375 where
    adding from left to right would not, and NaN where adding from left to
    right would give an infinity. *)
Example nanmean_tenths :
  pd.nanmean tenths_column = ratio 3 8 /\
  F64.div (sum_left_to_right tenths_column) (F64.of_Z 8) <> ratio 3 8.
Proof. split; [vm_compute; reflexivity | vm_compute; discriminate]. Qed.

Example nanmean_huge :
  pd.nanmean huge_column = F64.nan /\
  F64.div (sum_left_to_right huge_column) (F64.of_Z 8) = F64.inf.
Proof. split; vm_compute; reflexivity. Qed.

(** ** The fill, column by column *)

Lemma fillna_mean (idx : list Z) (sub : list Series) :
  NoDup (map label sub) ->
  pd.fillna {| index := idx; columns := sub |}
            (pd.mean {| index := idx; columns := sub |})
  = {| index := idx; columns := map fill_series sub |}.
Proof.
  intros Hnd. unfold pd.fillna, pd.mean; simpl. f_equal.
  apply map_ext_in. intros s Hs.
  now rewrite (lookup_label sub Hnd _ (fun c => pd.nanmean (values c)) s Hs).
Qed.

Lemma series_eta (s : Series) :
  {| label := label s; dtype_of := dtype_of s; values := values s |} = s.
Proof. now destruct s. Qed.

Lemma frame_eta (df : DataFrame) :
  {| index := index df; columns := columns df |} = df.
Proof. now destruct df. Qed.

(** The loop of [df[keys] = value] when each key [k] finds [G k] in
    [value] and is a column of [df] already. *)
Lemma setitem_pairs_replace (value : DataFrame) (G : string -> Series)
    (sel : list Series) :
  (forall k, label (G k) = k) ->
  (forall s, In s sel -> pd.getitem value (label s) = Ok (G (label s))) ->
  forall cur : DataFrame,
  (forall s, In s sel -> In (label s) (column_names cur)) ->
  pd.setitem_pairs cur value (map (fun s => (label s, label s)) sel)
  = Ok {| index := index cur;
          columns :=
            map (fun c =>
                   if existsb (fun s => String.eqb (label s) (label c)) sel
                   then G (label c) else c)
                (columns cur) |}.
Proof.
  intros HG Hget. induction sel as [|s sel IH]; intros cur Hin; simpl.
  - rewrite map_id. now rewrite frame_eta.
  - rewrite Hget by now left.
    assert (Hhas : pd.has_column cur (label s) = true)
      by (apply has_column_In, Hin; now left).
    assert (Hset : pd.setitem cur (label s) (G (label s))
                   = {| index := index cur;
                        columns :=
                          map (fun c => if String.eqb (label c) (label s)
                                        then G (label s) else c)
                              (columns cur) |}).
    { unfold pd.setitem. rewrite Hhas. f_equal.
      apply map_ext. intros c.
      rewrite <- (HG (label s)) at 2. now rewrite series_eta. }
    rewrite Hset. rewrite IH.
    + simpl. f_equal. f_equal. rewrite map_map. apply map_ext. intros c.
      rewrite (String.eqb_sym (label s) (label c)).
      destruct (String.eqb_spec (label c) (label s)) as [E|E]; simpl.
      * rewrite HG. rewrite E.
        now destruct (existsb _ sel).
      * reflexivity.
    + intros x Hx. apply Hget. now right.
    + intros x Hx. unfold column_names; simpl. rewrite map_map.
      assert (Hx' : In (label x) (column_names cur))
        by (apply Hin; now right).
      unfold column_names in Hx'. apply in_map_iff in Hx' as [c [Hc1 Hc2]].
      apply in_map_iff. exists c. split; auto.
      destruct (String.eqb_spec (label c) (label s)) as [E|E]; auto.
      rewrite HG. congruence.
Qed.

Lemma combine_same (A : Type) (l : list A) :
  combine l l = map (fun x => (x, x)) l.
Proof. induction l; simpl; congruence. Qed.

(** On a frame with unique column labels the fill statement succeeds, and
    amounts to [fill_column] on each column. *)
Lemma fill_missing_values_columns (df : DataFrame) :
  NoDup (column_names df) ->
  fill_missing_values df
  = Ok {| index := index df; columns := map fill_column (columns df) |}.
Proof.
  intros Hnd. unfold fill_missing_values, pd.select_dtypes_number_columns.
  set (num := filter (fun s => pd.is_number (dtype_of s)) (columns df)).
  assert (Hincl : incl num (columns df))
    by (intros x Hx; apply filter_In in Hx; tauto).
  assert (Hndnum : NoDup (map label num)).
  { unfold num. clear Hincl. unfold column_names in Hnd.
    induction (columns df) as [|c l IH]; simpl; [constructor|].
    inversion Hnd as [|? ? Hc Hl]; subst.
    destruct (pd.is_number (dtype_of c)); simpl; auto.
    constructor; auto. intros H. apply Hc.
    apply in_map_iff in H as [x [Hx1 Hx2]].
    apply filter_In in Hx2 as [Hx2 _]. rewrite <- Hx1. now apply in_map. }
  rewrite getitem_list_sel by assumption.
  rewrite fillna_mean by assumption.
  unfold pd.setitem_list. simpl columns. unfold column_names. simpl columns.
  rewrite !length_map, Nat.eqb_refl.
  replace (map label (map fill_series num)) with (map label num)
    by (rewrite map_map; reflexivity).
  rewrite combine_same, map_map.
  set (G := fun k =>
         match find (fun c => String.eqb (label c) k) (columns df) with
         | Some c => fill_series c
         | None => {| label := k; dtype_of := object_; values := [] |}
         end).
  rewrite (setitem_pairs_replace _ G).
  - f_equal. f_equal. apply map_ext_in. intros c Hc.
    unfold G. rewrite (find_label _ Hnd c Hc). unfold fill_column.
    destruct (pd.is_number (dtype_of c)) eqn:Hn.
    + assert (He : existsb (fun s => String.eqb (label s) (label c)) num
                   = true).
      { apply existsb_exists. exists c. split.
        - apply filter_In. now split.
        - apply String.eqb_refl. }
      now rewrite He.
    + assert (He : existsb (fun s => String.eqb (label s) (label c)) num
                   = false).
      { destruct (existsb _ num) eqn:He; auto.
        apply existsb_exists in He as [s [Hs He]].
        apply String.eqb_eq in He. apply filter_In in Hs as [Hs Hs'].
        rewrite (label_inj _ Hnd s c Hs Hc He) in Hs'. congruence. }
      now rewrite He.
  - intros k. unfold G.
    destruct (find _ (columns df)) as [c|] eqn:Hf; simpl; auto.
    apply find_some in Hf as [_ Hf]. now apply String.eqb_eq in Hf.
  - intros s Hs. unfold pd.getitem. simpl columns.
    assert (Hfs : find (fun c => String.eqb (label c) (label s))
                       (map fill_series num) = Some (fill_series s)).
    { change (label s) with (label (fill_series s)).
      apply find_label.
      - now rewrite map_map.
      - now apply in_map. }
    rewrite Hfs. unfold G. now rewrite (find_label _ Hnd s (Hincl _ Hs)).
  - intros s Hs. apply in_map. now apply Hincl.
Qed.

Lemma Forall2_map_self (A B : Type) (R : A -> B -> Prop) (f : A -> B)
    (l : list A) :
  (forall x, In x l -> R x (f x)) -> Forall2 R l (map f l).
Proof.
  induction l as [|x l IH]; intros H; simpl; constructor.
  - apply H. now left.
  - apply IH. intros y Hy. apply H. now right.
Qed.

Lemma fill_column_values_kept (s : Series) : values_kept s (fill_column s).
Proof.
  unfold values_kept, fill_column.
  destruct (pd.is_number (dtype_of s)); simpl.
  - apply Forall2_map_self. intros c _ Hc. now rewrite Hc.
  - rewrite <- (map_id (values s)) at 2.
    apply Forall2_map_self. auto.
Qed.

(** ** The claims on the cleaning operations *)

Lemma distinct_NoDup (l : list string) : distinct l = true -> NoDup l.
Proof.
  induction l as [|x l IH]; simpl; [constructor|].
  intros H. apply andb_true_iff in H as [Hx Hl]. constructor; auto.
  intros Hin. apply negb_true_iff in Hx.
  assert (Ht : existsb (String.eqb x) l = true).
  { apply existsb_exists. exists x. split; auto. apply String.eqb_refl. }
  congruence.
Qed.

Lemma wf_frameb_spec (df : DataFrame) : wf_frameb df = true -> wf_frame df.
Proof.
  unfold wf_frameb, wf_frame. intros H.
  apply andb_true_iff in H as [Hd Hc]. split.
  - now apply distinct_NoDup.
  - rewrite forallb_forall in Hc. apply Forall_forall. intros s Hs.
    specialize (Hc _ Hs). apply andb_true_iff in Hc as [Hl Hf].
    apply Nat.eqb_eq in Hl. now split.
Qed.

Lemma drop_duplicates_idempotent_witness :
  wf_frame repeated_frame /\
  pd.drop_duplicates (pd.drop_duplicates repeated_frame)
  = pd.drop_duplicates repeated_frame.
Proof.
  split.
  - apply wf_frameb_spec; reflexivity.
  - apply (drop_duplicates_idempotent repeated_frame).
    apply wf_frameb_spec; reflexivity.
Defined.

Lemma drop_duplicates_first_occurrences_witness :
  wf_frame signed_zeros_frame /\
  (columns signed_zeros_frame <> [] ->
   drops_later_copies same_values signed_zeros_frame
     (pd.drop_duplicates signed_zeros_frame)) /\
  (columns signed_zeros_frame = [] ->
   pd.drop_duplicates signed_zeros_frame = signed_zeros_frame).
Proof.
  split; [apply wf_frameb_spec; reflexivity|].
  apply (drop_duplicates_first_occurrences signed_zeros_frame).
  apply wf_frameb_spec; reflexivity.
Defined.

(** C3, as stated, fails in two ways.  On a frame without columns the
    two rows are identical, having no cell to tell them apart, and
    [drop_duplicates] returns the frame as it is.  On a frame whose two
    rows differ in the sign of a zero the rows are not identical, and
    [drop_duplicates] removes the second. *)
Lemma drop_duplicates_not_identical_rows :
  (wf_frame no_columns_frame /\
   pd.drop_duplicates no_columns_frame = no_columns_frame /\
   ~ drops_later_copies identical no_columns_frame
       (pd.drop_duplicates no_columns_frame)) /\
  (wf_frame signed_zeros_frame /\
   index (pd.drop_duplicates signed_zeros_frame) = [0%Z] /\
   ~ drops_later_copies identical signed_zeros_frame
       (pd.drop_duplicates signed_zeros_frame)).
Proof.
  split; (split; [apply wf_frameb_spec; reflexivity|]);
    (split; [reflexivity|]).
  - intros [keep [Hlen [Hflag [Hidx _]]]].
    assert (H1 : nth 1 keep true = false).
    { apply Hflag; [simpl; lia|]. exists 0. split; [lia | reflexivity]. }
    destruct keep as [|b0 [|b1 [|b2 keep]]]; simpl in Hlen; try discriminate.
    simpl in H1. subst b1. destruct b0; discriminate.
  - intros [keep [Hlen [Hflag [Hidx _]]]].
    destruct keep as [|b0 [|b1 [|b2 keep]]]; simpl in Hlen; try discriminate.
    assert (H0 : b0 = true).
    { destruct b0; auto. destruct (proj1 (Hflag 0 ltac:(simpl; lia)) eq_refl)
        as [j [Hj _]]. lia. }
    assert (H1 : b1 = true).
    { destruct b1; auto. destruct (proj1 (Hflag 1 ltac:(simpl; lia)) eq_refl)
        as [j [Hj Hsame]].
      assert (j = 0) by lia. subst j. discriminate Hsame. }
    subst. discriminate Hidx.
Qed.

Lemma fill_column_int64 (n : nat) (s : Series) :
  wf_series n s -> dtype_of s = int64 ->
  fill_column s = s /\ no_missing s = true.
Proof.
  intros [_ Hfit] Hd. unfold fill_column, fill_series, no_missing.
  rewrite Hd in *. simpl pd.is_number. cbv iota.
  assert (Hna : forall c, In c (values s) -> isna c = false).
  { intros c Hc. rewrite forallb_forall in Hfit. specialize (Hfit _ Hc).
    now destruct c. }
  split.
  - rewrite <- (series_eta s) at 4. rewrite Hd. f_equal.
    unfold pd.fillna_values. rewrite <- (map_id (values s)) at 2.
    apply map_ext_in. intros c Hc. now rewrite (Hna _ Hc).
  - apply forallb_forall. intros c Hc. now rewrite (Hna _ Hc).
Qed.

Lemma fill_column_filled_from (n : nat) (s : Series) :
  wf_series n s -> filled_from when_the_mean_is_a_number s (fill_column s).
Proof.
  intros Hwf. unfold filled_from.
  split; [unfold fill_column; now destruct (pd.is_number (dtype_of s))|].
  split; [unfold fill_column; now destruct (pd.is_number (dtype_of s))|].
  destruct (dtype_of s) eqn:Hd;
    try (unfold fill_column; rewrite Hd; reflexivity).
  - destruct (fill_column_int64 n s Hwf Hd) as [E Hm]. rewrite E. now split.
  - destruct Hwf as [_ Hfit]. rewrite Hd in Hfit.
    exists (pd.nanmean (values s)). split; [|split].
    + now apply nanmean_mean_of.
    + unfold filled_with, fill_column. rewrite Hd. simpl.
      apply Forall2_map_self. auto.
    + unfold when_the_mean_is_a_number, no_missing, fill_column.
      rewrite Hd. simpl. intros Hm.
      unfold pd.fillna_values. rewrite forallb_forall. intros c' Hc'.
      apply in_map_iff in Hc' as [c [Hc _]]. subst c'.
      destruct (isna c) eqn:Hc; simpl.
      * exact Hm.
      * now rewrite Hc.
Qed.

(** C2, as amended.  The fill succeeds and keeps the row labels.  In
    every float64 column each missing cell is replaced by the column's
    mean, which is a binary64 sum of the values the column holds divided
    by their number (NaN when the column holds none), and the other cells
    stay; when that mean is a number and not NaN, no missing cell is left
    in the column.  A column of integers has no missing cell and stays as
    it is; a column that is not numeric stays as it is. *)
Theorem fill_missing_values_fills (df : DataFrame) :
  wf_frame df ->
  exists out,
    fill_missing_values df = Ok out /\
    fills_missing_numeric when_the_mean_is_a_number df out.
Proof.
  intros [Hnd Hcols]. eexists. split.
  - now apply fill_missing_values_columns.
  - split; simpl; auto.
    apply Forall2_map_self. intros s Hs.
    rewrite Forall_forall in Hcols.
    apply (fill_column_filled_from _ _ (Hcols _ Hs)).
Qed.

Lemma fill_missing_values_fills_witness :
  wf_frame repeated_frame /\
  exists out,
    fill_missing_values repeated_frame = Ok out /\
    fills_missing_numeric when_the_mean_is_a_number repeated_frame out.
Proof.
  split.
  - apply wf_frameb_spec; reflexivity.
  - apply (fill_missing_values_fills repeated_frame).
    apply wf_frameb_spec; reflexivity.
Defined.

(** C2, as stated, fails on a column that holds both infinities: the
    column has values, every mean of them is NaN, and the missing cell
    stays missing. *)
Lemma fill_missing_values_infinities :
  wf_frame infinities_frame /\
  ~ exists out,
      fill_missing_values infinities_frame = Ok out /\
      fills_missing_numeric when_it_has_a_value infinities_frame out.
Proof.
  split; [apply wf_frameb_spec; reflexivity|].
  intros [out [Hout [_ Hcols]]].
  vm_compute in Hout. injection Hout as Hout. subst out.
  simpl in Hcols. inversion Hcols as [|s s' l l' Hfirst _]; subst.
  destruct Hfirst as [_ [_ [m [_ [_ Hleft]]]]].
  specialize (Hleft eq_refl). vm_compute in Hleft. discriminate.
Qed.

(** C8.  Selecting all the columns of a frame, in their order, returns
    the frame. *)
Theorem select_all_columns (df : DataFrame) :
  wf_frame df ->
  pd.getitem_list df (column_names df) = Ok df.
Proof.
  intros [Hnd _]. unfold column_names.
  rewrite getitem_list_sel.
  - now rewrite frame_eta.
  - exact Hnd.
  - apply incl_refl.
Qed.

Lemma select_all_columns_witness :
  wf_frame scenario_frame /\
  pd.getitem_list scenario_frame (column_names scenario_frame)
  = Ok scenario_frame.
Proof.
  split.
  - apply wf_frameb_spec; reflexivity.
  - apply (select_all_columns scenario_frame).
    apply wf_frameb_spec; reflexivity.
Defined.

(** C10.  [drop_duplicates] leaves the column labels and their order as
    they are; the fill leaves the row labels (hence the row count) and the
    column labels and their order as they are, and every cell that held a
    value holds the same value afterwards. *)
Theorem cleaning_keeps_shape (df : DataFrame) :
  wf_frame df ->
  column_names (pd.drop_duplicates df) = column_names df /\
  exists out,
    fill_missing_values df = Ok out /\
    index out = index df /\
    column_names out = column_names df /\
    Forall2 values_kept (columns df) (columns out).
Proof.
  intros [Hnd _]. split.
  - unfold pd.drop_duplicates. destruct (pd.empty df); auto.
    apply getitem_mask_names.
  - eexists. split; [now apply fill_missing_values_columns|].
    simpl. split; [reflexivity|]. split.
    + unfold column_names; simpl. rewrite map_map. apply map_ext.
      intros s. unfold fill_column. now destruct (pd.is_number (dtype_of s)).
    + apply Forall2_map_self. intros s _. apply fill_column_values_kept.
Qed.

Lemma cleaning_keeps_shape_witness :
  wf_frame repeated_frame /\
  column_names (pd.drop_duplicates repeated_frame)
  = column_names repeated_frame /\
  exists out,
    fill_missing_values repeated_frame = Ok out /\
    index out = index repeated_frame /\
    column_names out = column_names repeated_frame /\
    Forall2 values_kept (columns repeated_frame) (columns out).
Proof.
  split.
  - apply wf_frameb_spec; reflexivity.
  - apply (cleaning_keeps_shape repeated_frame).
    apply wf_frameb_spec; reflexivity.
Defined.

(** ** The registry as a dict *)

Section DictFacts.
Variable V : Type.
Implicit Types (d : PyDict.t V) (k : string) (v : V).

Lemma contains_In k d : PyDict.contains k d = true <-> In k (PyDict.keys d).
Proof.
  unfold PyDict.contains. rewrite existsb_exists. split.
  - intros [x [Hx He]]. apply String.eqb_eq in He. now subst.
  - intros H. exists k. split; auto. apply String.eqb_refl.
Qed.

Lemma contains_cons k k' v d :
  PyDict.contains k ((k', v) :: d)
  = String.eqb k k' || PyDict.contains k d.
Proof. reflexivity. Qed.

Lemma get_contains k d :
  PyDict.contains k d = true <-> exists v, PyDict.get k d = Some v.
Proof.
  induction d as [|[k' v'] d IH]; simpl.
  - split; [discriminate | intros [v H]; discriminate].
  - rewrite contains_cons. destruct (String.eqb k k'); simpl.
    + split; auto. intros _. now exists v'.
    + exact IH.
Qed.

Lemma get_not_contains k d :
  PyDict.contains k d = false -> PyDict.get k d = None.
Proof.
  intros H. destruct (PyDict.get k d) as [v|] eqn:Hg; auto.
  assert (Ht : PyDict.contains k d = true)
    by (apply get_contains; now exists v).
  congruence.
Qed.

Lemma set_absent k v d :
  PyDict.contains k d = false -> PyDict.set k v d = d ++ [(k, v)].
Proof.
  induction d as [|[k' v'] d IH]; simpl; auto.
  rewrite contains_cons. intros H. apply orb_false_iff in H as [H1 H2].
  rewrite H1. f_equal. now apply IH.
Qed.

Lemma keys_set_present k v d :
  PyDict.contains k d = true -> PyDict.keys (PyDict.set k v d) = PyDict.keys d.
Proof.
  induction d as [|[k' v'] d IH]; simpl; [discriminate|].
  rewrite contains_cons. destruct (String.eqb k k') eqn:E; simpl; auto.
  intros H. f_equal. now apply IH.
Qed.

Lemma get_set_same k v d : PyDict.get k (PyDict.set k v d) = Some v.
Proof.
  induction d as [|[k' v'] d IH]; simpl.
  - now rewrite String.eqb_refl.
  - destruct (String.eqb k k') eqn:E; simpl; rewrite E; auto.
Qed.

Lemma get_set_other k k' v d :
  k' <> k -> PyDict.get k' (PyDict.set k v d) = PyDict.get k' d.
Proof.
  intros Hne. induction d as [|[k0 v0] d IH]; simpl.
  - destruct (String.eqb_spec k' k); [contradiction | reflexivity].
  - destruct (String.eqb_spec k k0) as [E|E]; simpl.
    + subst k0. destruct (String.eqb_spec k' k); [contradiction | auto].
    + now rewrite IH.
Qed.

Lemma set_set k v v' d :
  PyDict.set k v' (PyDict.set k v d) = PyDict.set k v' d.
Proof.
  induction d as [|[k0 v0] d IH]; simpl.
  - now rewrite String.eqb_refl.
  - destruct (String.eqb k k0) eqn:E; simpl; rewrite E; auto.
    now rewrite IH.
Qed.

Lemma get_In k v d : PyDict.get k d = Some v -> In (k, v) d.
Proof.
  induction d as [|[k0 v0] d IH]; simpl; [discriminate|].
  destruct (String.eqb_spec k k0) as [E|E].
  - intros H. injection H as H. subst. now left.
  - intros H. right. now apply IH.
Qed.

Lemma In_get k v d :
  NoDup (PyDict.keys d) -> In (k, v) d -> PyDict.get k d = Some v.
Proof.
  induction d as [|[k0 v0] d IH]; simpl; [tauto|].
  intros Hnd. inversion Hnd as [|? ? Hk Hd]; subst.
  intros [H|H].
  - injection H as H1 H2. subst. now rewrite String.eqb_refl.
  - destruct (String.eqb_spec k k0) as [E|E].
    + subst k0. exfalso. apply Hk.
      change k with (fst (k, v)). now apply in_map.
    + now apply IH.
Qed.

(** On a dict, [del d[k]] leaves the entries under the other keys. *)
Lemma del_filter k d :
  NoDup (PyDict.keys d) ->
  PyDict.del k d = filter (fun kv => negb (String.eqb (fst kv) k)) d.
Proof.
  induction d as [|[k0 v0] d IH]; simpl; auto.
  intros Hnd. inversion Hnd as [|? ? Hk Hd]; subst.
  rewrite (String.eqb_sym k0 k).
  destruct (String.eqb_spec k k0) as [E|E]; simpl.
  - subst k0. clear IH Hnd Hd. induction d as [|[k1 v1] d IH]; simpl; auto.
    simpl in Hk. destruct (String.eqb_spec k1 k) as [E|E]; simpl.
    + exfalso. apply Hk. now left.
    + f_equal. apply IH. intros H. apply Hk. now right.
  - f_equal. now apply IH.
Qed.

Lemma keys_filter_NoDup (p : string * V -> bool) d :
  NoDup (PyDict.keys d) -> NoDup (PyDict.keys (filter p d)).
Proof.
  induction d as [|kv d IH]; simpl; auto.
  intros Hnd. inversion Hnd as [|? ? Hk Hd]; subst.
  destruct (p kv); simpl; auto. constructor; auto.
  intros H. apply Hk. unfold PyDict.keys in *.
  apply in_map_iff in H as [x [Hx1 Hx2]]. apply filter_In in Hx2 as [Hx2 _].
  rewrite <- Hx1. now apply in_map.
Qed.

Lemma keys_set_NoDup k v d :
  NoDup (PyDict.keys d) -> NoDup (PyDict.keys (PyDict.set k v d)).
Proof.
  intros Hnd. destruct (PyDict.contains k d) eqn:Hc.
  - now rewrite keys_set_present.
  - rewrite set_absent by assumption. unfold PyDict.keys.
    rewrite map_app. simpl. apply NoDup_app; auto.
    + constructor; [intros []|constructor].
    + intros x Hx [Hk|[]]. subst x.
      apply contains_In in Hx. congruence.
Qed.
End DictFacts.

(** ** Running the statements *)

Lemma assign_run (file_id : string) (upd : FileData -> FileData) (w : world)
    (r : FileData) :
  PyDict.get file_id (processed_files w) = Some r ->
  assign file_id upd w
  = (Ok tt, {| processed_files :=
                 PyDict.set file_id (upd r) (processed_files w);
               page := page w |}).
Proof.
  intros H. unfold assign, subscript, bind, get_processed_files. simpl.
  rewrite H. reflexivity.
Qed.

Section ScriptFacts.
Variable read_csv read_excel : UploadedFile -> result DataFrame.

Lemma load_file_run (file : UploadedFile) (file_id : string) (w : world) :
  load_file read_csv read_excel file file_id w
  = match parse read_csv read_excel file with
    | Some (Ok d) => assign file_id (set_df (Some d)) w
    | Some (Raise e) => (Raise e, w)
    | None => (Raise unbound_df, w)
    end.
Proof.
  unfold load_file, parse, load_local, bind, lift, ret.
  destruct (PyStr.endswith (name file) ".csv").
  - now destruct (read_csv file).
  - destruct (PyStr.endswith (name file) ".xlsx").
    + now destruct (read_excel file).
    + reflexivity.
Qed.

(** [process_file] on a file whose id the registry does not hold. *)
Lemma process_file_new (file : UploadedFile) (w : world) :
  PyDict.contains (file_id_of file) (processed_files w) = false ->
  process_file read_csv read_excel file w
  = match parse read_csv read_excel file with
    | Some (Ok d) =>
        (Ok tt,
         {| processed_files :=
              processed_files w
              ++ [(file_id_of file, set_df (Some d) (new_file_data file))];
            page := page w |})
    | Some (Raise RerunException) =>
        (Raise RerunException,
         {| processed_files :=
              processed_files w ++ [(file_id_of file, new_file_data file)];
            page := page w |})
    | Some (Raise (PyException cls msg)) =>
        (Ok tt,
         {| processed_files :=
              processed_files w ++ [(file_id_of file, failed_record file)];
            page := page w ++ [load_error file (PyException cls msg)] |})
    | None =>
        (Ok tt,
         {| processed_files :=
              processed_files w ++ [(file_id_of file, failed_record file)];
            page := page w ++ [load_error file unbound_df] |})
    end.
Proof.
  intros Hnew. unfold process_file.
  unfold bind at 1. unfold get_processed_files at 1. rewrite Hnew.
  unfold bind at 1. unfold put_processed_files at 1.
  unfold try_except. change (negb false) with true. cbv beta iota.
  rewrite load_file_run.
  set (d := processed_files w) in *.
  assert (Hget : forall pg,
            PyDict.get (file_id_of file)
              (processed_files
                 {| processed_files :=
                      PyDict.set (file_id_of file) (new_file_data file) d;
                    page := pg |})
            = Some (new_file_data file))
    by (intros; apply get_set_same).
  assert (Hset : forall r,
            PyDict.set (file_id_of file) r
              (PyDict.set (file_id_of file) (new_file_data file) d)
            = d ++ [(file_id_of file, r)])
    by (intros; rewrite set_set; now apply set_absent).
  destruct (parse read_csv read_excel file) as [[t|[cls msg|]]|].
  - rewrite (assign_run _ _ _ _ (Hget _)). simpl. now rewrite Hset.
  - unfold bind, emit. simpl.
    rewrite (assign_run _ _ _ _ (Hget _)). simpl. now rewrite Hset.
  - simpl. now rewrite set_absent.
  - unfold unbound_df. unfold bind, emit. simpl.
    rewrite (assign_run _ _ _ _ (Hget _)). simpl. now rewrite Hset.
Qed.

(** [process_file] on a file whose id the registry holds. *)
Lemma process_file_known (file : UploadedFile) (w : world) :
  PyDict.contains (file_id_of file) (processed_files w) = true ->
  process_file read_csv read_excel file w = (Ok tt, w).
Proof.
  intros H. unfold process_file, bind, get_processed_files.
  now rewrite H.
Qed.
End ScriptFacts.

(** ** The claims on loading, selecting and exporting *)

(** C5.  When the parse of a newly uploaded file raises an exception,
    [process_file] returns normally: the file's record is there, marked
    for deletion and without a table, the page shows the error, and every
    other record of the registry is as it was. *)
Theorem parse_failure_is_contained
    (read_csv read_excel : UploadedFile -> result DataFrame)
    (file : UploadedFile) (cls msg : string) (w : world) :
  PyDict.contains (file_id_of file) (processed_files w) = false ->
  parse read_csv read_excel file = Some (Raise (PyException cls msg)) ->
  exists w',
    process_file read_csv read_excel file w = (Ok tt, w') /\
    PyDict.get (file_id_of file) (processed_files w')
    = Some (failed_record file) /\
    fd_to_delete (failed_record file) = true /\
    page w' = page w ++ [load_error file (PyException cls msg)] /\
    (forall file_id, file_id <> file_id_of file ->
       PyDict.get file_id (processed_files w')
       = PyDict.get file_id (processed_files w)) /\
    PyDict.keys (processed_files w')
    = PyDict.keys (processed_files w) ++ [file_id_of file].
Proof.
  intros Hnew Hparse. eexists. split.
  - rewrite process_file_new by assumption. rewrite Hparse. reflexivity.
  - simpl. rewrite <- (set_absent _ _ _ _ Hnew).
    split; [apply get_set_same|]. split; [reflexivity|].
    split; [reflexivity|]. split.
    + intros file_id Hne. now apply get_set_other.
    + rewrite set_absent by assumption. unfold PyDict.keys.
      now rewrite map_app.
Qed.

Lemma parse_failure_is_contained_witness :
  exists w',
    process_file refusing_reader refusing_reader csv_upload empty_world
    = (Ok tt, w') /\
    PyDict.get (file_id_of csv_upload) (processed_files w')
    = Some (failed_record csv_upload) /\
    fd_to_delete (failed_record csv_upload) = true /\
    page w'
    = page empty_world
      ++ [load_error csv_upload
            (PyException "ParserError" "Error tokenizing data")] /\
    (forall file_id, file_id <> file_id_of csv_upload ->
       PyDict.get file_id (processed_files w')
       = PyDict.get file_id (processed_files empty_world)) /\
    PyDict.keys (processed_files w')
    = PyDict.keys (processed_files empty_world) ++ [file_id_of csv_upload].
Proof.
  apply (parse_failure_is_contained refusing_reader refusing_reader
           csv_upload "ParserError" "Error tokenizing data" empty_world);
    reflexivity.
Defined.

(** What [process_file] does with a new upload whose name ends in
    neither suffix: no reader runs, the read of [df] raises inside the
    [try] block, and the [except] clause shows the error and marks the
    record. *)
Lemma process_file_other_suffix
    (read_csv read_excel : UploadedFile -> result DataFrame)
    (file : UploadedFile) (w : world) :
  PyDict.contains (file_id_of file) (processed_files w) = false ->
  PyStr.endswith (name file) ".csv" = false ->
  PyStr.endswith (name file) ".xlsx" = false ->
  process_file read_csv read_excel file w
  = (Ok tt,
     {| processed_files :=
          processed_files w ++ [(file_id_of file, failed_record file)];
        page := page w ++ [load_error file unbound_df] |}).
Proof.
  intros Hnew Hcsv Hxlsx.
  rewrite process_file_new by assumption.
  unfold parse. now rewrite Hcsv, Hxlsx.
Qed.

(** C4.  The code departs from the claim.  For a newly uploaded file
    whose name ends in neither [.csv] nor [.xlsx], [process_file] returns
    normally and the file has a record without a table, but the file is
    not silently unhandled: the page shows an error for it and its record
    is marked for deletion. *)
Theorem other_suffix_not_silent
    (read_csv read_excel : UploadedFile -> result DataFrame)
    (file : UploadedFile) (w : world) :
  PyDict.contains (file_id_of file) (processed_files w) = false ->
  PyStr.endswith (name file) ".csv" = false ->
  PyStr.endswith (name file) ".xlsx" = false ->
  exists w' e,
    process_file read_csv read_excel file w = (Ok tt, w') /\
    PyDict.get (file_id_of file) (processed_files w')
    = Some (failed_record file) /\
    fd_df (failed_record file) = None /\
    fd_to_delete (failed_record file) = true /\
    page w' = page w ++ [load_error file e] /\
    ~ silently_unhandled file w w'.
Proof.
  intros Hnew Hcsv Hxlsx.
  eexists. exists unbound_df.
  split; [now apply process_file_other_suffix|].
  assert (Hget : PyDict.get (file_id_of file)
                   (processed_files w ++ [(file_id_of file, failed_record file)])
                 = Some (failed_record file)).
  { rewrite <- (set_absent _ _ _ _ Hnew). apply get_set_same. }
  simpl. split; [exact Hget|]. split; [reflexivity|].
  split; [reflexivity|]. split; [reflexivity|].
  intros [[r [Hr [_ Hflag]]] _]. simpl in Hr. rewrite Hget in Hr.
  injection Hr as Hr. subst r. discriminate.
Qed.

Lemma other_suffix_not_silent_witness :
  exists w' e,
    process_file scenario_reader scenario_reader capitals_upload empty_world
    = (Ok tt, w') /\
    PyDict.get (file_id_of capitals_upload) (processed_files w')
    = Some (failed_record capitals_upload) /\
    fd_df (failed_record capitals_upload) = None /\
    fd_to_delete (failed_record capitals_upload) = true /\
    page w' = page empty_world ++ [load_error capitals_upload e] /\
    ~ silently_unhandled capitals_upload empty_world w'.
Proof.
  apply (other_suffix_not_silent scenario_reader scenario_reader
           capitals_upload empty_world); reflexivity.
Defined.

(** C6.  A selection that names a column the frame does not have is
    rejected: [df[names]] raises a [KeyError], the selection step raises
    it on, and the registry and the page are as they were. *)
Theorem unknown_column_is_rejected (ui : widgets) (file_id : string)
    (df : DataFrame) (names : list string) (n : string) (w : world) :
  multiselect ui ("cols_" ++ file_id)%string (column_names df) = names ->
  In n names ->
  ~ In n (column_names df) ->
  exists msg,
    pd.getitem_list df names = Raise (PyException "KeyError" msg) /\
    select_columns ui file_id df w = (Raise (PyException "KeyError" msg), w).
Proof.
  intros Hsel Hin Hnot.
  assert (Hraise : exists msg,
            pd.getitem_list df names = Raise (PyException "KeyError" msg)).
  { unfold pd.getitem_list.
    destruct (filter (fun n0 => negb (pd.has_column df n0)) names)
      as [|m missing] eqn:Hf.
    - exfalso.
      assert (Hn : In n (filter (fun n0 => negb (pd.has_column df n0)) names)).
      { apply filter_In. split; auto. apply negb_true_iff.
        destruct (pd.has_column df n) eqn:Hh; auto.
        apply has_column_In in Hh. contradiction. }
      rewrite Hf in Hn. destruct Hn.
    - eexists. reflexivity. }
  destruct Hraise as [msg Hmsg]. exists msg. split; auto.
  unfold select_columns, bind, lift. rewrite Hsel, Hmsg. reflexivity.
Qed.

Lemma unknown_column_is_rejected_witness :
  exists msg,
    pd.getitem_list scenario_frame ["x"; "w"]
    = Raise (PyException "KeyError" msg) /\
    select_columns (pressing ["x"; "w"] "CSV") "a.csv_12" scenario_frame
      empty_world
    = (Raise (PyException "KeyError" msg), empty_world).
Proof.
  apply (unknown_column_is_rejected (pressing ["x"; "w"] "CSV") "a.csv_12"
           scenario_frame ["x"; "w"] "w" empty_world).
  - reflexivity.
  - simpl. right. left. reflexivity.
  - simpl. intros [H|[H|[H|[]]]]; discriminate.
Defined.

(** C7.  When the writer of the chosen format raises an exception, the
    Convert button catches it and shows it on the page; the registry,
    with the record and its table, is as it was. *)
Theorem export_failure_is_reported
    (to_csv to_excel : DataFrame -> result (list Byte.byte))
    (ui : widgets) (file_id : string) (file_data : FileData)
    (df : DataFrame) (cls msg : string) (w : world) :
  button ui ("conv_btn_" ++ file_id)%string = true ->
  (if String.eqb (radio ui ("conv_" ++ file_id)%string) "CSV"
   then to_csv df else to_excel df) = Raise (PyException cls msg) ->
  convert_button to_csv to_excel ui file_id file_data df w
  = (Ok tt,
     {| processed_files := processed_files w;
        page := page w
                ++ [st_error ("⚠️ Conversion failed: " ++ msg)%string] |}).
Proof.
  intros Hbtn Hwrite. unfold convert_button. rewrite Hbtn.
  unfold try_except.
  destruct (String.eqb (radio ui ("conv_" ++ file_id)%string) "CSV");
    unfold bind, lift; rewrite Hwrite; reflexivity.
Qed.

Lemma export_failure_is_reported_witness :
  convert_button refusing_writer refusing_writer (pressing ["x"] "Excel")
    "a.csv_12" (new_file_data csv_upload) scenario_frame empty_world
  = (Ok tt,
     {| processed_files := processed_files empty_world;
        page := page empty_world
                ++ [st_error
                      ("⚠️ Conversion failed: " ++ "cannot serialize")%string] |}).
Proof.
  apply (export_failure_is_reported refusing_writer refusing_writer
           (pressing ["x"] "Excel") "a.csv_12" (new_file_data csv_upload)
           scenario_frame "ValueError" "cannot serialize" empty_world);
    reflexivity.
Defined.

(** ** File ids *)

Lemma no_underscore_digits (d : Decimal.uint) :
  no_underscore (NilEmpty.string_of_uint d) = true.
Proof. induction d; simpl; auto. Qed.

Lemma no_underscore_str_of_N (n : N) :
  no_underscore (PyStr.str_of_N n) = true.
Proof.
  unfold PyStr.str_of_N, NilZero.string_of_uint.
  destruct (N.to_uint n); try apply no_underscore_digits. reflexivity.
Qed.

Lemma str_of_N_inj (a b : N) : PyStr.str_of_N a = PyStr.str_of_N b -> a = b.
Proof.
  unfold PyStr.str_of_N. intros H.
  assert (Hnn : forall n, N.to_uint n <> Decimal.Nil).
  { intros [|p]; simpl; [discriminate | apply DecimalPos.Unsigned.to_uint_nonnil]. }
  apply (f_equal NilZero.uint_of_string) in H.
  rewrite !NilZero.usu in H by apply Hnn.
  injection H as H. now apply DecimalN.Unsigned.to_uint_inj.
Qed.

(** A name, an underscore and a run of digits split in one way only. *)
Lemma append_underscore_inj (s1 s2 d1 d2 : string) :
  no_underscore d1 = true ->
  no_underscore d2 = true ->
  (s1 ++ "_" ++ d1 = s2 ++ "_" ++ d2)%string ->
  s1 = s2 /\ d1 = d2.
Proof.
  intros H1 H2. revert s2.
  assert (Hno : forall d s t, no_underscore d = true ->
                  d <> (s ++ String "_" t)%string).
  { intros d s. revert d. induction s as [|c s IH]; intros d t Hd E; subst d.
    - simpl in Hd. discriminate.
    - simpl in Hd. apply andb_true_iff in Hd as [_ Hd].
      now apply (IH _ t Hd). }
  induction s1 as [|c s1 IH]; intros [|c' s2] E; simpl in E.
  - injection E as E. now split.
  - injection E as Ec E. exfalso. now apply (Hno d1 s2 d2 H1).
  - injection E as Ec E. exfalso. symmetry in E. now apply (Hno d2 s1 d1 H2).
  - injection E as Ec E. destruct (IH _ E) as [Hs Hd]. subst. now split.
Qed.

(** Two uploads share a file id exactly when they share name and size. *)
Lemma file_id_of_inj (f1 f2 : UploadedFile) :
  file_id_of f1 = file_id_of f2 <-> name f1 = name f2 /\ size f1 = size f2.
Proof.
  unfold file_id_of. split.
  - intros H. apply append_underscore_inj in H as [Hn Hs];
      try apply no_underscore_str_of_N.
    split; auto. now apply str_of_N_inj.
  - intros [Hn Hs]. now rewrite Hn, Hs.
Qed.

(** ** Keys and marks through the statements *)

Lemma flags_keys (d : PyDict.t FileData) :
  PyDict.keys d = map fst (flags d).
Proof. unfold PyDict.keys, flags. now rewrite map_map. Qed.

Lemma flags_set (file_id : string) (r r' : FileData) (d : PyDict.t FileData) :
  PyDict.get file_id d = Some r ->
  fd_to_delete r' = fd_to_delete r ->
  flags (PyDict.set file_id r' d) = flags d.
Proof.
  intros Hget Hflag. induction d as [|[k v] d IH]; simpl in *; [discriminate|].
  destruct (String.eqb file_id k); simpl.
  - injection Hget as Hget. subst v. now rewrite Hflag.
  - now rewrite IH.
Qed.

Lemma flags_marked (d d' : PyDict.t FileData) (file_id : string) :
  flags d = flags d' -> marked d file_id = marked d' file_id.
Proof.
  unfold marked. revert d'.
  induction d as [|[k v] d IH]; intros [|[k' v'] d'] H; simpl in *;
    try discriminate; auto.
  injection H as Hk Hv Hd. subst k'.
  destruct (String.eqb file_id k); auto.
Qed.

Lemma marked_get (d : PyDict.t FileData) (file_id : string) (r : FileData) :
  PyDict.get file_id d = Some r -> marked d file_id = fd_to_delete r.
Proof. unfold marked. now intros ->. Qed.

Section Keeps.
Context {A B : Type}.

Lemma keeps_ret (a : A) : keeps_flags (ret a).
Proof. intros w r w' H. injection H as _ H. now subst. Qed.

Lemma keeps_raise (e : exn) : keeps_flags (@raise A e).
Proof. intros w r w' H. injection H as _ H. now subst. Qed.

Lemma keeps_lift (x : result A) : keeps_flags (lift x).
Proof. intros w r w' H. injection H as _ H. now subst. Qed.

Lemma keeps_bind (m : M A) (k : A -> M B) :
  keeps_flags m -> (forall a, keeps_flags (k a)) -> keeps_flags (bind m k).
Proof.
  intros Hm Hk w r w' H. unfold bind in H.
  destruct (m w) as [[a|e] w1] eqn:Hmw.
  - rewrite (Hk a _ _ _ H). exact (Hm _ _ _ Hmw).
  - injection H as _ H. subst. exact (Hm _ _ _ Hmw).
Qed.

Lemma keeps_try_except (body : M A) (handler : exn -> M A) :
  keeps_flags body -> (forall e, keeps_flags (handler e)) ->
  keeps_flags (try_except body handler).
Proof.
  intros Hb Hh w r w' H. unfold try_except in H.
  destruct (body w) as [[a|[cls msg|]] w1] eqn:Hbw.
  - injection H as _ H. subst. exact (Hb _ _ _ Hbw).
  - rewrite (Hh _ _ _ _ H). exact (Hb _ _ _ Hbw).
  - injection H as _ H. subst. exact (Hb _ _ _ Hbw).
Qed.

Lemma returns_of_keeps (m : M A) : keeps_flags m -> returns_flags m.
Proof.
  intros Hm w r w' H. specialize (Hm _ _ _ H). split; auto.
  now rewrite !flags_keys, Hm.
Qed.

Lemma returns_bind (m : M A) (k : A -> M B) :
  returns_flags m -> (forall a, returns_flags (k a)) ->
  returns_flags (bind m k).
Proof.
  intros Hm Hk w r w' H. unfold bind in H.
  destruct (m w) as [[a|e] w1] eqn:Hmw.
  - destruct (Hm _ _ _ Hmw) as [Hk1 Hf1].
    destruct (Hk a _ _ _ H) as [Hk2 Hf2]. split.
    + congruence.
    + intros b Hb. rewrite (Hf2 _ Hb). now apply (Hf1 a).
  - injection H as Hr H. subst. destruct (Hm _ _ _ Hmw) as [Hk1 _].
    split; auto. intros b Hb. discriminate.
Qed.
End Keeps.

Lemma keeps_emit (e : element) : keeps_flags (emit e).
Proof. intros w r w' H. injection H as _ H. now subst. Qed.

Lemma keeps_assign (file_id : string) (upd : FileData -> FileData) :
  (forall r, fd_to_delete (upd r) = fd_to_delete r) ->
  keeps_flags (assign file_id upd).
Proof.
  intros Hupd w r w' H.
  destruct (PyDict.get file_id (processed_files w)) as [x|] eqn:Hget.
  - rewrite (assign_run _ _ _ _ Hget) in H. injection H as _ H. subst.
    simpl. now apply flags_set with (r := x).
  - unfold assign, subscript, bind, get_processed_files, raise in H.
    rewrite Hget in H. injection H as _ H. now subst.
Qed.

Lemma assign_keys (file_id : string) (upd : FileData -> FileData)
    (w : world) (r : result unit) (w' : world) :
  assign file_id upd w = (r, w') ->
  PyDict.keys (processed_files w') = PyDict.keys (processed_files w).
Proof.
  intros H.
  destruct (PyDict.get file_id (processed_files w)) as [x|] eqn:Hget.
  - rewrite (assign_run _ _ _ _ Hget) in H. injection H as _ H. subst.
    simpl. apply keys_set_present. apply get_contains. now exists x.
  - unfold assign, subscript, bind, get_processed_files, raise in H.
    rewrite Hget in H. injection H as _ H. now subst.
Qed.

Create HintDb flags.
#[local] Hint Resolve keeps_ret keeps_raise keeps_lift keeps_emit : flags.
#[local] Hint Extern 1 (keeps_flags (assign _ _)) =>
  (apply keeps_assign; intros; reflexivity) : flags.

(** Peel a statement down to its primitive steps. *)
Ltac keeps_step :=
  match goal with
  | |- keeps_flags (bind _ _) => apply keeps_bind; [|intros]
  | |- keeps_flags (try_except _ _) => apply keeps_try_except; [|intros]
  | |- keeps_flags (if ?b then _ else _) => destruct b
  | |- keeps_flags (let '(_, _) := ?p in _) => destruct p
  | |- keeps_flags _ => solve [auto with flags]
  end.

Section PanelFlags.
Variable to_csv to_excel : DataFrame -> result (list Byte.byte).
Variable ui : widgets.
Variable file_id : string.

Lemma keeps_show_metrics (df : DataFrame) : keeps_flags (show_metrics ui df).
Proof. unfold show_metrics. repeat keeps_step. Qed.

Lemma keeps_remove_duplicates (df : DataFrame) :
  keeps_flags (remove_duplicates_button ui file_id df).
Proof. unfold remove_duplicates_button. repeat keeps_step. Qed.

Lemma keeps_fill_missing_values (df : DataFrame) :
  keeps_flags (fill_missing_values_button ui file_id df).
Proof. unfold fill_missing_values_button. repeat keeps_step. Qed.

Lemma keeps_select_columns (df : DataFrame) :
  keeps_flags (select_columns ui file_id df).
Proof. unfold select_columns. repeat keeps_step. Qed.

Lemma keeps_convert (file_data : FileData) (df : DataFrame) :
  keeps_flags (convert_button to_csv to_excel ui file_id file_data df).
Proof.
  unfold convert_button.
  destruct (String.eqb (radio ui ("conv_" ++ file_id)%string) "CSV");
    repeat keeps_step.
Qed.

(** The Delete button marks the record and then raises: when it
    returns it has done nothing. *)
Lemma returns_delete_button : returns_flags (delete_button ui file_id).
Proof.
  unfold delete_button. destruct (button ui _).
  - intros w r w' H. unfold bind in H.
    destruct (assign file_id (set_to_delete true) w) as [[[]|e] w1] eqn:Ha;
      injection H as Hr H; subst; split;
      try (intros a Ha'; discriminate);
      eapply assign_keys; eauto.
  - apply returns_of_keeps. auto with flags.
Qed.

Lemma returns_panel (file_data : FileData) :
  returns_flags (panel to_csv to_excel ui file_id file_data).
Proof.
  unfold panel. apply returns_bind; [apply returns_delete_button|].
  intros _. apply returns_of_keeps.
  destruct (fd_df file_data) as [df|]; [|auto with flags].
  apply keeps_bind; [apply keeps_show_metrics|intros _].
  apply keeps_bind; [apply keeps_remove_duplicates|intros df1].
  apply keeps_bind; [apply keeps_fill_missing_values|intros df2].
  apply keeps_bind; [apply keeps_select_columns|intros df3].
  apply keeps_bind; [auto with flags|intros _].
  apply keeps_convert.
Qed.
End PanelFlags.

(** ** The display loop and the sweep *)

(** When the display loop returns, no mark has changed and
    [deleted_files] holds the ids of the marked records, in order. *)
Lemma display_loop_returns
    (to_csv to_excel : DataFrame -> result (list Byte.byte)) (ui : widgets)
    (file_ids : list string) :
  forall (acc : list string) (w : world) (deleted : list string) (w' : world),
  display_loop to_csv to_excel ui file_ids acc w = (Ok deleted, w') ->
  flags (processed_files w') = flags (processed_files w) /\
  deleted = acc ++ filter (marked (processed_files w)) file_ids.
Proof.
  induction file_ids as [|file_id rest IH]; intros acc w deleted w' H.
  - simpl in H. injection H as H1 H2. subst. now rewrite app_nil_r.
  - simpl in H. unfold bind at 1 in H. unfold subscript in H.
    unfold bind at 1 in H. unfold get_processed_files at 1 in H.
    simpl in H.
    destruct (PyDict.get file_id (processed_files w)) as [r|] eqn:Hget;
      [|discriminate].
    unfold ret at 1 in H. cbn [filter]. rewrite (marked_get _ _ _ Hget).
    destruct (fd_to_delete r) eqn:Hmark.
    + destruct (IH _ _ _ _ H) as [Hf Hd]. split; auto.
      rewrite Hd, <- app_assoc. reflexivity.
    + unfold bind in H.
      destruct (panel to_csv to_excel ui file_id r w) as [[[]|e] w1] eqn:Hp;
        [|discriminate].
      destruct (returns_panel to_csv to_excel ui file_id r _ _ _ Hp)
        as [_ Hf1]. specialize (Hf1 tt eq_refl).
      destruct (IH _ _ _ _ H) as [Hf Hd]. split; [congruence|].
      rewrite Hd. f_equal. apply filter_ext. intros k.
      now apply flags_marked.
Qed.

Lemma del_file_run (file_id : string) (w : world) :
  PyDict.contains file_id (processed_files w) = true ->
  del_file file_id w
  = (Ok tt, {| processed_files := PyDict.del file_id (processed_files w);
               page := page w |}).
Proof.
  intros H. unfold del_file, bind, get_processed_files. now rewrite H.
Qed.

(** The sweep of distinct keys the registry holds removes their records
    and nothing else. *)
Lemma sweep_run (deleted : list string) :
  forall w : world,
  NoDup deleted ->
  incl deleted (PyDict.keys (processed_files w)) ->
  NoDup (PyDict.keys (processed_files w)) ->
  sweep deleted w
  = (Ok tt,
     {| processed_files :=
          filter (fun kv => negb (existsb (String.eqb (fst kv)) deleted))
                 (processed_files w);
        page := page w |}).
Proof.
  induction deleted as [|k ks IH]; intros w Hnd Hincl Hkeys.
  - simpl. unfold ret. f_equal. destruct w as [d pg]; simpl. f_equal.
    symmetry. clear. induction d; simpl; congruence.
  - change (sweep (k :: ks) w)
      with (bind (del_file k) (fun _ => sweep ks) w).
    assert (Hk : PyDict.contains k (processed_files w) = true)
      by (apply contains_In, Hincl; now left).
    unfold bind. rewrite (del_file_run _ _ Hk).
    inversion Hnd as [|? ? Hk' Hks]; subst.
    rewrite del_filter by assumption. rewrite IH; simpl.
    + f_equal. f_equal. clear. induction (processed_files w) as [|kv d IHd];
        simpl; auto.
      destruct (String.eqb (fst kv) k); simpl; auto.
      destruct (existsb (String.eqb (fst kv)) ks); simpl; congruence.
    + exact Hks.
    + intros x Hx. unfold PyDict.keys.
      assert (Hin : In x (PyDict.keys (processed_files w)))
        by (apply Hincl; now right).
      unfold PyDict.keys in Hin. apply in_map_iff in Hin as [kv [Hkv1 Hkv2]].
      apply in_map_iff. exists kv. split; auto. apply filter_In. split; auto.
      apply negb_true_iff. apply String.eqb_neq. intros E. apply Hk'.
      congruence.
    + now apply keys_filter_NoDup.
Qed.

Lemma existsb_eqb_In (x : string) (l : list string) :
  existsb (String.eqb x) l = true <-> In x l.
Proof.
  rewrite existsb_exists. split.
  - intros [y [Hy He]]. apply String.eqb_eq in He. now subst.
  - intros H. exists x. split; auto. apply String.eqb_refl.
Qed.

(** After a display loop that returned, the sweep returns too; it removes
    every record that was marked and leaves no marked record behind. *)
Lemma sweep_after_display
    (to_csv to_excel : DataFrame -> result (list Byte.byte)) (ui : widgets)
    (w : world) (deleted : list string) (w1 : world) :
  NoDup (PyDict.keys (processed_files w)) ->
  display_loop to_csv to_excel ui (PyDict.keys (processed_files w)) [] w
  = (Ok deleted, w1) ->
  exists w2,
    sweep deleted w1 = (Ok tt, w2) /\
    NoDup (PyDict.keys (processed_files w2)) /\
    (forall file_id r,
       PyDict.get file_id (processed_files w) = Some r ->
       fd_to_delete r = true ->
       PyDict.contains file_id (processed_files w2) = false) /\
    (forall file_id r,
       PyDict.get file_id (processed_files w2) = Some r ->
       fd_to_delete r = false).
Proof.
  intros Hnd Hloop.
  destruct (display_loop_returns _ _ _ _ _ _ _ _ Hloop) as [Hflags Hdel].
  simpl in Hdel.
  assert (Hkeys : PyDict.keys (processed_files w1)
                  = PyDict.keys (processed_files w))
    by now rewrite !flags_keys, Hflags.
  assert (Hnd1 : NoDup (PyDict.keys (processed_files w1)))
    by now rewrite Hkeys.
  eexists. split; [|split; [|split]].
  - apply sweep_run; auto.
    + subst deleted. now apply NoDup_filter.
    + subst deleted. rewrite Hkeys. intros x Hx.
      apply filter_In in Hx. tauto.
  - simpl. now apply keys_filter_NoDup.
  - intros file_id r Hget Hmark. simpl.
    destruct (PyDict.contains file_id _) eqn:Hc; auto. exfalso.
    apply contains_In in Hc. unfold PyDict.keys in Hc.
    apply in_map_iff in Hc as [kv [Hkv1 Hkv2]].
    apply filter_In in Hkv2 as [_ Hkv2]. apply negb_true_iff in Hkv2.
    assert (Hin : In file_id deleted).
    { subst deleted. apply filter_In. split.
      - apply contains_In, get_contains. now exists r.
      - now rewrite (marked_get _ _ _ Hget). }
    apply existsb_eqb_In in Hin. rewrite Hkv1 in Hkv2. congruence.
  - intros file_id r Hget. simpl in Hget. apply get_In in Hget.
    apply filter_In in Hget as [Hin Hout]. simpl in Hout.
    apply negb_true_iff in Hout.
    assert (Hget1 : PyDict.get file_id (processed_files w1) = Some r)
      by now apply In_get.
    rewrite <- (marked_get _ _ _ Hget1).
    rewrite (flags_marked _ _ file_id Hflags).
    destruct (marked (processed_files w) file_id) eqn:Hm; auto.
    assert (Hd : In file_id deleted).
    { subst deleted. apply filter_In. split; auto.
      rewrite <- Hkeys. apply contains_In, get_contains. now exists r. }
    apply existsb_eqb_In in Hd. congruence.
Qed.

(** ** The claim on the registry *)

Lemma process_file_keys
    (read_csv read_excel : UploadedFile -> result DataFrame)
    (file : UploadedFile) (w : world) (r : result unit) (w' : world) :
  process_file read_csv read_excel file w = (r, w') ->
  PyDict.keys (processed_files w')
  = if PyDict.contains (file_id_of file) (processed_files w)
    then PyDict.keys (processed_files w)
    else PyDict.keys (processed_files w) ++ [file_id_of file].
Proof.
  intros H. destruct (PyDict.contains _ _) eqn:Hc.
  - rewrite process_file_known in H by assumption. injection H as _ H.
    now subst.
  - rewrite process_file_new in H by assumption.
    destruct (parse read_csv read_excel file) as [[t|[cls msg|]]|];
      injection H as _ H; subst; simpl; unfold PyDict.keys;
      now rewrite map_app.
Qed.

(** ** Well-formed frames stay well-formed *)

Lemma fill_column_wf (n : nat) (s : Series) :
  wf_series n s -> wf_series n (fill_column s).
Proof.
  intros [Hlen Hfit]. unfold fill_column.
  destruct (pd.is_number (dtype_of s)) eqn:Hn; [|now split].
  split; simpl.
  - unfold pd.fillna_values. now rewrite length_map.
  - unfold pd.fillna_values. rewrite forallb_forall in *. intros c' Hc'.
    apply in_map_iff in Hc' as [c [Hc Hin]]. subst c'.
    specialize (Hfit _ Hin).
    destruct (isna c) eqn:Hna; auto.
    destruct (dtype_of s); try discriminate; auto.
    destruct c; simpl in *; discriminate.
Qed.

Lemma fill_missing_values_wf (df out : DataFrame) :
  wf_frame df -> fill_missing_values df = Ok out -> wf_frame out.
Proof.
  intros [Hnd Hcols] Hout.
  rewrite fill_missing_values_columns in Hout by assumption.
  injection Hout as Hout. subst out. split.
  - unfold column_names in *; simpl. rewrite map_map.
    erewrite map_ext; [exact Hnd|].
    intros s. unfold fill_column. now destruct (pd.is_number (dtype_of s)).
  - simpl. rewrite Forall_map. eapply Forall_impl; [|exact Hcols].
    intros s. apply fill_column_wf.
Qed.

Lemma getitem_list_wf (df out : DataFrame) (names : list string) :
  wf_frame df -> NoDup names ->
  pd.getitem_list df names = Ok out -> wf_frame out.
Proof.
  intros [Hnd Hcols] Hnames. unfold pd.getitem_list.
  destruct (filter (fun n => negb (pd.has_column df n)) names) eqn:Hmiss;
    [|discriminate].
  intros H. injection H as H. subst out.
  assert (Hall : forall n, In n names -> In n (column_names df)).
  { intros n Hn. apply has_column_In.
    destruct (pd.has_column df n) eqn:Hh; auto.
    assert (Hin : In n (filter (fun n => negb (pd.has_column df n)) names))
      by (apply filter_In; split; auto; now rewrite Hh).
    rewrite Hmiss in Hin. destruct Hin. }
  clear Hmiss. split; simpl.
  - unfold column_names; simpl.
    replace (map label
               (flat_map
                  (fun n => filter (fun s => String.eqb (label s) n)
                                   (columns df)) names))
      with names; auto.
    clear Hnames. induction names as [|n names IH]; simpl; auto.
    assert (Hn : In n (column_names df)) by (apply Hall; now left).
    unfold column_names in Hn. apply in_map_iff in Hn as [s [Hs1 Hs2]].
    subst n. rewrite (filter_label _ Hnd s Hs2). simpl. f_equal.
    apply IH. intros m Hm. apply Hall. now right.
  - apply Forall_forall. intros s Hs. apply in_flat_map in Hs as [n [_ Hs]].
    apply filter_In in Hs as [Hs _].
    rewrite Forall_forall in Hcols. now apply Hcols.
Qed.

(** ** The scenario of the specification *)

Example scenario_metrics :
  pd.shape scenario_frame = (2, 3) /\ pd.isna_sum_sum scenario_frame = 1.
Proof. split; reflexivity. Qed.

Example scenario_drop_duplicates :
  pd.drop_duplicates scenario_frame = scenario_frame.
Proof. reflexivity. Qed.

Example scenario_fill :
  exists out,
    fill_missing_values scenario_frame = Ok out /\
    map values (columns out)
    = [ [VInt 1; VInt 1];
        [VFloat (F64.of_Z 2); VFloat (F64.of_Z 2)];
        [VInt 3; VInt 3] ].
Proof. eexists. split; vm_compute; reflexivity. Qed.

Example repeated_frame_deduplicated :
  index (pd.drop_duplicates repeated_frame) = [0; 1]%Z /\
  pd.rows (pd.drop_duplicates repeated_frame)
  = [ [VStr "Oslo"; VFloat F64.nan]; [VStr "Lima"; VFloat (F64.of_Z 21)] ].
Proof. split; vm_compute; reflexivity. Qed.

(** A first run reads the upload and keeps its table. *)
Example first_run :
  let out := run scenario_reader scenario_reader empty_writer empty_writer
                 [csv_upload] idle [] in
  fst out = Ok tt /\ processed_files (snd out) = scenario_session.
Proof. split; vm_compute; reflexivity. Qed.

(** Pressing Delete marks the record and restarts the script; the next
    run sweeps the record; the run after that, with the file still in
    the uploader, registers it anew. *)
Example delete_sweep_register :
  let go := run scenario_reader scenario_reader empty_writer empty_writer
                [csv_upload] in
  let out1 := go (deleting (file_id_of csv_upload)) scenario_session in
  let out2 := go idle (processed_files (snd out1)) in
  let out3 := go idle (processed_files (snd out2)) in
  fst out1 = Raise RerunException /\
  marked (processed_files (snd out1)) (file_id_of csv_upload) = true /\
  fst out2 = Ok tt /\ processed_files (snd out2) = [] /\
  fst out3 = Ok tt /\ processed_files (snd out3) = scenario_session.
Proof. repeat split; vm_compute; reflexivity. Qed.

(** ** A whole run *)

Lemma process_files_registry
    (read_csv read_excel : UploadedFile -> result DataFrame)
    (uploaded_files : list UploadedFile) :
  forall (w : world) (r : result unit) (w' : world),
  NoDup (PyDict.keys (processed_files w)) ->
  process_files read_csv read_excel uploaded_files w = (r, w') ->
  NoDup (PyDict.keys (processed_files w')) /\
  (forall file_id record,
     PyDict.get file_id (processed_files w) = Some record ->
     PyDict.get file_id (processed_files w') = Some record).
Proof.
  induction uploaded_files as [|file rest IH]; intros w r w' Hnd H.
  - simpl in H. injection H as _ H. subst. auto.
  - simpl in H. unfold bind in H.
    destruct (process_file read_csv read_excel file w) as [r1 w1] eqn:H1.
    assert (Hnd1 : NoDup (PyDict.keys (processed_files w1))).
    { rewrite (process_file_keys _ _ _ _ _ _ H1).
      destruct (PyDict.contains _ _) eqn:Hc; auto.
      apply NoDup_app; auto.
      - constructor; [intros []|constructor].
      - intros x Hx [Hk|[]]. subst x. apply contains_In in Hx. congruence. }
    assert (Hget1 : forall file_id record,
              PyDict.get file_id (processed_files w) = Some record ->
              PyDict.get file_id (processed_files w1) = Some record).
    { intros file_id record Hget.
      destruct (PyDict.contains (file_id_of file) (processed_files w)) eqn:Hc.
      - rewrite process_file_known in H1 by assumption.
        injection H1 as _ H1. now subst.
      - assert (Hne : file_id <> file_id_of file).
        { intros E. subst file_id.
          rewrite (get_not_contains _ _ _ Hc) in Hget. discriminate. }
        rewrite process_file_new in H1 by assumption.
        destruct (parse read_csv read_excel file) as [[t|[cls msg|]]|];
          injection H1 as _ H1; subst w1; simpl;
          rewrite <- (set_absent _ _ _ _ Hc);
          now rewrite get_set_other. }
    destruct r1 as [[]|e].
    + destruct (IH _ _ _ Hnd1 H) as [Hnd' Hget']. split; auto.
    + injection H as _ H. subst. auto.
Qed.

Lemma footer_registry (w : world) (r : result unit) (w' : world) :
  footer w = (r, w') -> processed_files w' = processed_files w.
Proof.
  unfold footer, bind, get_processed_files, emit.
  destruct (processed_files w) eqn:Hd; intros H; injection H as _ H;
    subst; simpl; auto.
Qed.

(** X13.  A run of the script that reaches its end leaves distinct keys and no
    marked record in the registry: every record that was marked when the
    run began, or was marked by a failed load during it, has been swept. *)
Lemma script_sweeps_marked_records
    (read_csv read_excel : UploadedFile -> result DataFrame)
    (to_csv to_excel : DataFrame -> result (list Byte.byte))
    (uploaded_files : list UploadedFile) (ui : widgets) (w w' : world) :
  NoDup (PyDict.keys (processed_files w)) ->
  script read_csv read_excel to_csv to_excel uploaded_files ui w
  = (Ok tt, w') ->
  NoDup (PyDict.keys (processed_files w')) /\
  (forall file_id record,
     PyDict.get file_id (processed_files w) = Some record ->
     fd_to_delete record = true ->
     PyDict.contains file_id (processed_files w') = false) /\
  (forall file_id record,
     PyDict.get file_id (processed_files w') = Some record ->
     fd_to_delete record = false).
Proof.
  intros Hnd H. unfold script in H. unfold bind at 1 in H.
  destruct (process_files read_csv read_excel uploaded_files w)
    as [[[]|e] w1] eqn:H1; [|discriminate].
  destruct (process_files_registry _ _ _ _ _ _ Hnd H1) as [Hnd1 Hget1].
  unfold bind at 1 in H. unfold get_processed_files at 1 in H.
  unfold bind at 1 in H.
  destruct (display_loop to_csv to_excel ui
              (PyDict.keys (processed_files w1)) [] w1)
    as [[deleted|e] w2] eqn:H2; [|discriminate].
  destruct (sweep_after_display _ _ _ _ _ _ Hnd1 H2)
    as [w3 [H3 [Hnd3 [Hgone Hclean]]]].
  unfold bind in H. rewrite H3 in H.
  apply footer_registry in H. rewrite H.
  split; [exact Hnd3|]. split; [|exact Hclean].
  intros file_id record Hget Hmark. eapply Hgone; eauto.
Qed.

(** ** Every table in the registry is well formed *)

Lemma Forall_set (P : FileData -> Prop) (k : string) (v : FileData)
    (d : PyDict.t FileData) :
  Forall (fun kv => P (snd kv)) d -> P v ->
  Forall (fun kv => P (snd kv)) (PyDict.set k v d).
Proof.
  intros Hd Hv. induction d as [|[k' v'] d IH]; simpl.
  - constructor; auto.
  - inversion Hd; subst. destruct (String.eqb k k'); constructor; auto.
Qed.

Lemma Forall_del (P : FileData -> Prop) (k : string) (d : PyDict.t FileData) :
  Forall (fun kv => P (snd kv)) d ->
  Forall (fun kv => P (snd kv)) (PyDict.del k d).
Proof.
  intros Hd. induction d as [|[k' v'] d IH]; simpl; auto.
  inversion Hd; subst. destruct (String.eqb k k'); auto.
Qed.

Lemma Forall_get (P : FileData -> Prop) (k : string) (v : FileData)
    (d : PyDict.t FileData) :
  Forall (fun kv => P (snd kv)) d -> PyDict.get k d = Some v -> P v.
Proof.
  intros Hd Hget. apply get_In in Hget. rewrite Forall_forall in Hd.
  exact (Hd _ Hget).
Qed.

Section KeepsWf.
Context {A B : Type}.

Lemma wf_ret (a : A) (Q : A -> Prop) : Q a -> keeps_wf (ret a) Q.
Proof.
  intros Ha w r w' Hw H. injection H as Hr H. subst. split; auto.
  intros a' E. injection E as E. now subst.
Qed.

Lemma wf_raise (e : exn) (Q : A -> Prop) : keeps_wf (raise e) Q.
Proof.
  intros w r w' Hw H. injection H as Hr H. subst. split; auto.
  intros a' E. discriminate.
Qed.

Lemma wf_lift (x : result A) (Q : A -> Prop) :
  (forall a, x = Ok a -> Q a) -> keeps_wf (lift x) Q.
Proof.
  intros Hx w r w' Hw H. injection H as Hr H. subst. auto.
Qed.

Lemma wf_bind (m : M A) (k : A -> M B) (P : A -> Prop) (Q : B -> Prop) :
  keeps_wf m P -> (forall a, P a -> keeps_wf (k a) Q) ->
  keeps_wf (bind m k) Q.
Proof.
  intros Hm Hk w r w' Hw H. unfold bind in H.
  destruct (m w) as [[a|e] w1] eqn:Hmw.
  - destruct (Hm _ _ _ Hw Hmw) as [Hw1 Ha].
    exact (Hk a (Ha a eq_refl) _ _ _ Hw1 H).
  - injection H as Hr H. subst. destruct (Hm _ _ _ Hw Hmw) as [Hw1 _].
    split; auto. intros b E. discriminate.
Qed.

Lemma wf_try_except (body : M A) (handler : exn -> M A) (Q : A -> Prop) :
  keeps_wf body Q -> (forall e, keeps_wf (handler e) Q) ->
  keeps_wf (try_except body handler) Q.
Proof.
  intros Hb Hh w r w' Hw H. unfold try_except in H.
  destruct (body w) as [[a|[cls msg|]] w1] eqn:Hbw.
  - injection H as Hr H. subst. exact (Hb _ _ _ Hw Hbw).
  - destruct (Hb _ _ _ Hw Hbw) as [Hw1 _]. exact (Hh _ _ _ _ Hw1 H).
  - injection H as Hr H. subst. exact (Hb _ _ _ Hw Hbw).
Qed.

Lemma wf_weaken (m : M A) (P Q : A -> Prop) :
  keeps_wf m P -> (forall a, P a -> Q a) -> keeps_wf m Q.
Proof.
  intros Hm HPQ w r w' Hw H. destruct (Hm _ _ _ Hw H) as [Hw' Ha].
  split; auto.
Qed.
End KeepsWf.

Lemma wf_emit (e : element) : keeps_wf (emit e) (fun _ => True).
Proof.
  intros w r w' Hw H. injection H as Hr H. subst. split; auto.
Qed.

Lemma wf_assign (file_id : string) (upd : FileData -> FileData) :
  (forall r, wf_record r -> wf_record (upd r)) ->
  keeps_wf (assign file_id upd) (fun _ => True).
Proof.
  intros Hupd w r w' Hw H.
  destruct (PyDict.get file_id (processed_files w)) as [x|] eqn:Hget.
  - rewrite (assign_run _ _ _ _ Hget) in H. injection H as Hr H. subst.
    split; auto. unfold wf_registry in *; simpl.
    apply Forall_set; auto. apply Hupd.
    exact (Forall_get wf_record _ _ _ Hw Hget).
  - unfold assign, subscript, bind, get_processed_files, raise in H.
    rewrite Hget in H. injection H as Hr H. subst. split; auto.
Qed.

Lemma wf_assign_df (file_id : string) (df : DataFrame) :
  wf_frame df -> keeps_wf (assign file_id (set_df (Some df))) (fun _ => True).
Proof. intros Hdf. apply wf_assign. intros r _. exact Hdf. Qed.

Lemma wf_subscript (file_id : string) : keeps_wf (subscript file_id) wf_record.
Proof.
  intros w r w' Hw H. unfold subscript, bind, get_processed_files in H.
  destruct (PyDict.get file_id (processed_files w)) as [x|] eqn:Hget;
    injection H as Hr H; subst; split; auto.
  - intros a E. injection E as E. subst.
    exact (Forall_get wf_record _ _ _ Hw Hget).
  - intros a E. discriminate.
Qed.

Section Invariant.
Variable read_csv read_excel : UploadedFile -> result DataFrame.
Variable to_csv to_excel : DataFrame -> result (list Byte.byte).
Variable ui : widgets.

(** The readers return well-formed frames, and the multiselect returns
    each option at most once. *)
Hypothesis read_csv_wf : forall f df, read_csv f = Ok df -> wf_frame df.
Hypothesis read_excel_wf : forall f df, read_excel f = Ok df -> wf_frame df.
Hypothesis multiselect_distinct :
  forall key options, NoDup options -> NoDup (multiselect ui key options).

Lemma wf_process_file (file : UploadedFile) :
  keeps_wf (process_file read_csv read_excel file) (fun _ => True).
Proof.
  intros w r w' Hw H.
  destruct (PyDict.contains (file_id_of file) (processed_files w)) eqn:Hc.
  - rewrite process_file_known in H by assumption.
    injection H as Hr H. subst. auto.
  - rewrite process_file_new in H by assumption.
    assert (Hadd : forall v pg, wf_record v ->
              wf_registry
                {| processed_files :=
                     processed_files w ++ [(file_id_of file, v)];
                   page := pg |}).
    { intros v pg Hv. unfold wf_registry in *; simpl.
      apply Forall_app. split; auto. }
    unfold parse in H.
    destruct (PyStr.endswith (name file) ".csv");
      [|destruct (PyStr.endswith (name file) ".xlsx")].
    + destruct (read_csv file) as [t|[cls msg|]] eqn:Hr;
        injection H as _ H; subst w'; split; auto; apply Hadd;
        try exact I. exact (read_csv_wf _ _ Hr).
    + destruct (read_excel file) as [t|[cls msg|]] eqn:Hr;
        injection H as _ H; subst w'; split; auto; apply Hadd;
        try exact I. exact (read_excel_wf _ _ Hr).
    + injection H as _ H; subst w'; split; auto; apply Hadd; exact I.
Qed.

Lemma wf_process_files (uploaded_files : list UploadedFile) :
  keeps_wf (process_files read_csv read_excel uploaded_files) (fun _ => True).
Proof.
  induction uploaded_files as [|file rest IH]; simpl.
  - now apply wf_ret.
  - eapply wf_bind; [apply wf_process_file|]. intros _ _. exact IH.
Qed.

Lemma wf_panel (file_id : string) (file_data : FileData) :
  wf_record file_data ->
  keeps_wf (panel to_csv to_excel ui file_id file_data) (fun _ => True).
Proof.
  intros Hrec. unfold panel.
  eapply wf_bind with (P := fun _ => True).
  { unfold delete_button. destruct (button ui _).
    - eapply wf_bind; [apply wf_assign; auto|]. intros _ _. apply wf_raise.
    - now apply wf_ret. }
  intros _ _. unfold wf_record in Hrec.
  destruct (fd_df file_data) as [df|]; [|now apply wf_ret].
  eapply wf_bind with (P := fun _ => True).
  { unfold show_metrics. destruct (checkbox_show_metrics ui).
    - repeat (eapply wf_bind; [apply wf_emit|intros _ _]). apply wf_emit.
    - now apply wf_ret. }
  intros _ _.
  eapply wf_bind with (P := wf_frame).
  { unfold remove_duplicates_button.
    assert (Hd := drop_duplicates_wf df Hrec).
    destruct (button ui _); [|now apply wf_ret].
    eapply wf_bind; [now apply wf_assign_df|intros _ _].
    eapply wf_bind; [apply wf_emit|intros _ _]. now apply wf_ret. }
  intros df1 Hdf1.
  eapply wf_bind with (P := wf_frame).
  { unfold fill_missing_values_button.
    destruct (button ui _); [|now apply wf_ret].
    eapply wf_bind with (P := wf_frame).
    - apply wf_lift. intros out. now apply fill_missing_values_wf.
    - intros out Hout.
      eapply wf_bind; [now apply wf_assign_df|intros _ _].
      eapply wf_bind; [apply wf_emit|intros _ _]. now apply wf_ret. }
  intros df2 Hdf2.
  eapply wf_bind with (P := wf_frame).
  { unfold select_columns.
    eapply wf_bind with (P := wf_frame).
    - apply wf_lift. intros out.
      apply getitem_list_wf; auto. apply multiselect_distinct.
      now destruct Hdf2.
    - intros out Hout.
      eapply wf_bind; [now apply wf_assign_df|intros _ _]. now apply wf_ret. }
  intros df3 Hdf3.
  eapply wf_bind; [apply wf_emit|intros _ _].
  unfold convert_button. destruct (button ui _); [|now apply wf_ret].
  apply wf_try_except; [|intros e; apply wf_emit].
  destruct (String.eqb _ "CSV");
    (eapply wf_bind with (P := fun _ => True); [now apply wf_lift|]);
    intros buffer _;
    (eapply wf_bind; [apply wf_assign; auto|intros _ _]);
    (eapply wf_bind; [apply wf_emit|intros _ _]); apply wf_emit.
Qed.

Lemma wf_display_loop (file_ids : list string) :
  forall deleted_files,
  keeps_wf (display_loop to_csv to_excel ui file_ids deleted_files)
           (fun _ => True).
Proof.
  induction file_ids as [|file_id rest IH]; intros acc; simpl.
  - now apply wf_ret.
  - eapply wf_bind; [apply wf_subscript|]. intros file_data Hrec.
    destruct (fd_to_delete file_data); [apply IH|].
    eapply wf_bind; [now apply wf_panel|]. intros _ _. apply IH.
Qed.

Lemma wf_sweep (deleted_files : list string) :
  keeps_wf (sweep deleted_files) (fun _ => True).
Proof.
  induction deleted_files as [|file_id rest IH]; simpl.
  - now apply wf_ret.
  - eapply wf_bind with (P := fun _ => True); [|intros _ _; exact IH].
    intros w r w' Hw H. unfold del_file, bind, get_processed_files in H.
    destruct (PyDict.contains file_id (processed_files w));
      injection H as Hr H; subst; split; auto.
    unfold wf_registry in *; simpl. now apply Forall_del.
Qed.

(** X14.  When the readers return well-formed tables and the multiselect
    returns each option at most once, every table the registry holds
    stays well formed (unique column labels, one cell per row in every
    column, cells of the column's dtype), whatever the run does and
    however it ends. *)
Lemma script_keeps_frames_wf (uploaded_files : list UploadedFile)
    (w : world) (r : result unit) (w' : world) :
  wf_registry w ->
  script read_csv read_excel to_csv to_excel uploaded_files ui w = (r, w') ->
  wf_registry w'.
Proof.
  intros Hw H.
  assert (Hs : keeps_wf
                 (script read_csv read_excel to_csv to_excel uploaded_files ui)
                 (fun _ => True)).
  { unfold script.
    eapply wf_bind; [apply wf_process_files|intros _ _].
    eapply wf_bind with (P := fun _ => True).
    { intros w0 r0 w0' Hw0 H0. injection H0 as _ H0. subst. auto. }
    intros d _.
    eapply wf_bind; [apply wf_display_loop|intros deleted _].
    eapply wf_bind; [apply wf_sweep|intros _ _].
    unfold footer.
    eapply wf_bind with (P := fun _ => True).
    { intros w0 r0 w0' Hw0 H0. injection H0 as _ H0. subst. auto. }
    intros d' _. destruct d'; [apply wf_emit|].
    eapply wf_bind; [apply wf_emit|intros _ _]. apply wf_emit. }
  exact (proj1 (Hs _ _ _ Hw H)).
Qed.
End Invariant.

(** * Further properties of the script *)

(** ** Loading *)

(** X1.  A new upload that the reader of its suffix turns into a table
    gets a record at the end of the registry, with that table, no mark
    and the upload's name, and the page stays as it was.  The [.csv]
    test comes first, and the reader of the other suffix has no say. *)
Theorem load_success
    (read_csv read_excel : UploadedFile -> result DataFrame)
    (file : UploadedFile) (df : DataFrame) (w : world) :
  PyDict.contains (file_id_of file) (processed_files w) = false ->
  (PyStr.endswith (name file) ".csv" = true /\ read_csv file = Ok df) \/
  (PyStr.endswith (name file) ".csv" = false /\
   PyStr.endswith (name file) ".xlsx" = true /\ read_excel file = Ok df) ->
  process_file read_csv read_excel file w
  = (Ok tt,
     {| processed_files :=
          processed_files w
          ++ [(file_id_of file,
               {| fd_df := Some df; fd_cleaned := false;
                  fd_converted := false; fd_to_delete := false;
                  fd_original_name := name file |})];
        page := page w |}).
Proof.
  intros Hnew Hread. rewrite process_file_new by assumption. unfold parse.
  destruct Hread as [[Hcsv Hr] | [Hcsv [Hxlsx Hr]]].
  - now rewrite Hcsv, Hr.
  - now rewrite Hcsv, Hxlsx, Hr.
Qed.

Lemma load_success_witness :
  process_file refusing_reader scenario_reader xlsx_upload empty_world
  = (Ok tt,
     {| processed_files :=
          processed_files empty_world
          ++ [(file_id_of xlsx_upload,
               {| fd_df := Some scenario_frame; fd_cleaned := false;
                  fd_converted := false; fd_to_delete := false;
                  fd_original_name := name xlsx_upload |})];
        page := page empty_world |}).
Proof.
  apply (load_success refusing_reader scenario_reader xlsx_upload
           scenario_frame empty_world).
  - reflexivity.
  - right. repeat split; reflexivity.
Defined.

(** ** The upload loop *)

Lemma process_file_contains
    (read_csv read_excel : UploadedFile -> result DataFrame)
    (file : UploadedFile) (w : world) (r : result unit) (w' : world)
    (k : string) :
  process_file read_csv read_excel file w = (r, w') ->
  PyDict.contains k (processed_files w') = true <->
  PyDict.contains k (processed_files w) = true \/ k = file_id_of file.
Proof.
  intros H. rewrite !contains_In.
  rewrite (process_file_keys _ _ _ _ _ _ H).
  destruct (PyDict.contains (file_id_of file) (processed_files w)) eqn:Hc.
  - split; [now left|]. intros [Hk|Hk]; auto. subst k.
    now apply contains_In.
  - rewrite in_app_iff. simpl. split.
    + intros [Hk|[Hk|[]]]; auto.
    + intros [Hk|Hk]; auto.
Qed.

Lemma process_files_contains
    (read_csv read_excel : UploadedFile -> result DataFrame)
    (uploaded_files : list UploadedFile) :
  forall (w : world) (r : result unit) (w' : world) (k : string),
  process_files read_csv read_excel uploaded_files w = (r, w') ->
  (PyDict.contains k (processed_files w) = true ->
   PyDict.contains k (processed_files w') = true) /\
  (PyDict.contains k (processed_files w') = true ->
   PyDict.contains k (processed_files w) = true \/
   In k (map file_id_of uploaded_files)) /\
  (r = Ok tt -> In k (map file_id_of uploaded_files) ->
   PyDict.contains k (processed_files w') = true).
Proof.
  induction uploaded_files as [|file rest IH]; intros w r w' k H.
  - simpl in H. injection H as Hr H. subst. simpl. tauto.
  - simpl in H. unfold bind in H.
    destruct (process_file read_csv read_excel file w) as [r1 w1] eqn:H1.
    assert (Hk := process_file_contains _ _ _ _ _ _ k H1).
    destruct r1 as [[]|e].
    + destruct (IH _ _ _ k H) as [Hup [Hdown Hall]]. simpl.
      split; [|split].
      * intros Hc. apply Hup, Hk. now left.
      * intros Hc. destruct (Hdown Hc) as [Hc1|Hin]; [|now right; right].
        apply Hk in Hc1. destruct Hc1; [now left | right; left; auto].
      * intros Hr [Hin|Hin]; [|now apply Hall].
        apply Hup, Hk. right. auto.
    + injection H as Hr H. subst. simpl. split; [|split].
      * intros Hc. apply Hk. now left.
      * intros Hc. apply Hk in Hc. destruct Hc; [now left|right; left; auto].
      * intros Hr. discriminate.
Qed.

(** X2.  The upload loop is idempotent: once it has returned, running it
    again over the same uploads changes nothing, so a rerun neither
    parses a registered file again nor replaces a table that has been
    cleaned. *)
Theorem process_files_idempotent
    (read_csv read_excel : UploadedFile -> result DataFrame)
    (uploaded_files : list UploadedFile) (w w1 : world) :
  process_files read_csv read_excel uploaded_files w = (Ok tt, w1) ->
  process_files read_csv read_excel uploaded_files w1 = (Ok tt, w1).
Proof.
  intros H.
  assert (Hall : forall f, In f uploaded_files ->
            PyDict.contains (file_id_of f) (processed_files w1) = true).
  { intros f Hf.
    destruct (process_files_contains _ _ _ _ _ _ (file_id_of f) H)
      as [_ [_ Hin]].
    apply Hin; auto. now apply in_map. }
  clear H. induction uploaded_files as [|file rest IH]; simpl; auto.
  unfold bind. rewrite process_file_known by (apply Hall; now left).
  apply IH. intros f Hf. apply Hall. now right.
Qed.

Lemma process_files_idempotent_witness :
  process_files scenario_reader refusing_reader
    [csv_upload; xlsx_upload; csv_upload]
    {| processed_files :=
         [(file_id_of csv_upload,
           set_df (Some scenario_frame) (new_file_data csv_upload));
          (file_id_of xlsx_upload, failed_record xlsx_upload)];
       page := [load_error xlsx_upload
                  (PyException "ParserError" "Error tokenizing data")] |}
  = (Ok tt,
     {| processed_files :=
         [(file_id_of csv_upload,
           set_df (Some scenario_frame) (new_file_data csv_upload));
          (file_id_of xlsx_upload, failed_record xlsx_upload)];
       page := [load_error xlsx_upload
                  (PyException "ParserError" "Error tokenizing data")] |}).
Proof.
  apply (process_files_idempotent scenario_reader refusing_reader
           [csv_upload; xlsx_upload; csv_upload] empty_world).
  vm_compute. reflexivity.
Defined.

(** ** The page only grows *)

Section Grows.
Context {A B : Type}.

Lemma grows_ret (a : A) : page_grows (ret a).
Proof.
  intros w r w' H. injection H as _ H. subst. exists []. now rewrite app_nil_r.
Qed.

Lemma grows_raise (e : exn) : page_grows (@raise A e).
Proof.
  intros w r w' H. injection H as _ H. subst. exists []. now rewrite app_nil_r.
Qed.

Lemma grows_lift (x : result A) : page_grows (lift x).
Proof.
  intros w r w' H. injection H as _ H. subst. exists []. now rewrite app_nil_r.
Qed.

Lemma grows_bind (m : M A) (k : A -> M B) :
  page_grows m -> (forall a, page_grows (k a)) -> page_grows (bind m k).
Proof.
  intros Hm Hk w r w' H. unfold bind in H.
  destruct (m w) as [[a|e] w1] eqn:Hmw.
  - destruct (Hm _ _ _ Hmw) as [m1 H1]. destruct (Hk a _ _ _ H) as [m2 H2].
    exists (m1 ++ m2). now rewrite H2, H1, app_assoc.
  - injection H as _ H. subst. exact (Hm _ _ _ Hmw).
Qed.

Lemma grows_try_except (body : M A) (handler : exn -> M A) :
  page_grows body -> (forall e, page_grows (handler e)) ->
  page_grows (try_except body handler).
Proof.
  intros Hb Hh w r w' H. unfold try_except in H.
  destruct (body w) as [[a|[cls msg|]] w1] eqn:Hbw.
  - injection H as _ H. subst. exact (Hb _ _ _ Hbw).
  - destruct (Hb _ _ _ Hbw) as [m1 H1]. destruct (Hh _ _ _ _ H) as [m2 H2].
    exists (m1 ++ m2). now rewrite H2, H1, app_assoc.
  - injection H as _ H. subst. exact (Hb _ _ _ Hbw).
Qed.
End Grows.

Lemma grows_emit (e : element) : page_grows (emit e).
Proof. intros w r w' H. injection H as _ H. subst. now exists [e]. Qed.

Lemma grows_get_processed_files : page_grows get_processed_files.
Proof.
  intros w r w' H. injection H as _ H. subst. exists []. now rewrite app_nil_r.
Qed.

Lemma grows_put_processed_files (d : PyDict.t FileData) :
  page_grows (put_processed_files d).
Proof.
  intros w r w' H. injection H as _ H. subst. exists []. simpl.
  now rewrite app_nil_r.
Qed.

Lemma grows_assign (file_id : string) (upd : FileData -> FileData) :
  page_grows (assign file_id upd).
Proof.
  intros w r w' H. exists [].
  destruct (PyDict.get file_id (processed_files w)) as [x|] eqn:Hget.
  - rewrite (assign_run _ _ _ _ Hget) in H. injection H as _ H. subst.
    simpl. now rewrite app_nil_r.
  - unfold assign, subscript, bind, get_processed_files, raise in H.
    rewrite Hget in H. injection H as _ H. subst. now rewrite app_nil_r.
Qed.

Lemma grows_subscript (file_id : string) : page_grows (subscript file_id).
Proof.
  intros w r w' H. exists [].
  unfold subscript, bind, get_processed_files in H.
  destruct (PyDict.get file_id (processed_files w));
    injection H as _ H; subst; now rewrite app_nil_r.
Qed.

Create HintDb page.
#[local] Hint Resolve grows_ret grows_raise grows_lift grows_emit
  grows_assign grows_subscript grows_get_processed_files
  grows_put_processed_files : page.

Ltac grows_step :=
  match goal with
  | |- page_grows (bind _ _) => apply grows_bind; [|intros]
  | |- page_grows (try_except _ _) => apply grows_try_except; [|intros]
  | |- page_grows (if ?b then _ else _) => destruct b
  | |- page_grows (match ?x with Some _ => _ | None => _ end) => destruct x
  | |- page_grows (match ?x with [] => _ | _ :: _ => _ end) => destruct x
  | |- page_grows (let '(_, _) := ?p in _) => destruct p
  | |- page_grows _ => solve [auto with page]
  end.

Section PageOfScript.
Variable read_csv read_excel : UploadedFile -> result DataFrame.
Variable to_csv to_excel : DataFrame -> result (list Byte.byte).
Variable ui : widgets.

Lemma grows_process_file (file : UploadedFile) :
  page_grows (process_file read_csv read_excel file).
Proof.
  unfold process_file, load_file, load_local. repeat grows_step.
Qed.

Lemma grows_process_files (uploaded_files : list UploadedFile) :
  page_grows (process_files read_csv read_excel uploaded_files).
Proof.
  induction uploaded_files as [|file rest IH]; simpl.
  - apply grows_ret.
  - apply grows_bind; [apply grows_process_file | intros _; exact IH].
Qed.

Lemma grows_panel (file_id : string) (file_data : FileData) :
  page_grows (panel to_csv to_excel ui file_id file_data).
Proof.
  unfold panel, delete_button, show_metrics, remove_duplicates_button,
    fill_missing_values_button, select_columns, convert_button.
  destruct (String.eqb (radio ui ("conv_" ++ file_id)%string) "CSV");
    repeat grows_step.
Qed.

Lemma grows_panel_convert (file_id : string) (file_data : FileData)
    (df : DataFrame) :
  page_grows (convert_button to_csv to_excel ui file_id file_data df).
Proof.
  unfold convert_button.
  destruct (String.eqb (radio ui ("conv_" ++ file_id)%string) "CSV");
    repeat grows_step.
Qed.

Lemma grows_display_loop (file_ids : list string) :
  forall deleted_files,
  page_grows (display_loop to_csv to_excel ui file_ids deleted_files).
Proof.
  induction file_ids as [|file_id rest IH]; intros acc; simpl.
  - apply grows_ret.
  - apply grows_bind; [apply grows_subscript|]. intros file_data.
    destruct (fd_to_delete file_data); [apply IH|].
    apply grows_bind; [apply grows_panel | intros _; apply IH].
Qed.

Lemma grows_sweep (deleted_files : list string) :
  page_grows (sweep deleted_files).
Proof.
  induction deleted_files as [|file_id rest IH]; simpl.
  - apply grows_ret.
  - apply grows_bind; [|intros _; exact IH].
    unfold del_file. repeat grows_step.
Qed.

Lemma grows_footer : page_grows footer.
Proof. unfold footer. repeat grows_step. Qed.
End PageOfScript.

(** ** The stages of a run *)

(** A run that reaches its end went through the upload loop, the display
    loop, the sweep and the footer, each of which returned. *)
Lemma script_stages
    (read_csv read_excel : UploadedFile -> result DataFrame)
    (to_csv to_excel : DataFrame -> result (list Byte.byte))
    (uploaded_files : list UploadedFile) (ui : widgets) (w w' : world) :
  script read_csv read_excel to_csv to_excel uploaded_files ui w
  = (Ok tt, w') ->
  exists w1 deleted w2 w3,
    process_files read_csv read_excel uploaded_files w = (Ok tt, w1) /\
    display_loop to_csv to_excel ui (PyDict.keys (processed_files w1)) [] w1
    = (Ok deleted, w2) /\
    sweep deleted w2 = (Ok tt, w3) /\
    footer w3 = (Ok tt, w').
Proof.
  intros H. unfold script in H. unfold bind at 1 in H.
  destruct (process_files read_csv read_excel uploaded_files w)
    as [[[]|e] w1] eqn:H1; [|discriminate].
  unfold bind at 1 in H. unfold get_processed_files at 1 in H.
  unfold bind at 1 in H.
  destruct (display_loop to_csv to_excel ui
              (PyDict.keys (processed_files w1)) [] w1)
    as [[deleted|e] w2] eqn:H2; [|discriminate].
  unfold bind in H.
  destruct (sweep deleted w2) as [[[]|e] w3] eqn:H3; [|discriminate].
  exists w1, deleted, w2, w3. auto.
Qed.

Lemma footer_run (w : world) :
  footer w
  = (Ok tt,
     {| processed_files := processed_files w;
        page := page w ++ closing_notice (length (processed_files w)) |}).
Proof.
  unfold footer, bind, get_processed_files, emit.
  destruct (processed_files w) as [|kv d] eqn:Hd; simpl; rewrite ?Hd.
  - reflexivity.
  - rewrite <- app_assoc. reflexivity.
Qed.

(** X3.  A run that reaches its end closes the page with a notice on the
    registry as the sweep left it: the no-files notice when it is empty,
    otherwise the balloons and the number of its records. *)
Theorem script_closing_notice
    (read_csv read_excel : UploadedFile -> result DataFrame)
    (to_csv to_excel : DataFrame -> result (list Byte.byte))
    (uploaded_files : list UploadedFile) (ui : widgets) (w w' : world) :
  script read_csv read_excel to_csv to_excel uploaded_files ui w
  = (Ok tt, w') ->
  exists shown,
    page w' = shown ++ closing_notice (length (processed_files w')).
Proof.
  intros H.
  destruct (script_stages _ _ _ _ _ _ _ _ H)
    as [w1 [deleted [w2 [w3 [_ [_ [_ Hf]]]]]]].
  rewrite footer_run in Hf. injection Hf as Hf. subst w'. simpl.
  now exists (page w3).
Qed.

Lemma script_closing_notice_witness :
  exists shown,
    page {| processed_files := []; page := closing_notice 0 |}
    = shown
      ++ closing_notice
           (length (processed_files
                      {| processed_files := []; page := closing_notice 0 |})).
Proof.
  apply (script_closing_notice scenario_reader scenario_reader
           empty_writer empty_writer [] idle marked_world).
  vm_compute. reflexivity.
Defined.

Lemma script_sweeps_marked_records_witness :
  NoDup (PyDict.keys (processed_files two_records_world)) /\
  NoDup (PyDict.keys (processed_files
                        {| processed_files := scenario_session;
                           page := [] |})) /\
  (forall file_id record,
     PyDict.get file_id (processed_files two_records_world) = Some record ->
     fd_to_delete record = true ->
     PyDict.contains file_id scenario_session = false) /\
  (forall file_id record,
     PyDict.get file_id scenario_session = Some record ->
     fd_to_delete record = false).
Proof.
  assert (Hnd : NoDup (PyDict.keys (processed_files two_records_world))).
  { simpl. constructor; [|constructor; [intros []|constructor]].
    intros [H|[]]. discriminate. }
  split; [exact Hnd|].
  pose (w' := snd (script scenario_reader scenario_reader empty_writer
                     empty_writer [] idle two_records_world)).
  apply (script_sweeps_marked_records scenario_reader scenario_reader
           empty_writer empty_writer [] idle two_records_world
           {| processed_files := scenario_session; page := page w' |} Hnd).
  vm_compute. reflexivity.
Defined.

(** ** The Delete button *)

Lemma display_loop_delete_raises
    (to_csv to_excel : DataFrame -> result (list Byte.byte)) (ui : widgets)
    (file_id : string) (file_ids : list string) :
  button ui ("del_" ++ file_id)%string = true ->
  forall (acc : list string) (w : world) (r : result (list string))
         (w' : world),
  In file_id file_ids ->
  PyDict.contains file_id (processed_files w) = true ->
  marked (processed_files w) file_id = false ->
  display_loop to_csv to_excel ui file_ids acc w = (r, w') ->
  exists e, r = Raise e.
Proof.
  intros Hbtn. induction file_ids as [|k rest IH];
    intros acc w r w' Hin Hc Hm H; [destruct Hin|].
  simpl in H. unfold bind at 1 in H.
  destruct (subscript k w) as [[file_data|e] w0] eqn:Hsub.
  - unfold subscript, bind, get_processed_files in Hsub.
    destruct (PyDict.get k (processed_files w)) as [x|] eqn:Hget;
      [|discriminate].
    injection Hsub as Hx Hw0. subst x w0.
    destruct (fd_to_delete file_data) eqn:Hmark.
    + destruct Hin as [Hk|Hin].
      * subst k. rewrite (marked_get _ _ _ Hget) in Hm. congruence.
      * eapply IH; eauto.
    + unfold bind in H.
      destruct (panel to_csv to_excel ui k file_data w) as [[[]|e] w1] eqn:Hp.
      * destruct (String.eqb_spec k file_id) as [E|E].
        -- exfalso. subst k. unfold panel, bind, delete_button in Hp.
           rewrite Hbtn in Hp. unfold bind in Hp.
           rewrite (assign_run _ _ _ _ Hget) in Hp. discriminate.
        -- destruct Hin as [Hk|Hin]; [contradiction|].
           destruct (returns_panel to_csv to_excel ui k file_data _ _ _ Hp)
             as [Hkeys Hflags]. specialize (Hflags tt eq_refl).
           apply (IH acc w1 r w'); auto.
           ++ apply contains_In. rewrite Hkeys. now apply contains_In.
           ++ now rewrite (flags_marked _ _ file_id Hflags).
      * injection H as Hr _. subst. now exists e.
  - injection H as Hr _. subst. now exists e.
Qed.

(** X4.  A run in which the Delete button of a listed record is pressed
    never reaches its end: it is cut short by an exception (the rerun
    request, unless an earlier panel fails first), so that run neither
    sweeps nor shows the closing notice. *)
Theorem delete_interrupts_run
    (read_csv read_excel : UploadedFile -> result DataFrame)
    (to_csv to_excel : DataFrame -> result (list Byte.byte))
    (uploaded_files : list UploadedFile) (ui : widgets) (w : world)
    (file_id : string) (record : FileData) (r : result unit) (w' : world) :
  NoDup (PyDict.keys (processed_files w)) ->
  PyDict.get file_id (processed_files w) = Some record ->
  fd_to_delete record = false ->
  button ui ("del_" ++ file_id)%string = true ->
  script read_csv read_excel to_csv to_excel uploaded_files ui w = (r, w') ->
  exists e, r = Raise e.
Proof.
  intros Hnd Hget Hmark Hbtn H. unfold script in H. unfold bind at 1 in H.
  destruct (process_files read_csv read_excel uploaded_files w)
    as [[[]|e] w1] eqn:H1; [|injection H as Hr _; subst; now exists e].
  destruct (process_files_registry _ _ _ _ _ _ Hnd H1) as [_ Hkeep].
  specialize (Hkeep _ _ Hget).
  unfold bind at 1 in H. unfold get_processed_files at 1 in H.
  unfold bind at 1 in H.
  destruct (display_loop to_csv to_excel ui
              (PyDict.keys (processed_files w1)) [] w1)
    as [rl w2] eqn:H2.
  assert (Hc : PyDict.contains file_id (processed_files w1) = true)
    by (apply get_contains; now exists record).
  destruct (display_loop_delete_raises to_csv to_excel ui file_id _ Hbtn
              _ _ _ _ (proj1 (contains_In _ _ _) Hc) Hc
              (eq_trans (marked_get _ _ _ Hkeep) Hmark) H2) as [e He].
  subst rl. injection H as Hr _. subst. now exists e.
Qed.

Lemma delete_interrupts_run_witness :
  exists e,
    fst (script scenario_reader scenario_reader empty_writer empty_writer
           [csv_upload] (deleting (file_id_of csv_upload))
           {| processed_files := scenario_session; page := [] |})
    = Raise e.
Proof.
  apply (delete_interrupts_run scenario_reader scenario_reader
           empty_writer empty_writer [csv_upload]
           (deleting (file_id_of csv_upload))
           {| processed_files := scenario_session; page := [] |}
           (file_id_of csv_upload)
           (set_df (Some scenario_frame) (new_file_data csv_upload))
           _ (snd (script scenario_reader scenario_reader empty_writer
                     empty_writer [csv_upload]
                     (deleting (file_id_of csv_upload))
                     {| processed_files := scenario_session; page := [] |}))).
  - simpl. constructor; [intros []|constructor].
  - reflexivity.
  - reflexivity.
  - reflexivity.
  - apply surjective_pairing.
Defined.

(** ** A file that cannot be loaded *)

Lemma process_files_app
    (read_csv read_excel : UploadedFile -> result DataFrame)
    (l1 l2 : list UploadedFile) (w : world) :
  process_files read_csv read_excel (l1 ++ l2) w
  = bind (process_files read_csv read_excel l1)
         (fun _ => process_files read_csv read_excel l2) w.
Proof.
  revert w. induction l1 as [|f l1 IH]; intros w; simpl.
  - reflexivity.
  - unfold bind.
    destruct (process_file read_csv read_excel f w) as [[[]|e] w1]; auto.
Qed.

(** X5.  An upload that cannot be loaded (its reader raises, or its
    suffix is neither [.csv] nor [.xlsx]) never stays in the registry: a
    run that reaches its end shows the load error and ends without a
    record for the file.  As long as the file stays in the uploader,
    every run tries it again. *)
Theorem failed_upload_never_stays
    (read_csv read_excel : UploadedFile -> result DataFrame)
    (to_csv to_excel : DataFrame -> result (list Byte.byte))
    (before after : list UploadedFile) (file : UploadedFile)
    (e : exn) (ui : widgets) (w w' : world) :
  NoDup (PyDict.keys (processed_files w)) ->
  PyDict.contains (file_id_of file) (processed_files w) = false ->
  ~ In (file_id_of file) (map file_id_of before) ->
  (parse read_csv read_excel file = None /\ e = unbound_df) \/
  (exists cls msg,
     parse read_csv read_excel file = Some (Raise (PyException cls msg)) /\
     e = PyException cls msg) ->
  script read_csv read_excel to_csv to_excel (before ++ file :: after) ui w
  = (Ok tt, w') ->
  In (load_error file e) (page w') /\
  PyDict.contains (file_id_of file) (processed_files w') = false.
Proof.
  intros Hnd Hnew Hbefore Hfail H.
  destruct (script_stages _ _ _ _ _ _ _ _ H)
    as [w1 [deleted [w2 [w3 [H1 [H2 [H3 Hf]]]]]]].
  rewrite process_files_app in H1. unfold bind in H1.
  destruct (process_files read_csv read_excel before w)
    as [[[]|e0] wa] eqn:Ha; [|discriminate].
  simpl in H1. unfold bind in H1.
  destruct (process_file read_csv read_excel file wa)
    as [[[]|e0] wb] eqn:Hb; [|discriminate].
  destruct (process_files_registry _ _ _ _ _ _ Hnd Ha) as [Hnda _].
  assert (Hnewa : PyDict.contains (file_id_of file) (processed_files wa)
                  = false).
  { destruct (PyDict.contains _ (processed_files wa)) eqn:Hc; auto.
    destruct (process_files_contains _ _ _ _ _ _ (file_id_of file) Ha)
      as [_ [Hdown _]].
    destruct (Hdown Hc); [congruence | contradiction]. }
  assert (Hwb : wb = {| processed_files :=
                          processed_files wa
                          ++ [(file_id_of file, failed_record file)];
                        page := page wa ++ [load_error file e] |}).
  { rewrite process_file_new in Hb by assumption.
    destruct Hfail as [[Hp He] | [cls [msg [Hp He]]]];
      rewrite Hp in Hb; subst e; injection Hb as Hb; now subst wb. }
  assert (Hndb : NoDup (PyDict.keys (processed_files wb))).
  { rewrite (process_file_keys _ _ _ _ _ _ Hb), Hnewa.
    apply NoDup_app; auto.
    - constructor; [intros []|constructor].
    - intros x Hx [Hk|[]]. subst x. apply contains_In in Hx. congruence. }
  assert (Hgetb : PyDict.get (file_id_of file) (processed_files wb)
                  = Some (failed_record file)).
  { rewrite Hwb. simpl. rewrite <- (set_absent _ _ _ _ Hnewa).
    apply get_set_same. }
  destruct (process_files_registry _ _ _ _ _ _ Hndb H1) as [Hnd1 Hkeep].
  specialize (Hkeep _ _ Hgetb).
  destruct (sweep_after_display _ _ _ _ _ _ Hnd1 H2)
    as [w3' [H3' [_ [Hgone _]]]].
  rewrite H3 in H3'. injection H3' as H3'. subst w3'.
  rewrite footer_run in Hf. injection Hf as Hf. subst w'. simpl. split.
  - destruct (grows_process_files read_csv read_excel after _ _ _ H1)
      as [m1 Hp1].
    destruct (grows_display_loop to_csv to_excel ui _ _ _ _ _ H2)
      as [m2 Hp2].
    destruct (grows_sweep _ _ _ _ H3) as [m3 Hp3].
    rewrite Hp3, Hp2, Hp1, Hwb. simpl.
    rewrite !in_app_iff. simpl. tauto.
  - eapply Hgone; eauto.
Qed.

Lemma failed_upload_never_stays_witness :
  In (load_error capitals_upload unbound_df)
     (page (snd (script scenario_reader scenario_reader empty_writer
                   empty_writer ([csv_upload] ++ capitals_upload :: [])
                   idle empty_world))) /\
  PyDict.contains (file_id_of capitals_upload)
    (processed_files
       (snd (script scenario_reader scenario_reader empty_writer
               empty_writer ([csv_upload] ++ capitals_upload :: [])
               idle empty_world))) = false.
Proof.
  apply (failed_upload_never_stays scenario_reader scenario_reader
           empty_writer empty_writer [csv_upload] [] capitals_upload
           unbound_df idle empty_world).
  - constructor.
  - reflexivity.
  - simpl. intros [H|[]]. discriminate.
  - left. split; reflexivity.
  - vm_compute. reflexivity.
Defined.

(** ** One pass of a panel *)

Section PanelPass.
Variable to_csv to_excel : DataFrame -> result (list Byte.byte).
Variable ui : widgets.
Variable file_id : string.
Variable file_data : FileData.
Variable w0 : world.

Lemma state_emit (df : DataFrame) (e : element) (w : world) :
  panel_state file_id file_data df w0 w ->
  exists w1, emit e w = (Ok tt, w1) /\
             panel_state file_id file_data df w0 w1 /\
             In e (page w1).
Proof.
  intros Hs. eexists. split; [reflexivity|]. split; [exact Hs|].
  simpl. apply in_app_iff. right. now left.
Qed.

Lemma state_assign_df (df df' : DataFrame) (w : world) :
  panel_state file_id file_data df w0 w ->
  exists w1, assign file_id (set_df (Some df')) w = (Ok tt, w1) /\
             panel_state file_id file_data df' w0 w1 /\
             page w1 = page w.
Proof.
  intros [Hother [r [Hget [_ [Hmark Hname]]]]].
  eexists. split; [exact (assign_run _ _ _ _ Hget)|]. simpl.
  split; [split|reflexivity].
  - intros other Hne. simpl. rewrite get_set_other by assumption.
    now apply Hother.
  - simpl. eexists. split; [apply get_set_same|]. repeat split; assumption.
Qed.

Lemma state_assign_converted (df : DataFrame) (w : world) :
  panel_state file_id file_data df w0 w ->
  exists w1, assign file_id (set_converted true) w = (Ok tt, w1) /\
             panel_state file_id file_data df w0 w1 /\
             page w1 = page w.
Proof.
  intros [Hother [r [Hget [Hdf [Hmark Hname]]]]].
  eexists. split; [exact (assign_run _ _ _ _ Hget)|]. simpl.
  split; [split|reflexivity].
  - intros other Hne. simpl. rewrite get_set_other by assumption.
    now apply Hother.
  - simpl. eexists. split; [apply get_set_same|]. repeat split; assumption.
Qed.

Lemma state_convert (df : DataFrame) (w : world) (r : result unit)
    (w' : world) :
  panel_state file_id file_data df w0 w ->
  convert_button to_csv to_excel ui file_id file_data df w = (r, w') ->
  panel_state file_id file_data df w0 w' /\
  exists more, page w' = page w ++ more.
Proof.
  intros Hs H. split.
  - unfold convert_button in H.
    destruct (button ui ("conv_btn_" ++ file_id)%string);
      [|injection H as _ H; now subst].
    unfold try_except in H.
    assert (Hbody : forall (mime_type ext : string)
                      (x : result (list Byte.byte)) rb wb,
              (buffer <- lift x ;;
               assign file_id (set_converted true) ;;
               emit (st_success "🎉 Conversion successful!") ;;
               emit (st_download_button
                       ("⏬ Download "
                        ++ radio ui ("conv_" ++ file_id))%string buffer
                       ("converted_" ++ fd_original_name file_data
                        ++ ext)%string mime_type)) w = (rb, wb) ->
              panel_state file_id file_data df w0 wb).
    { intros mime_type ext x rb wb Hb. unfold bind at 1, lift in Hb.
      destruct x as [buffer|e]; [|injection Hb as _ Hb; now subst].
      unfold bind at 1 in Hb.
      destruct (state_assign_converted df w Hs) as [w1 [Ha [Hs1 _]]].
      rewrite Ha in Hb. unfold bind, emit in Hb. injection Hb as _ Hb.
      now subst. }
    destruct (String.eqb (radio ui ("conv_" ++ file_id)%string) "CSV").
    + destruct ((buffer <- lift (to_csv df) ;; _) w)
        as [[a|[cls msg|]] wb] eqn:Hb;
        specialize (Hbody _ _ _ _ _ Hb);
        injection H as _ H; now subst.
    + destruct ((buffer <- lift (to_excel df) ;; _) w)
        as [[a|[cls msg|]] wb] eqn:Hb;
        specialize (Hbody _ _ _ _ _ Hb);
        injection H as _ H; now subst.
  - revert H. apply (grows_panel_convert to_csv to_excel ui file_id).
Qed.
Lemma state_files (df : DataFrame) (w w1 : world) :
  processed_files w1 = processed_files w ->
  panel_state file_id file_data df w0 w ->
  panel_state file_id file_data df w0 w1.
Proof. unfold panel_state. now intros ->. Qed.

Lemma state_show_metrics (df df' : DataFrame) (w : world) :
  panel_state file_id file_data df w0 w ->
  exists w1, show_metrics ui df' w = (Ok tt, w1) /\
             panel_state file_id file_data df w0 w1.
Proof.
  intros Hs. unfold show_metrics.
  destruct (checkbox_show_metrics ui); eexists; (split; [reflexivity|]);
    now apply (state_files df w).
Qed.

Lemma state_remove_duplicates (df : DataFrame) (w : world) :
  panel_state file_id file_data df w0 w ->
  exists w1,
    remove_duplicates_button ui file_id df w
    = (Ok (after_duplicates ui file_id df), w1) /\
    panel_state file_id file_data (after_duplicates ui file_id df) w0 w1.
Proof.
  intros Hs. unfold remove_duplicates_button, after_duplicates.
  destruct (button ui ("dup_" ++ file_id)%string).
  - destruct (state_assign_df df (pd.drop_duplicates df) w Hs)
      as [w1 [Ha [Hs1 _]]].
    eexists. split.
    + unfold bind. rewrite Ha. reflexivity.
    + now apply (state_files _ w1).
  - eexists. split; [reflexivity | exact Hs].
Qed.

Lemma state_fill_missing_values (df : DataFrame) (w : world) :
  panel_state file_id file_data df w0 w ->
  match after_fill ui file_id df with
  | Ok filled =>
      exists w1,
        fill_missing_values_button ui file_id df w = (Ok filled, w1) /\
        panel_state file_id file_data filled w0 w1
  | Raise e => fill_missing_values_button ui file_id df w = (Raise e, w)
  end.
Proof.
  intros Hs. unfold fill_missing_values_button, after_fill.
  destruct (button ui ("fill_" ++ file_id)%string).
  - destruct (fill_missing_values df) as [filled|e]; [|reflexivity].
    destruct (state_assign_df df filled w Hs) as [w1 [Ha [Hs1 _]]].
    eexists. split.
    + unfold bind, lift. rewrite Ha. reflexivity.
    + now apply (state_files _ w1).
  - eexists. split; [reflexivity | exact Hs].
Qed.

Lemma state_select_columns (df : DataFrame) (w : world) :
  panel_state file_id file_data df w0 w ->
  match after_select ui file_id df with
  | Ok selected =>
      exists w1,
        select_columns ui file_id df w = (Ok selected, w1) /\
        panel_state file_id file_data selected w0 w1
  | Raise e => select_columns ui file_id df w = (Raise e, w)
  end.
Proof.
  intros Hs. unfold select_columns, after_select.
  destruct (pd.getitem_list df _) as [selected|e]; [|reflexivity].
  destruct (state_assign_df df selected w Hs) as [w1 [Ha [Hs1 _]]].
  eexists. split.
  - unfold bind, lift. rewrite Ha. reflexivity.
  - exact Hs1.
Qed.
End PanelPass.

(** X6.  One pass of a panel whose Delete button is not pressed works on
    its own record only.  Removing duplicates comes first, the fill next
    (so the means are those of the deduplicated table), the selection
    last.  When all three go through, the record holds the resulting
    table, with its mark and name as before, and the preview shows the
    head of that table, whatever the export then does.  When the fill or
    the selection raises, the pass raises the same exception. *)
Theorem panel_stores_pipeline
    (to_csv to_excel : DataFrame -> result (list Byte.byte))
    (ui : widgets) (file_id : string) (file_data : FileData)
    (df : DataFrame) (w : world) (r : result unit) (w' : world) :
  PyDict.get file_id (processed_files w) = Some file_data ->
  fd_df file_data = Some df ->
  button ui ("del_" ++ file_id)%string = false ->
  panel to_csv to_excel ui file_id file_data w = (r, w') ->
  (forall other, other <> file_id ->
     PyDict.get other (processed_files w')
     = PyDict.get other (processed_files w)) /\
  match pipeline ui file_id df with
  | Ok out =>
      (exists record,
         PyDict.get file_id (processed_files w') = Some record /\
         record_with file_data out record) /\
      In (st_dataframe (pd.head (selectbox ui ("rows_" ++ file_id)%string) out))
         (page w')
  | Raise e => r = Raise e
  end.
Proof.
  intros Hget Hdf Hdel H.
  assert (Hs0 : panel_state file_id file_data df w w).
  { split; auto. exists file_data. repeat split; auto. }
  unfold panel in H. unfold bind at 1 in H. unfold delete_button in H.
  rewrite Hdel in H. unfold ret at 1 in H. rewrite Hdf in H.
  unfold bind at 1 in H.
  destruct (state_show_metrics ui file_id file_data w df df w Hs0)
    as [w1 [Hm Hs1]]. rewrite Hm in H.
  unfold bind at 1 in H.
  destruct (state_remove_duplicates ui file_id file_data w df w1 Hs1)
    as [w2 [Hd Hs2]]. rewrite Hd in H.
  unfold bind at 1 in H. unfold pipeline.
  assert (Hf := state_fill_missing_values ui file_id file_data w
                  (after_duplicates ui file_id df) w2 Hs2).
  destruct (after_fill ui file_id (after_duplicates ui file_id df))
    as [filled|e].
  2:{ rewrite Hf in H. injection H as Hr Hw. subst. split; auto.
      apply Hs2. }
  destruct Hf as [w3 [Hf Hs3]]. rewrite Hf in H.
  unfold bind at 1 in H.
  assert (Hsel := state_select_columns ui file_id file_data w filled w3 Hs3).
  destruct (after_select ui file_id filled) as [selected|e].
  2:{ rewrite Hsel in H. injection H as Hr Hw. subst. split; auto.
      apply Hs3. }
  destruct Hsel as [w4 [Hsel Hs4]]. rewrite Hsel in H.
  unfold bind at 1 in H.
  destruct (state_emit file_id file_data w selected
              (st_dataframe
                 (pd.head (selectbox ui ("rows_" ++ file_id)%string) selected))
              w4 Hs4) as [w5 [He [Hs5 Hin]]].
  rewrite He in H.
  destruct (state_convert to_csv to_excel ui file_id file_data w selected
              w5 r w' Hs5 H) as [Hs6 [more Hpage]].
  split; [apply Hs6|]. split; [apply Hs6|].
  rewrite Hpage. apply in_app_iff. now left.
Qed.

Lemma panel_stores_pipeline_witness :
  (forall other, other <> file_id_of csv_upload ->
     PyDict.get other
       (processed_files
          (snd (panel empty_writer empty_writer (cleaning ["z"; "y"] "CSV")
                  (file_id_of csv_upload) scenario_record scenario_world)))
     = PyDict.get other (processed_files scenario_world)) /\
  match pipeline (cleaning ["z"; "y"] "CSV") (file_id_of csv_upload)
          scenario_frame with
  | Ok table =>
      (exists record,
         PyDict.get (file_id_of csv_upload)
           (processed_files
              (snd (panel empty_writer empty_writer
                      (cleaning ["z"; "y"] "CSV")
                      (file_id_of csv_upload) scenario_record
                      scenario_world)))
         = Some record /\
         record_with scenario_record table record) /\
      In (st_dataframe
            (pd.head (selectbox (cleaning ["z"; "y"] "CSV")
                        ("rows_" ++ file_id_of csv_upload)%string) table))
         (page (snd (panel empty_writer empty_writer
                       (cleaning ["z"; "y"] "CSV")
                       (file_id_of csv_upload) scenario_record
                       scenario_world)))
  | Raise e =>
      fst (panel empty_writer empty_writer (cleaning ["z"; "y"] "CSV")
             (file_id_of csv_upload) scenario_record scenario_world)
      = Raise e
  end.
Proof.
  apply (panel_stores_pipeline empty_writer empty_writer
           (cleaning ["z"; "y"] "CSV") (file_id_of csv_upload)
           scenario_record scenario_frame scenario_world).
  - reflexivity.
  - reflexivity.
  - reflexivity.
  - apply surjective_pairing.
Defined.

(** ** Export *)

(** X7.  An export that goes through offers the download under the name
    [converted_<original name><ext>], with [.csv] and [text/csv] exactly
    when the chosen format is CSV and the spreadsheet extension and MIME
    type for any other choice; it marks the record as converted and
    changes neither its table, nor its deletion mark, nor any other
    record. *)
Theorem export_success
    (to_csv to_excel : DataFrame -> result (list Byte.byte))
    (ui : widgets) (file_id : string) (file_data record : FileData)
    (df : DataFrame) (buffer : list Byte.byte) (w : world) :
  PyDict.get file_id (processed_files w) = Some record ->
  button ui ("conv_btn_" ++ file_id)%string = true ->
  (if String.eqb (radio ui ("conv_" ++ file_id)%string) "CSV"
   then to_csv df else to_excel df) = Ok buffer ->
  exists w',
    convert_button to_csv to_excel ui file_id file_data df w = (Ok tt, w') /\
    page w'
    = page w
      ++ [st_success "🎉 Conversion successful!";
          st_download_button
            ("⏬ Download " ++ radio ui ("conv_" ++ file_id))%string buffer
            ("converted_" ++ fd_original_name file_data
             ++ export_ext (radio ui ("conv_" ++ file_id)))%string
            (export_mime (radio ui ("conv_" ++ file_id)%string))] /\
    (exists record',
       PyDict.get file_id (processed_files w') = Some record' /\
       fd_converted record' = true /\
       fd_df record' = fd_df record /\
       fd_to_delete record' = fd_to_delete record) /\
    (forall other, other <> file_id ->
       PyDict.get other (processed_files w')
       = PyDict.get other (processed_files w)).
Proof.
  intros Hget Hbtn Hwrite. unfold convert_button, export_ext, export_mime.
  rewrite Hbtn. unfold try_except.
  destruct (String.eqb (radio ui ("conv_" ++ file_id)%string) "CSV");
    unfold bind at 1, lift; rewrite Hwrite; unfold bind at 1;
    rewrite (assign_run _ _ _ _ Hget); unfold bind, emit; simpl;
    (eexists; split; [reflexivity|]; simpl; split;
     [now rewrite <- app_assoc|]; split;
     [eexists; split; [apply get_set_same | repeat split]
     | intros other Hne; now apply get_set_other]).
Qed.

Lemma export_success_witness :
  exists w',
    convert_button refusing_writer empty_writer (pressing ["x"] "Excel")
      (file_id_of csv_upload) scenario_record scenario_frame scenario_world
    = (Ok tt, w') /\
    page w'
    = page scenario_world
      ++ [st_success "🎉 Conversion successful!";
          st_download_button
            ("⏬ Download "
             ++ radio (pressing ["x"] "Excel")
                  ("conv_" ++ file_id_of csv_upload))%string []
            ("converted_" ++ fd_original_name scenario_record
             ++ export_ext (radio (pressing ["x"] "Excel")
                              ("conv_" ++ file_id_of csv_upload)))%string
            (export_mime (radio (pressing ["x"] "Excel")
                            ("conv_" ++ file_id_of csv_upload)%string))] /\
    (exists record',
       PyDict.get (file_id_of csv_upload) (processed_files w') = Some record' /\
       fd_converted record' = true /\
       fd_df record' = fd_df scenario_record /\
       fd_to_delete record' = fd_to_delete scenario_record) /\
    (forall other, other <> file_id_of csv_upload ->
       PyDict.get other (processed_files w')
       = PyDict.get other (processed_files scenario_world)).
Proof.
  apply (export_success refusing_writer empty_writer (pressing ["x"] "Excel")
           (file_id_of csv_upload) scenario_record scenario_record
           scenario_frame [] scenario_world); reflexivity.
Defined.

(** ** The metrics *)

Lemma filter_map_le (A B : Type) (p : B -> bool) (q : A -> bool)
    (g : A -> B) (l : list A) :
  (forall x, p (g x) = true -> q x = true) ->
  length (filter p (map g l)) <= length (filter q l).
Proof.
  intros H. induction l as [|x l IH]; simpl; auto.
  destruct (p (g x)) eqn:Hp.
  - rewrite (H _ Hp). simpl. lia.
  - destruct (q x); simpl; lia.
Qed.



Lemma list_sum_map_le (A : Type) (f g : A -> nat) (l : list A) :
  (forall x, In x l -> f x <= g x) ->
  list_sum (map f l) <= list_sum (map g l).
Proof.
  induction l as [|x l IH]; intros H; simpl; auto.
  assert (Hx : f x <= g x) by (apply H; now left).
  assert (Hl : list_sum (map f l) <= list_sum (map g l))
    by (apply IH; intros y Hy; apply H; now right).
  lia.
Qed.

(** X8.  The Missing Values metric never exceeds the product of the Rows
    and Columns metrics. *)
Theorem missing_values_bounded (df : DataFrame) :
  wf_frame df ->
  pd.isna_sum_sum df <= fst (pd.shape df) * snd (pd.shape df).
Proof.
  intros [_ Hcols]. unfold pd.isna_sum_sum, pd.shape. simpl.
  revert Hcols. generalize (length (index df)) as n.
  generalize (columns df) as cols.
  induction cols as [|s cols IH]; intros n Hcols; simpl; [lia|].
  inversion Hcols as [|? ? [Hs _] Hrest]; subst.
  specialize (IH _ Hrest).
  assert (Hle : length (filter isna (values s)) <= length (values s))
    by apply filter_length_le.
  lia.
Qed.

Lemma missing_values_bounded_witness :
  wf_frame repeated_frame /\
  pd.isna_sum_sum repeated_frame
  <= fst (pd.shape repeated_frame) * snd (pd.shape repeated_frame).
Proof.
  split.
  - apply wf_frameb_spec; reflexivity.
  - apply (missing_values_bounded repeated_frame).
    apply wf_frameb_spec; reflexivity.
Defined.

(** X9.  The fill changes neither the Rows nor the Columns metric and
    never raises the Missing Values metric. *)
Theorem fill_lowers_missing_values (df : DataFrame) :
  wf_frame df ->
  exists out,
    fill_missing_values df = Ok out /\
    pd.shape out = pd.shape df /\
    pd.isna_sum_sum out <= pd.isna_sum_sum df.
Proof.
  intros [Hnd _]. eexists. split; [now apply fill_missing_values_columns|].
  unfold pd.shape, pd.isna_sum_sum. simpl. split.
  - now rewrite length_map.
  - rewrite map_map. apply list_sum_map_le. intros s _.
    unfold fill_column. destruct (pd.is_number (dtype_of s)); auto.
    simpl. unfold pd.fillna_values. apply filter_map_le.
    intros c Hg. destruct (isna c) eqn:Hc; auto.
    simpl in Hg. congruence.
Qed.

Lemma fill_lowers_missing_values_witness :
  wf_frame infinities_frame /\
  exists out,
    fill_missing_values infinities_frame = Ok out /\
    pd.shape out = pd.shape infinities_frame /\
    pd.isna_sum_sum out <= pd.isna_sum_sum infinities_frame.
Proof.
  split.
  - apply wf_frameb_spec; reflexivity.
  - apply (fill_lowers_missing_values infinities_frame).
    apply wf_frameb_spec; reflexivity.
Defined.


(** ** The preview *)

Lemma transpose_firstn (n : nat) :
  forall (len : nat) (cols : list (list cell)),
  Forall (fun c => length c = len) cols ->
  pd.transpose (Nat.min n len) (map (firstn n) cols)
  = firstn n (pd.transpose len cols).
Proof.
  induction n as [|n IH]; intros len cols Hcols; [reflexivity|].
  destruct len as [|len]; [reflexivity|].
  simpl Nat.min. simpl pd.transpose. simpl firstn.
  assert (Htl : Forall (fun c => length c = len) (map (@tl cell) cols)).
  { rewrite Forall_map. eapply Forall_impl; [|exact Hcols].
    intros [|x c] Hc; simpl in *; [discriminate | congruence]. }
  rewrite <- (IH _ _ Htl). f_equal.
  - rewrite map_map. apply map_ext_in. intros c Hc.
    rewrite Forall_forall in Hcols. specialize (Hcols _ Hc).
    destruct c; simpl in *; [discriminate | reflexivity].
  - f_equal. rewrite !map_map. apply map_ext_in. intros c Hc.
    rewrite Forall_forall in Hcols. specialize (Hcols _ Hc).
    destruct c; simpl in *; [discriminate | reflexivity].
Qed.

Lemma firstn_forallb (A : Type) (p : A -> bool) (n : nat) (l : list A) :
  forallb p l = true -> forallb p (firstn n l) = true.
Proof.
  revert l; induction n as [|n IH]; intros [|x l] H; simpl in *; auto.
  apply andb_true_iff in H as [Hx Hl]. rewrite Hx. simpl. now apply IH.
Qed.

(** X11.  The preview of a table is its first [n] rows under the same
    columns: a well-formed table again, and the table itself when it has
    no more than [n] rows. *)
Theorem head_first_rows (n : nat) (df : DataFrame) :
  wf_frame df ->
  wf_frame (pd.head n df) /\
  index (pd.head n df) = firstn n (index df) /\
  pd.rows (pd.head n df) = firstn n (pd.rows df) /\
  schema (pd.head n df) = schema df /\
  (length (index df) <= n -> pd.head n df = df).
Proof.
  intros [Hnd Hcols]. split; [|split; [|split; [|split]]].
  - split.
    + unfold column_names, pd.head in *; simpl. now rewrite map_map.
    + simpl. rewrite Forall_map. eapply Forall_impl; [|exact Hcols].
      intros s [Hlen Hfit]. split; simpl.
      * rewrite !length_firstn. congruence.
      * now apply firstn_forallb.
  - reflexivity.
  - unfold pd.rows, pd.head; simpl. rewrite length_firstn, map_map.
    rewrite <- transpose_firstn.
    + now rewrite map_map.
    + rewrite Forall_map. eapply Forall_impl; [|exact Hcols].
      now intros s [Hlen _].
  - unfold schema, pd.head; simpl. now rewrite map_map.
  - intros Hle. destruct df as [idx cols]; simpl in *.
    unfold pd.head; simpl. f_equal.
    + now apply firstn_all2.
    + rewrite <- (map_id cols) at 2. apply map_ext_in. intros s Hs.
      rewrite Forall_forall in Hcols. destruct (Hcols _ Hs) as [Hlen _].
      destruct s as [l d vs]; simpl in *. f_equal.
      apply firstn_all2. lia.
Qed.

Lemma head_first_rows_witness :
  wf_frame repeated_frame /\
  wf_frame (pd.head 2 repeated_frame) /\
  index (pd.head 2 repeated_frame) = firstn 2 (index repeated_frame) /\
  pd.rows (pd.head 2 repeated_frame) = firstn 2 (pd.rows repeated_frame) /\
  schema (pd.head 2 repeated_frame) = schema repeated_frame /\
  (length (index repeated_frame) <= 2 ->
   pd.head 2 repeated_frame = repeated_frame).
Proof.
  split.
  - apply wf_frameb_spec; reflexivity.
  - apply (head_first_rows 2 repeated_frame).
    apply wf_frameb_spec; reflexivity.
Defined.

(** ** The selection *)

Lemma getitem_list_columns (df : DataFrame) (names : list string) :
  NoDup (column_names df) ->
  incl names (column_names df) ->
  exists sel,
    pd.getitem_list df names = Ok {| index := index df; columns := sel |} /\
    map label sel = names /\ incl sel (columns df).
Proof.
  intros Hnd Hincl.
  assert (Hsel : exists sel, map label sel = names /\ incl sel (columns df)).
  { induction names as [|n names IH].
    - exists []. split; auto. intros x [].
    - destruct IH as [sel [Hl Hi]];
        [intros x Hx; apply Hincl; now right|].
      assert (Hn : In n (column_names df)) by (apply Hincl; now left).
      unfold column_names in Hn. apply in_map_iff in Hn as [s [Hs1 Hs2]].
      exists (s :: sel). split; [simpl; congruence|].
      intros x [Hx|Hx]; [now subst | now apply Hi]. }
  destruct Hsel as [sel [Hl Hi]]. exists sel. split; [|now split].
  rewrite <- Hl. now apply getitem_list_sel.
Qed.

(** X12.  Selecting distinct names that are all columns of a table
    returns the table cut down to those columns, in the order asked for,
    with the rows and the cells as they were.  The columns left out are
    gone from the result, and selecting a part of the selection from the
    result is selecting it from the table. *)
Theorem select_projects (df : DataFrame) (names : list string) :
  wf_frame df ->
  NoDup names ->
  incl names (column_names df) ->
  exists out,
    pd.getitem_list df names = Ok out /\
    wf_frame out /\
    column_names out = names /\
    index out = index df /\
    incl (columns out) (columns df) /\
    (forall n, ~ In n names -> pd.has_column out n = false) /\
    (forall later, incl later names ->
       pd.getitem_list out later = pd.getitem_list df later).
Proof.
  intros Hwf Hnames Hincl. destruct Hwf as [Hnd Hcols].
  destruct (getitem_list_columns df names Hnd Hincl) as [sel [Hget [Hl Hi]]].
  exists {| index := index df; columns := sel |}.
  assert (Hwf' : wf_frame {| index := index df; columns := sel |}).
  { eapply getitem_list_wf; [split; eassumption | exact Hnames | exact Hget]. }
  split; [exact Hget|]. split; [exact Hwf'|]. split; [exact Hl|].
  split; [reflexivity|]. split; [exact Hi|]. split.
  - intros n Hn. destruct (pd.has_column _ n) eqn:Hh; auto.
    apply has_column_In in Hh. unfold column_names in Hh. simpl in Hh.
    rewrite Hl in Hh. contradiction.
  - intros later Hlater.
    assert (Hlater_df : incl later (column_names df))
      by (intros x Hx; apply Hincl, Hlater, Hx).
    assert (Hlater_out : incl later
              (column_names {| index := index df; columns := sel |}))
      by (unfold column_names; simpl; now rewrite Hl).
    destruct (getitem_list_columns df later Hnd Hlater_df)
      as [s1 [Hg1 [Hl1 Hi1]]].
    destruct (getitem_list_columns _ later (proj1 Hwf') Hlater_out)
      as [s2 [Hg2 [Hl2 Hi2]]].
    rewrite Hg1, Hg2. simpl. f_equal. f_equal.
    simpl in Hi2. clear Hg1 Hg2. revert s2 Hl2 Hi2 Hl1 Hi1.
    revert s1. induction later as [|n later IH]; intros s1 s2 Hl2 Hi2 Hl1 Hi1.
    + destruct s1, s2; try discriminate. reflexivity.
    + destruct s1 as [|c1 s1], s2 as [|c2 s2]; try discriminate.
      simpl in Hl1, Hl2. injection Hl1 as Hc1 Hl1. injection Hl2 as Hc2 Hl2.
      f_equal.
      * apply (label_inj _ Hnd).
        -- apply Hi, Hi2. now left.
        -- apply Hi1. now left.
        -- congruence.
      * apply IH.
        -- intros x Hx. apply Hlater. now right.
        -- intros x Hx. apply Hlater_df. now right.
        -- intros x Hx. apply Hlater_out. now right.
        -- exact Hl2.
        -- intros x Hx. apply Hi2. now right.
        -- exact Hl1.
        -- intros x Hx. apply Hi1. now right.
Qed.

Lemma select_projects_witness :
  wf_frame scenario_frame /\
  NoDup ["z"; "x"] /\
  incl ["z"; "x"] (column_names scenario_frame) /\
  exists out,
    pd.getitem_list scenario_frame ["z"; "x"] = Ok out /\
    wf_frame out /\
    column_names out = ["z"; "x"] /\
    index out = index scenario_frame /\
    incl (columns out) (columns scenario_frame) /\
    (forall n, ~ In n ["z"; "x"] -> pd.has_column out n = false) /\
    (forall later, incl later ["z"; "x"] ->
       pd.getitem_list out later = pd.getitem_list scenario_frame later).
Proof.
  assert (Hnd : NoDup ["z"; "x"]).
  { constructor; [|constructor; [intros []|constructor]].
    intros [H|[]]. discriminate. }
  assert (Hincl : incl ["z"; "x"] (column_names scenario_frame)).
  { intros n [H|[H|[]]]; subst; simpl; auto. }
  split; [apply wf_frameb_spec; reflexivity|].
  split; [exact Hnd|]. split; [exact Hincl|].
  apply (select_projects scenario_frame ["z"; "x"]).
  - apply wf_frameb_spec; reflexivity.
  - exact Hnd.
  - exact Hincl.
Defined.

Lemma script_keeps_frames_wf_witness :
  wf_registry scenario_world /\
  wf_registry
    (snd (script refusing_reader scenario_reader empty_writer empty_writer
            [xlsx_upload; capitals_upload] (cleaning ["z"; "y"] "CSV")
            scenario_world)).
Proof.
  assert (Hw : wf_registry scenario_world).
  { constructor; [|constructor]. simpl. apply wf_frameb_spec; reflexivity. }
  split; [exact Hw|].
  refine (script_keeps_frames_wf refusing_reader scenario_reader
            empty_writer empty_writer (cleaning ["z"; "y"] "CSV") _ _ _
            [xlsx_upload; capitals_upload] scenario_world
            (fst (script refusing_reader scenario_reader empty_writer
                    empty_writer [xlsx_upload; capitals_upload]
                    (cleaning ["z"; "y"] "CSV") scenario_world))
            _ Hw _).
  - intros f df H. discriminate.
  - intros f df H. injection H as H. subst df.
    apply wf_frameb_spec; reflexivity.
  - intros key options _. simpl.
    constructor; [|constructor; [intros []|constructor]].
    intros [H|[]]. discriminate.
  - apply surjective_pairing.
Defined.

(** ** A marked record stays as it is until it is swept *)

Section Touches.
Context {A B : Type}.
Variable file_id : string.

Lemma touches_ret (a : A) : touches_only file_id (ret a).
Proof. intros w r w' other H _. injection H as _ H. now subst. Qed.

Lemma touches_raise (e : exn) : touches_only file_id (@raise A e).
Proof. intros w r w' other H _. injection H as _ H. now subst. Qed.

Lemma touches_lift (x : result A) : touches_only file_id (lift x).
Proof. intros w r w' other H _. injection H as _ H. now subst. Qed.

Lemma touches_bind (m : M A) (k : A -> M B) :
  touches_only file_id m -> (forall a, touches_only file_id (k a)) ->
  touches_only file_id (bind m k).
Proof.
  intros Hm Hk w r w' other H Hne. unfold bind in H.
  destruct (m w) as [[a|e] w1] eqn:Hmw.
  - rewrite (Hk a _ _ _ _ H Hne). exact (Hm _ _ _ _ Hmw Hne).
  - injection H as _ H. subst. exact (Hm _ _ _ _ Hmw Hne).
Qed.

Lemma touches_try_except (body : M A) (handler : exn -> M A) :
  touches_only file_id body -> (forall e, touches_only file_id (handler e)) ->
  touches_only file_id (try_except body handler).
Proof.
  intros Hb Hh w r w' other H Hne. unfold try_except in H.
  destruct (body w) as [[a|[cls msg|]] w1] eqn:Hbw.
  - injection H as _ H. subst. exact (Hb _ _ _ _ Hbw Hne).
  - rewrite (Hh _ _ _ _ _ H Hne). exact (Hb _ _ _ _ Hbw Hne).
  - injection H as _ H. subst. exact (Hb _ _ _ _ Hbw Hne).
Qed.
End Touches.

Lemma touches_emit (file_id : string) (e : element) :
  touches_only file_id (emit e).
Proof. intros w r w' other H _. injection H as _ H. now subst. Qed.

Lemma touches_assign (file_id : string) (upd : FileData -> FileData) :
  touches_only file_id (assign file_id upd).
Proof.
  intros w r w' other H Hne.
  destruct (PyDict.get file_id (processed_files w)) as [x|] eqn:Hget.
  - rewrite (assign_run _ _ _ _ Hget) in H. injection H as _ H. subst.
    simpl. now apply get_set_other.
  - unfold assign, subscript, bind, get_processed_files, raise in H.
    rewrite Hget in H. injection H as _ H. now subst.
Qed.

Create HintDb touches.
#[local] Hint Resolve touches_ret touches_raise touches_lift touches_emit
  touches_assign : touches.

Ltac touches_step :=
  match goal with
  | |- touches_only _ (bind _ _) => apply touches_bind; [|intros]
  | |- touches_only _ (try_except _ _) => apply touches_try_except; [|intros]
  | |- touches_only _ (if ?b then _ else _) => destruct b
  | |- touches_only _ (match ?x with Some _ => _ | None => _ end) =>
      destruct x
  | |- touches_only _ _ => solve [auto with touches]
  end.

Lemma touches_panel
    (to_csv to_excel : DataFrame -> result (list Byte.byte)) (ui : widgets)
    (file_id : string) (file_data : FileData) :
  touches_only file_id (panel to_csv to_excel ui file_id file_data).
Proof.
  unfold panel, delete_button, show_metrics, remove_duplicates_button,
    fill_missing_values_button, select_columns, convert_button.
  destruct (String.eqb (radio ui ("conv_" ++ file_id)%string) "CSV");
    repeat touches_step.
Qed.

Lemma display_loop_keeps_marked
    (to_csv to_excel : DataFrame -> result (list Byte.byte)) (ui : widgets)
    (file_id : string) (record : FileData) (file_ids : list string) :
  fd_to_delete record = true ->
  forall (acc : list string) (w : world) (r : result (list string))
         (w' : world),
  PyDict.get file_id (processed_files w) = Some record ->
  display_loop to_csv to_excel ui file_ids acc w = (r, w') ->
  PyDict.get file_id (processed_files w') = Some record.
Proof.
  intros Hmark. induction file_ids as [|k rest IH]; intros acc w r w' Hget H.
  - simpl in H. injection H as _ H. now subst.
  - simpl in H. unfold bind at 1 in H.
    unfold subscript, bind, get_processed_files in H.
    destruct (PyDict.get k (processed_files w)) as [file_data|] eqn:Hk.
    2:{ injection H as _ H. now subst. }
    unfold ret at 1 in H.
    destruct (fd_to_delete file_data) eqn:Hfd.
    + eapply IH; eauto.
    + assert (Hne : file_id <> k) by (intros E; subst; congruence).
      destruct (panel to_csv to_excel ui k file_data w) as [r1 w1] eqn:Hp.
      assert (Hget1 : PyDict.get file_id (processed_files w1) = Some record).
      { rewrite (touches_panel _ _ _ _ _ _ _ _ _ Hp Hne). exact Hget. }
      destruct r1 as [[]|e].
      * apply (IH acc w1 r w'); auto.
      * injection H as _ H. now subst.
Qed.

(** One pass of the display loop. *)
Lemma display_loop_cons
    (to_csv to_excel : DataFrame -> result (list Byte.byte)) (ui : widgets)
    (k : string) (rest acc : list string) (w : world) :
  display_loop to_csv to_excel ui (k :: rest) acc w
  = match PyDict.get k (processed_files w) with
    | None => (Raise (PyException "KeyError" k), w)
    | Some file_data =>
        if fd_to_delete file_data
        then display_loop to_csv to_excel ui rest (acc ++ [k]) w
        else
          match panel to_csv to_excel ui k file_data w with
          | (Ok _, w1) => display_loop to_csv to_excel ui rest acc w1
          | (Raise e, w1) => (Raise e, w1)
          end
    end.
Proof.
  simpl. unfold bind at 1. unfold subscript, bind, get_processed_files.
  destruct (PyDict.get k (processed_files w)) as [file_data|]; auto.
  unfold ret at 1. now destruct (fd_to_delete file_data).
Qed.

(** The display loop passes over a marked record: it ends in the same
    world, with the same page, and in the same way as the loop over the
    listing without that record. *)
Lemma display_loop_skips_marked
    (to_csv to_excel : DataFrame -> result (list Byte.byte)) (ui : widgets)
    (file_id : string) (record : FileData) (file_ids : list string) :
  fd_to_delete record = true ->
  forall (acc acc' : list string) (w : world),
  PyDict.get file_id (processed_files w) = Some record ->
  snd (display_loop to_csv to_excel ui file_ids acc w)
  = snd (display_loop to_csv to_excel ui (without file_id file_ids) acc' w) /\
  same_outcome
    (fst (display_loop to_csv to_excel ui file_ids acc w))
    (fst (display_loop to_csv to_excel ui (without file_id file_ids) acc' w)).
Proof.
  intros Hmark. unfold without.
  induction file_ids as [|k rest IH]; intros acc acc' w Hget.
  - simpl. now split.
  - cbn [filter]. destruct (String.eqb_spec k file_id) as [E|E].
    + subst k. cbn [negb]. rewrite display_loop_cons, Hget, Hmark.
      now apply IH.
    + cbn [negb]. rewrite !display_loop_cons.
      destruct (PyDict.get k (processed_files w)) as [file_data|] eqn:Hk.
      2:{ simpl. now split. }
      destruct (fd_to_delete file_data).
      * now apply IH.
      * destruct (panel to_csv to_excel ui k file_data w) as [r1 w1] eqn:Hp.
        assert (Hne : file_id <> k) by congruence.
        assert (Hget1 : PyDict.get file_id (processed_files w1) = Some record).
        { rewrite (touches_panel _ _ _ _ _ _ _ _ _ Hp Hne). exact Hget. }
        destruct r1 as [[]|e].
        -- now apply IH.
        -- simpl. now split.
Qed.

(** X15.  Nothing in a run can take the deletion mark back, and a marked
    record is not rendered.  A record that is marked when a run begins is
    still there, unchanged, when the display loop starts; the display loop
    ends with the same page and registry, and in the same way, as it would
    over the listing without that record; and when the run ends, the
    record is gone if the run reached its end, and is still there exactly
    as it was if the run was cut short. *)
Theorem marked_record_is_final
    (read_csv read_excel : UploadedFile -> result DataFrame)
    (to_csv to_excel : DataFrame -> result (list Byte.byte))
    (uploaded_files : list UploadedFile) (ui : widgets) (w : world)
    (file_id : string) (record : FileData) (r : result unit) (w' : world) :
  NoDup (PyDict.keys (processed_files w)) ->
  PyDict.get file_id (processed_files w) = Some record ->
  fd_to_delete record = true ->
  script read_csv read_excel to_csv to_excel uploaded_files ui w = (r, w') ->
  ((r = Ok tt /\ PyDict.contains file_id (processed_files w') = false) \/
   ((exists e, r = Raise e) /\
    PyDict.get file_id (processed_files w') = Some record)) /\
  (forall r1 w1,
     process_files read_csv read_excel uploaded_files w = (r1, w1) ->
     PyDict.get file_id (processed_files w1) = Some record /\
     snd (display_loop to_csv to_excel ui
            (PyDict.keys (processed_files w1)) [] w1)
     = snd (display_loop to_csv to_excel ui
              (without file_id (PyDict.keys (processed_files w1))) [] w1) /\
     same_outcome
       (fst (display_loop to_csv to_excel ui
               (PyDict.keys (processed_files w1)) [] w1))
       (fst (display_loop to_csv to_excel ui
               (without file_id (PyDict.keys (processed_files w1))) [] w1))).
Proof.
  intros Hnd Hget Hmark H. split.
  - unfold script in H. unfold bind at 1 in H.
    destruct (process_files read_csv read_excel uploaded_files w)
      as [r1 w1] eqn:H1.
    destruct (process_files_registry _ _ _ _ _ _ Hnd H1) as [Hnd1 Hkeep].
    specialize (Hkeep _ _ Hget).
    destruct r1 as [[]|e];
      [|injection H as Hr Hw; subst; right; split; eauto].
    unfold bind at 1 in H. unfold get_processed_files at 1 in H.
    unfold bind at 1 in H.
    destruct (display_loop to_csv to_excel ui
                (PyDict.keys (processed_files w1)) [] w1)
      as [r2 w2] eqn:H2.
    assert (Hget2 := display_loop_keeps_marked _ _ _ _ _ _ Hmark _ _ _ _
                       Hkeep H2).
    destruct r2 as [deleted|e];
      [|injection H as Hr Hw; subst; right; split; eauto].
    destruct (sweep_after_display _ _ _ _ _ _ Hnd1 H2)
      as [w3 [H3 [_ [Hgone _]]]].
    unfold bind in H. rewrite H3 in H. rewrite footer_run in H.
    injection H as Hr Hw. subst. left. split; auto. simpl.
    eapply Hgone; eauto.
  - intros r1 w1 H1.
    destruct (process_files_registry _ _ _ _ _ _ Hnd H1) as [_ Hkeep].
    specialize (Hkeep _ _ Hget). split; [exact Hkeep|].
    now apply (display_loop_skips_marked _ _ _ _ record).
Qed.

Lemma marked_record_is_final_witness :
  ((fst (script scenario_reader scenario_reader empty_writer empty_writer
           [capitals_upload] (deleting (file_id_of csv_upload))
           two_records_world) = Ok tt /\
    PyDict.contains (file_id_of capitals_upload)
      (processed_files
         (snd (script scenario_reader scenario_reader empty_writer
                 empty_writer [capitals_upload]
                 (deleting (file_id_of csv_upload)) two_records_world)))
    = false) \/
   ((exists e,
       fst (script scenario_reader scenario_reader empty_writer empty_writer
              [capitals_upload] (deleting (file_id_of csv_upload))
              two_records_world) = Raise e) /\
    PyDict.get (file_id_of capitals_upload)
      (processed_files
         (snd (script scenario_reader scenario_reader empty_writer
                 empty_writer [capitals_upload]
                 (deleting (file_id_of csv_upload)) two_records_world)))
    = Some (failed_record capitals_upload))) /\
  (forall r1 w1,
     process_files scenario_reader scenario_reader [capitals_upload]
       two_records_world = (r1, w1) ->
     PyDict.get (file_id_of capitals_upload) (processed_files w1)
     = Some (failed_record capitals_upload) /\
     snd (display_loop empty_writer empty_writer
            (deleting (file_id_of csv_upload))
            (PyDict.keys (processed_files w1)) [] w1)
     = snd (display_loop empty_writer empty_writer
              (deleting (file_id_of csv_upload))
              (without (file_id_of capitals_upload)
                 (PyDict.keys (processed_files w1))) [] w1) /\
     same_outcome
       (fst (display_loop empty_writer empty_writer
               (deleting (file_id_of csv_upload))
               (PyDict.keys (processed_files w1)) [] w1))
       (fst (display_loop empty_writer empty_writer
               (deleting (file_id_of csv_upload))
               (without (file_id_of capitals_upload)
                  (PyDict.keys (processed_files w1))) [] w1))).
Proof.
  apply (marked_record_is_final scenario_reader scenario_reader
           empty_writer empty_writer [capitals_upload]
           (deleting (file_id_of csv_upload)) two_records_world
           (file_id_of capitals_upload) (failed_record capitals_upload)).
  - simpl. constructor; [|constructor; [intros []|constructor]].
    intros [H|[]]. discriminate.
  - reflexivity.
  - reflexivity.
  - apply surjective_pairing.
Defined.

(** ** The order of the listing *)

Lemma process_files_keys
    (read_csv read_excel : UploadedFile -> result DataFrame)
    (uploaded_files : list UploadedFile) :
  forall (w : world) (r : result unit) (w' : world),
  process_files read_csv read_excel uploaded_files w = (r, w') ->
  exists added,
    PyDict.keys (processed_files w')
    = PyDict.keys (processed_files w) ++ added /\
    incl added (map file_id_of uploaded_files).
Proof.
  induction uploaded_files as [|file rest IH]; intros w r w' H.
  - simpl in H. injection H as _ H. subst. exists [].
    split; [now rewrite app_nil_r | intros x []].
  - simpl in H. unfold bind in H.
    destruct (process_file read_csv read_excel file w) as [r1 w1] eqn:H1.
    assert (Hk := process_file_keys _ _ _ _ _ _ H1).
    assert (Hfirst : exists a1,
              PyDict.keys (processed_files w1)
              = PyDict.keys (processed_files w) ++ a1 /\
              incl a1 [file_id_of file]).
    { destruct (PyDict.contains _ _).
      - exists []. split; [now rewrite app_nil_r | intros x []].
      - exists [file_id_of file]. split; auto. apply incl_refl. }
    destruct Hfirst as [a1 [Ha1 Hi1]].
    destruct r1 as [[]|e].
    + destruct (IH _ _ _ H) as [a2 [Ha2 Hi2]]. exists (a1 ++ a2). split.
      * now rewrite Ha2, Ha1, app_assoc.
      * intros x Hx. apply in_app_iff in Hx as [Hx|Hx]; simpl.
        -- left. destruct (Hi1 _ Hx) as [E|[]]. exact E.
        -- right. now apply Hi2.
    + injection H as _ H. subst. exists a1. split; auto.
      intros x Hx. simpl. left. destruct (Hi1 _ Hx) as [E|[]]. exact E.
Qed.

Lemma keys_filter (V : Type) (p : string -> bool) (d : PyDict.t V) :
  PyDict.keys (filter (fun kv => p (fst kv)) d) = filter p (PyDict.keys d).
Proof.
  induction d as [|kv d IH]; simpl; auto.
  destruct (p (fst kv)); simpl; congruence.
Qed.

(** X16.  A run never rearranges the registry.  The upload loop only
    appends: after it the registry has the old keys in their order, then
    the ids registered in this run, all distinct, every upload's id among
    them, and each old record marked exactly when it was marked before.
    When the run reaches its end, the keys left are those keys, in that
    order, without exactly the ones whose record was marked for deletion
    at that point. *)
Theorem listing_order
    (read_csv read_excel : UploadedFile -> result DataFrame)
    (to_csv to_excel : DataFrame -> result (list Byte.byte))
    (uploaded_files : list UploadedFile) (ui : widgets) (w w' : world) :
  NoDup (PyDict.keys (processed_files w)) ->
  script read_csv read_excel to_csv to_excel uploaded_files ui w
  = (Ok tt, w') ->
  exists (w1 : world) (added : list string),
    process_files read_csv read_excel uploaded_files w = (Ok tt, w1) /\
    PyDict.keys (processed_files w1)
    = PyDict.keys (processed_files w) ++ added /\
    NoDup (PyDict.keys (processed_files w) ++ added) /\
    incl added (map file_id_of uploaded_files) /\
    incl (map file_id_of uploaded_files)
         (PyDict.keys (processed_files w) ++ added) /\
    (forall k, In k (PyDict.keys (processed_files w)) ->
       marked (processed_files w1) k = marked (processed_files w) k) /\
    PyDict.keys (processed_files w')
    = filter (fun k => negb (marked (processed_files w1) k))
             (PyDict.keys (processed_files w) ++ added).
Proof.
  intros Hnd H.
  destruct (script_stages _ _ _ _ _ _ _ _ H)
    as [w1 [deleted [w2 [w3 [H1 [H2 [H3 Hf]]]]]]].
  destruct (process_files_keys _ _ _ _ _ _ H1) as [added [Hadd Hincl]].
  destruct (process_files_registry _ _ _ _ _ _ Hnd H1) as [Hnd1 Hkeep].
  destruct (display_loop_returns _ _ _ _ _ _ _ _ H2) as [Hflags Hdel].
  simpl in Hdel.
  assert (Hkeys2 : PyDict.keys (processed_files w2)
                   = PyDict.keys (processed_files w1))
    by now rewrite !flags_keys, Hflags.
  exists w1, added.
  split; [exact H1|]. split; [exact Hadd|].
  split; [now rewrite <- Hadd|]. split; [exact Hincl|].
  split; [|split].
  - intros k Hk. rewrite <- Hadd. apply contains_In.
    destruct (process_files_contains _ _ _ _ _ _ k H1) as [_ [_ Hall]].
    now apply Hall.
  - intros k Hk. apply contains_In, get_contains in Hk as [v Hv].
    rewrite (marked_get _ _ _ Hv). now rewrite (marked_get _ _ _ (Hkeep _ _ Hv)).
  - rewrite sweep_run in H3.
    + injection H3 as H3. rewrite footer_run in Hf. injection Hf as Hf.
      subst w' w3. simpl.
      rewrite (keys_filter _ (fun k => negb (existsb (String.eqb k) deleted))).
      rewrite Hkeys2, <- Hadd. apply filter_ext_in. intros k Hk. f_equal.
      destruct (marked (processed_files w1) k) eqn:Hm.
      * apply existsb_eqb_In. subst deleted. apply filter_In. now split.
      * destruct (existsb (String.eqb k) deleted) eqn:He; auto.
        apply existsb_eqb_In in He. subst deleted.
        apply filter_In in He as [_ He]. congruence.
    + subst deleted. now apply NoDup_filter.
    + subst deleted. rewrite Hkeys2. intros x Hx.
      apply filter_In in Hx. tauto.
    + now rewrite Hkeys2.
Qed.

Lemma listing_order_witness :
  exists (w1 : world) (added : list string),
    process_files scenario_reader scenario_reader [xlsx_upload; csv_upload]
      two_records_world = (Ok tt, w1) /\
    PyDict.keys (processed_files w1)
    = PyDict.keys (processed_files two_records_world) ++ added /\
    NoDup (PyDict.keys (processed_files two_records_world) ++ added) /\
    incl added (map file_id_of [xlsx_upload; csv_upload]) /\
    incl (map file_id_of [xlsx_upload; csv_upload])
         (PyDict.keys (processed_files two_records_world) ++ added) /\
    (forall k, In k (PyDict.keys (processed_files two_records_world)) ->
       marked (processed_files w1) k
       = marked (processed_files two_records_world) k) /\
    PyDict.keys
      (processed_files
         {| processed_files :=
              [(file_id_of csv_upload, scenario_record);
               (file_id_of xlsx_upload,
                set_df (Some scenario_frame) (new_file_data xlsx_upload))];
            page :=
              page (snd (script scenario_reader scenario_reader
                           empty_writer empty_writer
                           [xlsx_upload; csv_upload] idle
                           two_records_world)) |})
    = filter (fun k => negb (marked (processed_files w1) k))
             (PyDict.keys (processed_files two_records_world) ++ added).
Proof.
  apply (listing_order scenario_reader scenario_reader empty_writer
           empty_writer [xlsx_upload; csv_upload] idle two_records_world).
  - simpl. constructor; [|constructor; [intros []|constructor]].
    intros [H|[]]. discriminate.
  - vm_compute. reflexivity.
Defined.

(** ** The suffix test *)

Lemma substring_append (p q : string) :
  substring (String.length p) (String.length q) (p ++ q)%string = q.
Proof.
  induction p as [|c p IH]; simpl; auto.
  induction q as [|c q IHq]; simpl; congruence.
Qed.

Lemma length_append (p q : string) :
  String.length (p ++ q)%string = String.length p + String.length q.
Proof. induction p as [|c p IH]; simpl; congruence. Qed.

Lemma substring_split (s : string) :
  forall k, k <= String.length s ->
  s = (substring 0 k s ++ substring k (String.length s - k) s)%string.
Proof.
  induction s as [|c s IH]; intros k Hk; simpl in *.
  - destruct k; [reflexivity | lia].
  - destruct k as [|k]; simpl.
    + f_equal. clear. induction s as [|c s IH]; simpl; congruence.
    + f_equal. apply IH. lia.
Qed.

(** X17.  The suffix test that picks the reader holds exactly of the
    names that are some prefix followed by the suffix; hence no name
    passes both the [.csv] and the [.xlsx] test. *)
Theorem endswith_spec (s suffix : string) :
  (PyStr.endswith s suffix = true <->
   exists prefix, s = (prefix ++ suffix)%string) /\
  (PyStr.endswith s ".csv" = true -> PyStr.endswith s ".xlsx" = false).
Proof.
  assert (Hspec : forall t suf,
            PyStr.endswith t suf = true <->
            exists prefix, t = (prefix ++ suf)%string).
  { intros t suf. unfold PyStr.endswith. rewrite andb_true_iff. split.
    - intros [Hle Heq]. apply Nat.leb_le in Hle. apply String.eqb_eq in Heq.
      exists (substring 0 (String.length t - String.length suf) t).
      assert (Hsp := substring_split t
                       (String.length t - String.length suf)).
      replace (String.length t - (String.length t - String.length suf))
        with (String.length suf) in Hsp by lia.
      rewrite Heq in Hsp. apply Hsp. lia.
    - intros [prefix Hp]. subst t. rewrite length_append. split.
      + apply Nat.leb_le. lia.
      + replace (String.length prefix + String.length suf
                 - String.length suf) with (String.length prefix) by lia.
        rewrite substring_append. apply String.eqb_refl. }
  split; [apply Hspec|].
  intros Hcsv. destruct (PyStr.endswith s ".xlsx") eqn:Hxlsx; auto.
  apply Hspec in Hcsv as [p1 H1]. apply Hspec in Hxlsx as [p2 H2].
  exfalso. subst s.
  assert (Hlen := f_equal String.length H2).
  rewrite !length_append in Hlen. simpl in Hlen.
  clear -H2. revert p2 H2.
  induction p1 as [|c p1 IH]; intros p2 H2.
  - destruct p2 as [|c2 [|c3 p2]]; simpl in H2; try discriminate.
    injection H2 as _ H2. destruct p2 as [|? [|? [|? [|? p2]]]];
      simpl in H2; discriminate.
  - destruct p2 as [|c2 p2]; simpl in H2.
    + injection H2 as _ H2.
      destruct p1 as [|? [|? [|? [|? [|? p1]]]]]; simpl in H2;
        try discriminate.
    + injection H2 as _ H2. now apply (IH p2).
Qed.

(** ** The life of a record *)

Lemma del_keys_incl (file_id : string) (d : PyDict.t FileData) :
  incl (PyDict.keys (PyDict.del file_id d)) (PyDict.keys d).
Proof.
  induction d as [|[k v] d IH]; simpl; [apply incl_refl|].
  destruct (String.eqb file_id k); simpl.
  - apply incl_tl, incl_refl.
  - intros x [Hx|Hx]; [now left | right; now apply IH].
Qed.

(** However it ends, the display loop leaves the keys as they are. *)
Lemma display_loop_keys
    (to_csv to_excel : DataFrame -> result (list Byte.byte)) (ui : widgets)
    (file_ids : list string) :
  forall (acc : list string) (w : world) (r : result (list string))
         (w' : world),
  display_loop to_csv to_excel ui file_ids acc w = (r, w') ->
  PyDict.keys (processed_files w') = PyDict.keys (processed_files w).
Proof.
  induction file_ids as [|k rest IH]; intros acc w r w' H.
  - simpl in H. injection H as _ H. now subst.
  - simpl in H. unfold bind at 1 in H.
    unfold subscript, bind, get_processed_files in H.
    destruct (PyDict.get k (processed_files w)) as [file_data|] eqn:Hk.
    2:{ injection H as _ H. now subst. }
    unfold ret at 1 in H.
    destruct (fd_to_delete file_data).
    + eapply IH; eauto.
    + destruct (panel to_csv to_excel ui k file_data w) as [r1 w1] eqn:Hp.
      destruct (returns_panel to_csv to_excel ui k file_data _ _ _ Hp)
        as [Hkeys _].
      destruct r1 as [[]|e].
      * rewrite <- Hkeys. apply (IH acc w1 r w'). exact H.
      * injection H as _ H. now subst.
Qed.

(** However it ends, the sweep adds no key. *)
Lemma sweep_keys_incl (deleted : list string) :
  forall (w : world) (r : result unit) (w' : world),
  sweep deleted w = (r, w') ->
  incl (PyDict.keys (processed_files w')) (PyDict.keys (processed_files w)).
Proof.
  induction deleted as [|k ks IH]; intros w r w' H.
  - simpl in H. injection H as _ H. subst. apply incl_refl.
  - change (sweep (k :: ks) w)
      with (bind (del_file k) (fun _ => sweep ks) w) in H.
    unfold bind in H.
    destruct (PyDict.contains k (processed_files w)) eqn:Hc.
    + rewrite (del_file_run _ _ Hc) in H. apply IH in H. simpl in H.
      intros x Hx. apply (del_keys_incl k). now apply H.
    + assert (Hdel : del_file k w = (Raise (PyException "KeyError" k), w))
        by (unfold del_file, bind, get_processed_files; now rewrite Hc).
      rewrite Hdel in H. injection H as _ H. subst. apply incl_refl.
Qed.

(** However a run ends, the keys it leaves were there when it began or
    are ids of the uploaded files. *)
Lemma script_keys
    (read_csv read_excel : UploadedFile -> result DataFrame)
    (to_csv to_excel : DataFrame -> result (list Byte.byte))
    (uploaded_files : list UploadedFile) (ui : widgets) (w : world)
    (r : result unit) (w' : world) (k : string) :
  script read_csv read_excel to_csv to_excel uploaded_files ui w = (r, w') ->
  PyDict.contains k (processed_files w') = true ->
  PyDict.contains k (processed_files w) = true \/
  In k (map file_id_of uploaded_files).
Proof.
  intros H Hk. unfold script in H. unfold bind at 1 in H.
  destruct (process_files read_csv read_excel uploaded_files w)
    as [r1 w1] eqn:H1.
  destruct (process_files_contains _ _ _ _ _ _ k H1) as [_ [Hdown _]].
  apply Hdown. clear Hdown H1.
  destruct r1 as [[]|e]; [|injection H as _ H; now subst].
  unfold bind at 1 in H. unfold get_processed_files at 1 in H.
  unfold bind at 1 in H.
  destruct (display_loop to_csv to_excel ui
              (PyDict.keys (processed_files w1)) [] w1)
    as [r2 w2] eqn:H2.
  apply display_loop_keys in H2.
  apply contains_In. rewrite <- H2. clear H2.
  destruct r2 as [deleted|e];
    [|injection H as _ H; subst; now apply contains_In].
  unfold bind in H.
  destruct (sweep deleted w2) as [r3 w3] eqn:H3.
  apply sweep_keys_incl in H3. apply H3.
  destruct r3 as [[]|e].
  - apply footer_registry in H. rewrite <- H. now apply contains_In.
  - injection H as _ H. subst. now apply contains_In.
Qed.

(** C1, as amended.  The registry holds at most one record per file id,
    and two uploads have the same id exactly when they have the same name
    and size.  Registering an upload whose id is present changes nothing,
    whatever its content.  Once the display loop has returned, the sweep
    removes every record that was marked for deletion and leaves none of
    them behind.  A file whose id is absent, as it is after the sweep,
    stays absent from the registry and from the listing through every run
    whose uploaded files do not include that id; and as soon as the
    upload loop of a run goes through uploaded files that include it,
    whether uploaded anew or still held by the uploader, the file is
    registered again, in a new record at the end of the registry, and
    listed. *)
Theorem registry_lifecycle
    (read_csv read_excel : UploadedFile -> result DataFrame)
    (to_csv to_excel : DataFrame -> result (list Byte.byte))
    (ui : widgets) (file : UploadedFile) (w : world) :
  NoDup (PyDict.keys (processed_files w)) ->
  (forall r w',
     process_file read_csv read_excel file w = (r, w') ->
     NoDup (PyDict.keys (processed_files w'))) /\
  (forall file',
     file_id_of file' = file_id_of file <->
     name file' = name file /\ size file' = size file) /\
  (forall file',
     name file' = name file -> size file' = size file ->
     PyDict.contains (file_id_of file) (processed_files w) = true ->
     process_file read_csv read_excel file' w = (Ok tt, w)) /\
  (forall deleted w1,
     display_loop to_csv to_excel ui (PyDict.keys (processed_files w)) [] w
     = (Ok deleted, w1) ->
     exists w2,
       sweep deleted w1 = (Ok tt, w2) /\
       NoDup (PyDict.keys (processed_files w2)) /\
       (forall file_id r,
          PyDict.get file_id (processed_files w) = Some r ->
          fd_to_delete r = true ->
          PyDict.contains file_id (processed_files w2) = false) /\
       (forall file_id r,
          PyDict.get file_id (processed_files w2) = Some r ->
          fd_to_delete r = false)) /\
  (forall uploaded_files w0,
     PyDict.contains (file_id_of file) (processed_files w0) = false ->
     ~ In (file_id_of file) (map file_id_of uploaded_files) ->
     ~ In (file_id_of file) (listing read_csv read_excel uploaded_files w0) /\
     (forall ui' r w',
        script read_csv read_excel to_csv to_excel uploaded_files ui' w0
        = (r, w') ->
        PyDict.contains (file_id_of file) (processed_files w') = false) /\
     stays_deleted read_csv read_excel to_csv to_excel uploaded_files
       (file_id_of file) (processed_files w0)) /\
  (forall w0,
     PyDict.contains (file_id_of file) (processed_files w0) = false ->
     exists r w' record,
       process_file read_csv read_excel file w0 = (r, w') /\
       PyDict.get (file_id_of file) (processed_files w') = Some record /\
       fd_original_name record = name file /\
       PyDict.keys (processed_files w')
       = PyDict.keys (processed_files w0) ++ [file_id_of file]) /\
  (forall uploaded_files w0 w1,
     In file uploaded_files ->
     process_files read_csv read_excel uploaded_files w0 = (Ok tt, w1) ->
     In (file_id_of file) (listing read_csv read_excel uploaded_files w0)).
Proof.
  intros Hnd.
  assert (Hstep : forall uploaded_files ui' w0 r w',
            PyDict.contains (file_id_of file) (processed_files w0) = false ->
            ~ In (file_id_of file) (map file_id_of uploaded_files) ->
            script read_csv read_excel to_csv to_excel uploaded_files ui' w0
            = (r, w') ->
            PyDict.contains (file_id_of file) (processed_files w') = false).
  { intros uploaded_files ui' w0 r w' Hc Hup H.
    destruct (PyDict.contains (file_id_of file) (processed_files w')) eqn:Hc';
      auto.
    destruct (script_keys _ _ _ _ _ _ _ _ _ _ H Hc') as [Hin|Hin];
      [congruence | contradiction]. }
  assert (Hlist : forall uploaded_files w0,
            PyDict.contains (file_id_of file) (processed_files w0) = false ->
            ~ In (file_id_of file) (map file_id_of uploaded_files) ->
            ~ In (file_id_of file)
                (listing read_csv read_excel uploaded_files w0)).
  { intros uploaded_files w0 Hc Hup Hin. unfold listing in Hin.
    destruct (process_files read_csv read_excel uploaded_files w0)
      as [r1 w1] eqn:H1.
    destruct (process_files_contains _ _ _ _ _ _ (file_id_of file) H1)
      as [_ [Hdown _]].
    apply contains_In in Hin. destruct (Hdown Hin); [congruence|contradiction]. }
  split; [|split; [|split; [|split; [|split; [|split]]]]].
  - intros r w' H. rewrite (process_file_keys _ _ _ _ _ _ H).
    destruct (PyDict.contains _ _) eqn:Hc; auto.
    apply NoDup_app; auto.
    + constructor; [intros []|constructor].
    + intros x Hx [Hk|[]]. subst x. apply contains_In in Hx. congruence.
  - intros file'. apply file_id_of_inj.
  - intros file' Hname Hsize Hc. apply process_file_known.
    replace (file_id_of file') with (file_id_of file); auto.
    symmetry. now apply file_id_of_inj.
  - intros deleted w1 Hloop. eapply sweep_after_display; eauto.
  - intros uploaded_files w0 Hc Hup.
    split; [now apply Hlist|]. split.
    + intros ui' r w' H. eapply Hstep; eauto.
    + intros uis.
      assert (Habs : PyDict.contains (file_id_of file)
                       (runs read_csv read_excel to_csv to_excel
                             uploaded_files uis (processed_files w0))
                     = false).
      { generalize (processed_files w0) Hc. clear Hc.
        induction uis as [|ui' uis IH]; intros session Hc; simpl; auto.
        apply IH. unfold run.
        eapply Hstep; [|exact Hup|apply surjective_pairing]. exact Hc. }
      apply Hlist; auto.
  - intros w0 Hc.
    destruct (process_file read_csv read_excel file w0) as [r w'] eqn:Hrun.
    exists r, w'.
    assert (Hkeys := process_file_keys _ _ _ _ _ _ Hrun).
    rewrite Hc in Hkeys.
    rewrite process_file_new in Hrun by assumption.
    destruct (parse read_csv read_excel file) as [[t|[cls msg|]]|];
      injection Hrun as _ Hrun; subst w'; simpl in *;
      rewrite <- (set_absent _ _ _ _ Hc);
      (eexists; split; [reflexivity|]; split; [apply get_set_same|]; split;
       [reflexivity | now rewrite set_absent by assumption]).
  - intros uploaded_files w0 w1 Hin H1. unfold listing. rewrite H1. simpl.
    apply contains_In.
    destruct (process_files_contains _ _ _ _ _ _ (file_id_of file) H1)
      as [_ [_ Hall]].
    apply Hall; auto. now apply in_map.
Qed.

Lemma registry_lifecycle_witness :
  NoDup (PyDict.keys (processed_files marked_world)) /\
  (forall r w',
     process_file scenario_reader scenario_reader csv_upload marked_world
     = (r, w') ->
     NoDup (PyDict.keys (processed_files w'))) /\
  (forall file',
     file_id_of file' = file_id_of csv_upload <->
     name file' = name csv_upload /\ size file' = size csv_upload) /\
  (forall file',
     name file' = name csv_upload -> size file' = size csv_upload ->
     PyDict.contains (file_id_of csv_upload) (processed_files marked_world)
     = true ->
     process_file scenario_reader scenario_reader file' marked_world
     = (Ok tt, marked_world)) /\
  (forall deleted w1,
     display_loop empty_writer empty_writer idle
       (PyDict.keys (processed_files marked_world)) [] marked_world
     = (Ok deleted, w1) ->
     exists w2,
       sweep deleted w1 = (Ok tt, w2) /\
       NoDup (PyDict.keys (processed_files w2)) /\
       (forall file_id r,
          PyDict.get file_id (processed_files marked_world) = Some r ->
          fd_to_delete r = true ->
          PyDict.contains file_id (processed_files w2) = false) /\
       (forall file_id r,
          PyDict.get file_id (processed_files w2) = Some r ->
          fd_to_delete r = false)) /\
  (forall uploaded_files w0,
     PyDict.contains (file_id_of csv_upload) (processed_files w0) = false ->
     ~ In (file_id_of csv_upload) (map file_id_of uploaded_files) ->
     ~ In (file_id_of csv_upload)
         (listing scenario_reader scenario_reader uploaded_files w0) /\
     (forall ui' r w',
        script scenario_reader scenario_reader empty_writer empty_writer
          uploaded_files ui' w0
        = (r, w') ->
        PyDict.contains (file_id_of csv_upload) (processed_files w') = false) /\
     stays_deleted scenario_reader scenario_reader empty_writer empty_writer
       uploaded_files (file_id_of csv_upload) (processed_files w0)) /\
  (forall w0,
     PyDict.contains (file_id_of csv_upload) (processed_files w0) = false ->
     exists r w' record,
       process_file scenario_reader scenario_reader csv_upload w0 = (r, w') /\
       PyDict.get (file_id_of csv_upload) (processed_files w') = Some record /\
       fd_original_name record = name csv_upload /\
       PyDict.keys (processed_files w')
       = PyDict.keys (processed_files w0) ++ [file_id_of csv_upload]) /\
  (forall uploaded_files w0 w1,
     In csv_upload uploaded_files ->
     process_files scenario_reader scenario_reader uploaded_files w0
     = (Ok tt, w1) ->
     In (file_id_of csv_upload)
        (listing scenario_reader scenario_reader uploaded_files w0)).
Proof.
  assert (Hnd : NoDup (PyDict.keys (processed_files marked_world)))
    by (simpl; constructor; [intros []|constructor]).
  split; [exact Hnd|].
  apply (registry_lifecycle scenario_reader scenario_reader
           empty_writer empty_writer idle csv_upload marked_world Hnd).
Defined.

(** C1, as stated, fails while the file stays in the uploader.  Delete
    is pressed on [a.csv] and the run is cut short; the next run sweeps
    the record and leaves the registry empty; the run after that, with
    nothing uploaded anew, registers the file again and lists it. *)
Lemma deleted_file_is_listed_again :
  runs scenario_reader scenario_reader empty_writer empty_writer
    [csv_upload] [deleting (file_id_of csv_upload); idle] scenario_session
  = [] /\
  In (file_id_of csv_upload)
     (listing scenario_reader scenario_reader [csv_upload] empty_world) /\
  ~ stays_deleted scenario_reader scenario_reader empty_writer empty_writer
      [csv_upload] (file_id_of csv_upload)
      (runs scenario_reader scenario_reader empty_writer empty_writer
         [csv_upload] [deleting (file_id_of csv_upload); idle]
         scenario_session).
Proof.
  split; [vm_compute; reflexivity|].
  split; [vm_compute; now left|].
  intros H. apply (H []). vm_compute. now left.
Qed.
